(** * WorkoutPlanner: personal records, training load, fatigue and plan structure

    A shallow embedding of the core of [workouttest11.py]: the text parser
    [parse_workout_data] and, of class [WorkoutPlanner], the load
    calculator, the PR tracker, the fatigue/recovery engine, the week/day
    structure operations, the navigation, the exercise and cell edits and
    the file load.  Widgets, drawing, graphs and file formats are left out;
    what a handler reads from a widget is an argument of its function.

    Conventions of the embedding.
    - [self] is the record [Planner]; a method is a function on it.  Methods
      that can raise return [Res].
    - Python numbers: [int] is [Z]; a [float] is a [pyfloat], a finite
      float being the rational it stands for, next to the two infinities
      and nan.  The weights, the PR values and the loads are floats, with
      the comparisons of Python on them.  The fatigue of a muscle is a
      rational, and the sums, differences, minima and maxima the engine
      takes of it are exact.
    - Python's builtins [int()], [float()], the product of an int and a
      float, [datetime.strptime], [strftime] and [date.today()] are not code
      of the repository: they are the interface [Builtins], and every
      result holds for all of its instances.  What [float()] reads, how the
      product rounds, and from which int on it raises OverflowError is
      theirs to say.  [dec_builtins] is one instance, used to run the
      model: it reads plain decimal literals, [inf] and [nan] and ISO dates,
      and rounds to the nearest double.
    - A [date] object is its proleptic Gregorian ordinal; [self.current_date]
      holds a [date] object or, after [recalculate_prs], the stored string of
      a day, hence [pydate].
    - Dicts that the code iterates ([engagement_map], [recovery_rates],
      [muscle_recovery]) are insertion-ordered association lists [dict];
      [self.prs], only ever accessed by key, is a [gmap].
    - A method that raises gives [Raise] and no state; where the state at
      the raise matters, the writes before it are a function of their own
      ([write_cell]).
    - Strings are ASCII: [lower], [strip] and [isspace] follow Python on
      code points below 128. *)

From Stdlib Require Import QArith Qminmax Lqa Ascii String.
From stdpp Require Import gmap strings list pretty.

Open Scope Z_scope.

(** ** Exceptions *)

Inductive exn := ValueError | KeyError | TypeError | IndexError | OverflowError.

Inductive Res (A : Type) : Type :=
| Ok (a : A)
| Raise (e : exn).
Arguments Ok {A} a.
Arguments Raise {A} e.

#[global] Instance Res_ret : MRet Res := fun A a => Ok a.
#[global] Instance Res_bind : MBind Res := fun A B k m =>
  match m with
  | Ok a => k a
  | Raise e => Raise e
  end.

#[global] Instance Res_fmap : FMap Res := fun A B f m =>
  match m with
  | Ok a => Ok (f a)
  | Raise e => Raise e
  end.

(** The call returns: it raises nothing. *)
Definition returns {A : Type} (m : Res A) : Prop := exists a, m = Ok a.

#[global] Instance returns_dec {A : Type} (m : Res A) : Decision (returns m).
Proof.
  destruct m as [a | e]; [left; now exists a | right; intros [a Ha]; discriminate].
Defined.

(** [for x in xs: st = body x st], stopping at the first exception. *)
Fixpoint for_each {A S : Type} (body : A -> S -> Res S) (xs : list A) (st : S) : Res S :=
  match xs with
  | [] => Ok st
  | x :: rest => st' ← body x st; for_each body rest st'
  end.

(** ** Insertion-ordered dicts *)

Definition dict (V : Type) : Type := list (string * V).

Fixpoint dict_get {V : Type} (k : string) (d : dict V) : option V :=
  match d with
  | [] => None
  | (k', v) :: rest => if String.eqb k k' then Some v else dict_get k rest
  end.

(** [d[k] = v]: an existing key keeps its position, a new one goes last. *)
Fixpoint dict_set {V : Type} (k : string) (v : V) (d : dict V) : dict V :=
  match d with
  | [] => [(k, v)]
  | (k', v') :: rest =>
      if String.eqb k k' then (k', v) :: rest else (k', v') :: dict_set k v rest
  end.

Definition dict_keys {V : Type} (d : dict V) : list string := map fst d.

(** ** Numbers *)

Definition Qgtb (x y : Q) : bool :=
  match Qcompare x y with Gt => true | _ => false end.

(** A Python [float]: a finite number, an infinity or nan.  A finite float
    is the rational it stands for. *)
Inductive pyfloat :=
| Finite (q : Q)
| PosInf
| NegInf
| NaN.

(** [x > y]: false as soon as one side is nan. *)
Definition float_gtb (x y : pyfloat) : bool :=
  match x, y with
  | Finite a, Finite b => Qgtb a b
  | PosInf, Finite _ | PosInf, NegInf | Finite _, NegInf => true
  | _, _ => false
  end.

(** [x == y]: nan equals nothing. *)
Definition float_eqb (x y : pyfloat) : bool :=
  match x, y with
  | Finite a, Finite b => Qeq_bool a b
  | PosInf, PosInf | NegInf, NegInf => true
  | _, _ => false
  end.

Definition float_lt (x y : pyfloat) : Prop := float_gtb y x = true.
Definition float_eq (x y : pyfloat) : Prop := float_eqb x y = true.

(** [x + y], a finite sum kept exact. *)
Definition float_add (x y : pyfloat) : pyfloat :=
  match x, y with
  | NaN, _ | _, NaN => NaN
  | Finite a, Finite b => Finite (a + b)
  | PosInf, NegInf | NegInf, PosInf => NaN
  | PosInf, _ | _, PosInf => PosInf
  | NegInf, _ | _, NegInf => NegInf
  end.

(** ** Dates *)

Inductive pydate :=
| DateObj (ordinal : Z)
| DateStr (iso : string).

(** ** The builtins the planner calls *)

Class Builtins := {
  (** [int(s)]: [None] stands for ValueError. *)
  py_int : string -> option Z;
  (** [float(s)]: [None] stands for ValueError. *)
  py_float : string -> option pyfloat;
  (** [datetime.strptime(s, '%Y-%m-%d').date()]: [None] stands for ValueError. *)
  strptime : string -> option Z;
  (** [d.strftime('%Y-%m-%d')]. *)
  strftime : Z -> string;
  (** [n * x] for an int [n] and a float [x]: the int is converted to a
      float and the two floats are multiplied, with the machine's rounding;
      [None] stands for the OverflowError of an int too large for a float. *)
  int_times_float : Z -> pyfloat -> option pyfloat;
  (** [date.today()]. *)
  today : Z
}.

(** ** Data model *)

(** An exercise entry: [{'exercise':, 'sets':, 'reps':, 'weight':}], all text. *)
Record Exercise := {
  ex_name : string;
  ex_sets : string;
  ex_reps : string;
  ex_weight : string
}.

(** A day: [{'day':, 'exercises':}] with an optional ['date'] key. *)
Record Day := {
  day_label : string;
  day_date : option string;
  day_exercises : list Exercise
}.

(** [{'value':, 'date':}] *)
Record Mark (V : Type) := {
  value : V;
  mark_date : option pydate
}.
Arguments value {V} _.
Arguments mark_date {V} _.

(** [{'date':, 'weight':, 'reps':}] *)
Record HistoryEntry := {
  h_date : pydate;
  h_weight : pyfloat;
  h_reps : Z
}.

(** [{'weight':, 'reps':, 'history':}] *)
Record PRData := {
  pr_weight : Mark pyfloat;
  pr_reps : Mark Z;
  pr_history : list HistoryEntry
}.

(** [{'fatigue':, 'last_workout':}] *)
Record MuscleState := {
  fatigue : Q;
  last_workout : option Z
}.

Record Planner := {
  workouts : list (list Day);
  total_weeks : Z;
  current_week : Z;
  current_day : Z;
  current_date : pydate;
  prs : gmap string PRData;
  muscle_recovery : dict MuscleState
}.

Definition set_workouts (w : list (list Day)) (st : Planner) : Planner :=
  {| workouts := w; total_weeks := total_weeks st; current_week := current_week st;
     current_day := current_day st; current_date := current_date st; prs := prs st;
     muscle_recovery := muscle_recovery st |}.

Definition set_total_weeks (n : Z) (st : Planner) : Planner :=
  {| workouts := workouts st; total_weeks := n; current_week := current_week st;
     current_day := current_day st; current_date := current_date st; prs := prs st;
     muscle_recovery := muscle_recovery st |}.

Definition set_current_day (n : Z) (st : Planner) : Planner :=
  {| workouts := workouts st; total_weeks := total_weeks st; current_week := current_week st;
     current_day := n; current_date := current_date st; prs := prs st;
     muscle_recovery := muscle_recovery st |}.

Definition set_current_date (d : pydate) (st : Planner) : Planner :=
  {| workouts := workouts st; total_weeks := total_weeks st; current_week := current_week st;
     current_day := current_day st; current_date := d; prs := prs st;
     muscle_recovery := muscle_recovery st |}.

Definition set_prs (p : gmap string PRData) (st : Planner) : Planner :=
  {| workouts := workouts st; total_weeks := total_weeks st; current_week := current_week st;
     current_day := current_day st; current_date := current_date st; prs := p;
     muscle_recovery := muscle_recovery st |}.

Definition set_muscle_recovery (m : dict MuscleState) (st : Planner) : Planner :=
  {| workouts := workouts st; total_weeks := total_weeks st; current_week := current_week st;
     current_day := current_day st; current_date := current_date st; prs := prs st;
     muscle_recovery := m |}.

(** ** Constants of [__init__] *)

Definition recovery_rates : dict Z :=
  [("chest", 15); ("shoulders", 15); ("biceps", 20); ("triceps", 20);
   ("abs", 25); ("obliques", 25); ("quads", 15); ("calves", 25);
   ("trapezius", 20); ("back", 15); ("lats", 15); ("glutes", 15);
   ("hamstrings", 15); ("forearms", 25); ("rear delts", 20)]%string.

Definition fatigue_threshold : Q := 100.
Definition fatigue_multiplier : Q := 1 # 10.

(** [self.engagement_map], in the order of the dict literal. *)
Definition engagement_map : dict (dict Q) :=
  [
   ("bench press", [("chest", 8 # 10); ("triceps", 2 # 10); ("shoulders", 2 # 10)]);
   ("incline db press", [("chest", 7 # 10); ("shoulders", 3 # 10); ("triceps", 2 # 10)]);
   ("db bench press", [("chest", 8 # 10); ("triceps", 2 # 10); ("shoulders", 2 # 10)]);
   ("decline bench press", [("chest", 8 # 10); ("triceps", 2 # 10); ("shoulders", 2 # 10)]);
   ("pec fly machine", [("chest", 1)]);
   ("cable chest fly", [("chest", 1)]);
   ("dip", [("chest", 6 # 10); ("triceps", 4 # 10)]);
   ("shoulder press", [("shoulders", 8 # 10); ("triceps", 2 # 10)]);
   ("db lateral raise", [("shoulders", 1)]);
   ("face pull", [("shoulders", 6 # 10); ("trapezius", 4 # 10); ("rear delts", 3 # 10)]);
   ("overhead press", [("shoulders", 8 # 10); ("triceps", 2 # 10)]);
   ("front raise", [("shoulders", 1)]);
   ("lat raises", [("shoulders", 1)]);
   ("rear delt fly", [("shoulders", 1)]);
   ("bicep curl", [("biceps", 1)]);
   ("hammer curl", [("biceps", 8 # 10); ("forearms", 2 # 10)]);
   ("preacher curl", [("biceps", 1)]);
   ("cable curl", [("biceps", 1)]);
   ("ez bar curl", [("biceps", 9 # 10); ("forearms", 1 # 10)]);
   ("skull crushers", [("triceps", 1)]);
   ("tricep extension", [("triceps", 1)]);
   ("triceps pushdown", [("triceps", 1)]);
   ("triceps rope pulldown", [("triceps", 1)]);
   ("squat", [("quads", 6 # 10); ("glutes", 3 # 10); ("hamstrings", 2 # 10)]);
   ("back squat", [("quads", 6 # 10); ("glutes", 3 # 10); ("hamstrings", 2 # 10)]);
   ("front squat", [("quads", 7 # 10); ("glutes", 2 # 10); ("hamstrings", 1 # 10)]);
   ("leg press", [("quads", 7 # 10); ("glutes", 2 # 10); ("hamstrings", 1 # 10)]);
   ("hack squat", [("quads", 8 # 10); ("glutes", 2 # 10)]);
   ("bulgarian split squat", [("quads", 5 # 10); ("glutes", 3 # 10); ("hamstrings", 2 # 10)]);
   ("leg extension", [("quads", 1)]);
   ("leg curl", [("hamstrings", 1)]);
   ("romanian deadlift", [("hamstrings", 6 # 10); ("glutes", 3 # 10); ("back", 2 # 10)]);
   ("prone machine hamstring curl", [("hamstrings", 1)]);
   ("calf raise", [("calves", 1)]);
   ("deadlift", [("back", 5 # 10); ("glutes", 3 # 10); ("hamstrings", 3 # 10); ("trapezius", 2 # 10); ("forearms", 1 # 10)]);
   ("deadlift paused", [("back", 5 # 10); ("glutes", 3 # 10); ("hamstrings", 3 # 10); ("trapezius", 2 # 10); ("forearms", 1 # 10)]);
   ("lat pulldown", [("lats", 8 # 10); ("biceps", 2 # 10)]);
   ("pull up", [("lats", 7 # 10); ("biceps", 3 # 10)]);
   ("row", [("back", 7 # 10); ("biceps", 3 # 10)]);
   ("barbell row", [("back", 7 # 10); ("biceps", 2 # 10); ("forearms", 1 # 10)]);
   ("t bar row", [("back", 8 # 10); ("biceps", 2 # 10)]);
   ("seated cable row", [("back", 7 # 10); ("biceps", 2 # 10); ("forearms", 1 # 10)]);
   ("back extension", [("back", 8 # 10); ("glutes", 2 # 10)]);
   ("crunch", [("abs", 1)]);
   ("plank", [("abs", 7 # 10); ("obliques", 3 # 10)]);
   ("reverse fly", [("rear delts", 8 # 10); ("trapezius", 2 # 10)]);
   ("bent over lateral raise", [("rear delts", 9 # 10); ("trapezius", 1 # 10)])
  ]%Q%string.

(** ** Strings *)

(** [c.lower()] on an ASCII letter; other bytes are kept. *)
Definition lower_ascii (c : ascii) : ascii :=
  let n := N_of_ascii c in
  if ((65 <=? n) && (n <=? 90))%N then ascii_of_N (n + 32) else c.

Fixpoint lower (s : string) : string :=
  match s with
  | EmptyString => EmptyString
  | String c rest => String (lower_ascii c) (lower rest)
  end.

(** [s.startswith(key)] *)
Fixpoint startswith (key s : string) : bool :=
  match key, s with
  | EmptyString, _ => true
  | String a key', String b s' => Ascii.eqb a b && startswith key' s'
  | String _ _, EmptyString => false
  end.

(** [key in s] *)
Fixpoint str_in (key s : string) : bool :=
  startswith key s ||
  match s with
  | EmptyString => false
  | String _ rest => str_in key rest
  end.

(** [bool(s)] of a string. *)
Definition truthy (s : string) : bool := negb (String.eqb s "").

(** The strings of [l] are pairwise different. *)
Fixpoint distinct (l : list string) : bool :=
  match l with
  | [] => true
  | x :: rest => negb (existsb (String.eqb x) rest) && distinct rest
  end.

(** An engagement names each muscle once, every muscle has a recovery rate,
    and every fraction is above 0. *)
Definition engagement_ok (engagement : dict Q) : bool :=
  distinct (dict_keys engagement) &&
  forallb (fun '(muscle, factor) =>
             match dict_get muscle recovery_rates with
             | Some _ => Qgtb factor 0
             | None => false
             end) engagement.

(** ** Lists, Python style *)

(** The position [l[i]] reads: a negative index counts from the end. *)
Definition py_pos {A : Type} (l : list A) (i : Z) : Res nat :=
  let n := Z.of_nat (length l) in
  let j := if i <? 0 then i + n else i in
  if (0 <=? j) && (j <? n) then Ok (Z.to_nat j) else Raise IndexError.

(** [l[i]] *)
Definition py_index {A : Type} (l : list A) (i : Z) : Res A :=
  j ← py_pos l i;
  match l !! j with
  | Some x => Ok x
  | None => Raise IndexError
  end.

(** [l[:k]] *)
Definition py_slice_to {A : Type} (l : list A) (k : Z) : list A :=
  if k <? 0 then take (Z.to_nat (Z.of_nat (length l) + k)) l else take (Z.to_nat k) l.

(** [len(l)] *)
Definition len {A : Type} (l : list A) : Z := Z.of_nat (length l).

(** [l.index(x)] on strings *)
Fixpoint index_of (x : string) (l : list string) : Res nat :=
  match l with
  | [] => Raise ValueError
  | y :: rest => if String.eqb y x then Ok 0%nat else S <$> index_of x rest
  end.

(** What the planner shows the user. *)
Inductive Dialog :=
| ShowWarning (title message : string)
| ShowInfo (title message : string).

(** The two shapes [restructure_workouts] tells apart: a list of lists, or
    a flat list of days. *)
Inductive WorkoutsInput :=
| Nested (weeks : list (list Day))
| Flat (days : list Day).

Section Planner.
Context `{Builtins}.

(** ** Load calculator *)

(** [calculate_load]: the product [sets * reps] is an exact int, and its
    product with the float [weight] is the builtin's; the [except] clause
    catches ValueError only. *)
Definition calculate_load (exercise : Exercise) : Res pyfloat :=
  match py_int (ex_sets exercise) with
  | None => Ok (Finite 0)
  | Some sets =>
      match py_int (ex_reps exercise) with
      | None => Ok (Finite 0)
      | Some reps =>
          match py_float (ex_weight exercise) with
          | None => Ok (Finite 0)
          | Some weight =>
              match int_times_float (sets * reps) weight with
              | Some load => Ok load
              | None => Raise OverflowError
              end
          end
      end
  end.

(** ** PR tracker *)

Definition new_pr : PRData :=
  {| pr_weight := {| value := Finite 0; mark_date := None |};
     pr_reps := {| value := 0; mark_date := None |};
     pr_history := [] |}.

(** One more name of [initialize_prs]'s scan: a record for an unseen name. *)
Definition init_pr (p : gmap string PRData) (exercise : Exercise) : gmap string PRData :=
  match p !! ex_name exercise with
  | Some _ => p
  | None => <[ex_name exercise := new_pr]> p
  end.

Definition initialize_prs (st : Planner) : gmap string PRData :=
  foldl (fun p week =>
           foldl (fun p day => foldl init_pr p (day_exercises day)) p week)
        ∅ (workouts st).

Definition update_prs (exercise : Exercise) (st : Planner) : Planner :=
  let exercise_name := ex_name exercise in
  match py_float (ex_weight exercise) with
  | None => st
  | Some weight =>
      match py_int (ex_reps exercise) with
      | None => st
      | Some reps =>
          let pr_data := default new_pr (prs st !! exercise_name) in
          let pr_data :=
            if float_gtb weight (value (pr_weight pr_data))
            then {| pr_weight := {| value := weight; mark_date := Some (current_date st) |};
                    pr_reps := pr_reps pr_data;
                    pr_history := pr_history pr_data |}
            else pr_data in
          let pr_data :=
            if float_eqb weight (value (pr_weight pr_data)) && (value (pr_reps pr_data) <? reps)
            then {| pr_weight := pr_weight pr_data;
                    pr_reps := {| value := reps; mark_date := Some (current_date st) |};
                    pr_history := pr_history pr_data |}
            else pr_data in
          let pr_data :=
            {| pr_weight := pr_weight pr_data;
               pr_reps := pr_reps pr_data;
               pr_history := pr_history pr_data ++
                 [{| h_date := current_date st; h_weight := weight; h_reps := reps |}] |} in
          set_prs (<[exercise_name := pr_data]> (prs st)) st
      end
  end.

(** [recalculate_prs]'s loop body for one day. *)
Definition recalculate_day (day : Day) (st : Planner) : Planner :=
  let st := set_current_date (match day_date day with
                              | Some d => DateStr d
                              | None => current_date st
                              end) st in
  foldl (fun st exercise => update_prs exercise st) st (day_exercises day).

Definition recalculate_prs (st : Planner) : Planner :=
  let st := set_prs (initialize_prs st) st in
  foldl (fun st week => foldl (fun st day => recalculate_day day st) st week)
        st (workouts st).

(** ** Fatigue and recovery engine *)

Definition initialize_muscle_recovery : dict MuscleState :=
  map (fun '(muscle, _) => (muscle, {| fatigue := 0; last_workout := None |}))
      recovery_rates.

(** [next((key for key in self.engagement_map.keys() if key in exercise_name), None)] *)
Definition matched_exercise (exercise_name : string) : option string :=
  List.find (fun key => str_in key exercise_name) (dict_keys engagement_map).

(** [min(load * factor * self.fatigue_multiplier / 100, self.fatigue_threshold)]
    for a load above 0.  A finite product is kept exact.  An infinite load
    makes the product infinite, the factors of the table being above 0, and
    the minimum is the threshold. *)
Definition fatigue_increase (load : pyfloat) (factor : Q) : Q :=
  match load with
  | Finite load => Qmin (load * factor * fatigue_multiplier / 100) fatigue_threshold
  | _ => fatigue_threshold
  end.

(** The body of [engage_muscles]'s loop over [engagement.items()]. *)
Definition engage_muscle (load : pyfloat) (workout_date : Z)
    (mr : dict MuscleState) (item : string * Q) : dict MuscleState :=
  let '(muscle, factor) := item in
  let data := match dict_get muscle mr with
              | Some data => data
              | None => {| fatigue := 0; last_workout := Some workout_date |}
              end in
  let fatigue_increase := fatigue_increase load factor in
  let current_fatigue := fatigue data in
  let new_fatigue := Qmin fatigue_threshold (current_fatigue + fatigue_increase) in
  dict_set muscle {| fatigue := new_fatigue; last_workout := Some workout_date |} mr.

(** What [engage_muscles] does once it has the load. *)
Definition engage_loaded (load : pyfloat) (exercise : Exercise) (workout_date : Z)
    (st : Planner) : Planner :=
  let exercise_name := lower (ex_name exercise) in
  match matched_exercise exercise_name with
  | Some key =>
      if truthy key && float_gtb load (Finite 0) then
        match dict_get key engagement_map with
        | Some engagement =>
            set_muscle_recovery
              (foldl (engage_muscle load workout_date) (muscle_recovery st) engagement) st
        | None => st
        end
      else st
  | None => st
  end.

Definition engage_muscles (exercise : Exercise) (workout_date : Z) (st : Planner)
    : Res Planner :=
  load ← calculate_load exercise;
  Ok (engage_loaded load exercise workout_date st).

(** [(self.current_date - last_workout).days] *)
Definition days_between (current : pydate) (last : Z) : Res Z :=
  match current with
  | DateObj o => Ok (o - last)
  | DateStr _ => Raise TypeError
  end.

(** [self.recovery_rates[muscle]] *)
Definition recovery_rate_of (muscle : string) : Res Z :=
  match dict_get muscle recovery_rates with
  | Some r => Ok r
  | None => Raise KeyError
  end.

(** The body of [calculate_current_fatigue]'s loop: the entry it leaves. *)
Definition current_fatigue_item (current : pydate) (item : string * MuscleState)
    : Res (string * MuscleState) :=
  let '(muscle, data) := item in
  match last_workout data with
  | Some last =>
      delta ← days_between current last;
      let days_since_workout := Z.max 0 delta in
      recovery_rate ← recovery_rate_of muscle;
      let recovery_amount := recovery_rate * days_since_workout in
      let current_fatigue := Qmax 0 (fatigue data - inject_Z recovery_amount) in
      Ok (muscle, {| fatigue := current_fatigue; last_workout := Some last |})
  | None => Ok item
  end.

(** The body of [update_muscle_recovery]'s loop: no clamp on the days. *)
Definition muscle_recovery_item (current : pydate) (item : string * MuscleState)
    : Res (string * MuscleState) :=
  let '(muscle, recovery_data) := item in
  match last_workout recovery_data with
  | Some last_workout_date =>
      days_elapsed ← days_between current last_workout_date;
      recovery_rate ← recovery_rate_of muscle;
      let recovery_amount := recovery_rate * days_elapsed in
      let current_fatigue := fatigue recovery_data in
      let new_fatigue := Qmax (current_fatigue - inject_Z recovery_amount) 0 in
      Ok (muscle, {| fatigue := new_fatigue; last_workout := Some last_workout_date |})
  | None => Ok item
  end.

(** [for muscle, data in d.items(): d[muscle] = ...]: every entry is rewritten
    in place, in order, until one raises. *)
Fixpoint for_items {V : Type} (body : string * V -> Res (string * V)) (d : dict V)
    : Res (dict V) :=
  match d with
  | [] => Ok []
  | item :: rest =>
      item' ← body item;
      rest' ← for_items body rest;
      Ok (item' :: rest')
  end.

Definition calculate_current_fatigue (st : Planner) : Res Planner :=
  mr ← for_items (current_fatigue_item (current_date st)) (muscle_recovery st);
  Ok (set_muscle_recovery mr st).

Definition update_muscle_recovery (st : Planner) : Res Planner :=
  mr ← for_items (muscle_recovery_item (current_date st)) (muscle_recovery st);
  Ok (set_muscle_recovery mr st).

(** ** Plan structure *)

(** The body of [restructure_workouts]'s loop; the state is
    [(restructured, week)]. *)
Definition restructure_step (acc : list (list Day) * list Day) (workout : Day)
    : list (list Day) * list Day :=
  let '(restructured, week) := acc in
  let week := week ++ [workout] in
  if len week =? 5 then (restructured ++ [week], []) else (restructured, week).

Definition restructure_workouts (input : WorkoutsInput) : list (list Day) :=
  match input with
  | Nested weeks => weeks
  | Flat days =>
      let '(restructured, week) := foldl restructure_step ([], []) days in
      match week with
      | [] => restructured
      | _ :: _ => restructured ++ [week]
      end
  end.

Definition set_day_label (label : string) (d : Day) : Day :=
  {| day_label := label; day_date := day_date d; day_exercises := day_exercises d |}.

(** [renumber_all_days]' inner loop: the week relabelled from [day_number],
    and the next number. *)
Fixpoint renumber_week (day_number : Z) (week : list Day) : list Day * Z :=
  match week with
  | [] => ([], day_number)
  | workout :: rest =>
      let '(rest', next) := renumber_week (day_number + 1) rest in
      (set_day_label ("Day " +:+ pretty day_number) workout :: rest', next)
  end.

Fixpoint renumber_weeks (day_number : Z) (weeks : list (list Day)) : list (list Day) :=
  match weeks with
  | [] => []
  | week :: rest =>
      let '(week', next) := renumber_week day_number week in
      week' :: renumber_weeks next rest
  end.

Definition renumber_all_days (st : Planner) : Planner :=
  set_workouts (renumber_weeks 1 (workouts st)) st.

(** [workout_date <= self.current_date] *)
Definition date_le (d : Z) (current : pydate) : Res bool :=
  match current with
  | DateObj o => Ok (d <=? o)
  | DateStr _ => Raise TypeError
  end.

(** [datetime.strptime(day.get('date', '2000-01-01'), '%Y-%m-%d').date()] *)
Definition parsed_date (day : Day) : Res Z :=
  match strptime (default "2000-01-01"%string (day_date day)) with
  | Some d => Ok d
  | None => Raise ValueError
  end.

(** The replay both [load_workout_data] and [calculate_muscle_engagement]
    run for one day: engage its exercises when its date is not after the
    current date. *)
Definition engage_day (day : Day) (st : Planner) : Res Planner :=
  workout_date ← parsed_date day;
  before ← date_le workout_date (current_date st);
  if (before : bool)
  then for_each (fun exercise st => engage_muscles exercise workout_date st)
                (day_exercises day) st
  else Ok st.

(** [update_muscle_visualization]: the drawing apart, it decays the fatigue. *)
Definition update_muscle_visualization (st : Planner) : Res Planner :=
  calculate_current_fatigue st.

Definition calculate_muscle_engagement (st : Planner) : Res Planner :=
  st ← for_each (fun week st =>
                   days ← py_index (workouts st) (week - 1);
                   for_each engage_day days st)
                (seqZ 1 (total_weeks st)) st;
  update_muscle_visualization st.

(** [sum(self.calculate_load(exercise) for week ... for day ... for exercise ...)] *)
Definition total_load (weeks : list (list Day)) : Res pyfloat :=
  for_each (fun exercise total => load ← calculate_load exercise; Ok (float_add total load))
           (concat (day_exercises <$> concat weeks)) (Finite 0).

(** [update_volume_load]: it sums the loads of the plan for the label, then
    recomputes the engagement. *)
Definition update_volume_load (st : Planner) : Res Planner :=
  _ ← total_load (workouts st);
  calculate_muscle_engagement st.

(** The row [load_workout_data] builds for one exercise of the viewed day. *)
Definition load_exercise_row (exercise : Exercise) (st : Planner) : Res Planner :=
  let st := update_prs exercise st in
  _ ← calculate_load exercise;
  match prs st !! ex_name exercise with
  | Some _ => Ok st
  | None => Raise KeyError
  end.

Definition load_workout_data (st : Planner) : Res (Planner * list Dialog) :=
  match workouts st with
  | [] => Ok (st, [ShowWarning "No Data" "No workout data available."])
  | _ :: _ =>
      let st := set_total_weeks (len (workouts st)) st in
      in_range ←
        (if current_week st <=? len (workouts st)
         then week ← py_index (workouts st) (current_week st - 1);
              Ok (current_day st <? len week)
         else Ok false);
      if (in_range : bool) then
        week ← py_index (workouts st) (current_week st - 1);
        workout ← py_index week (current_day st);
        st ← match day_date workout with
              | Some workout_date =>
                  if truthy workout_date
                  then match strptime workout_date with
                       | Some d => Ok (set_current_date (DateObj d) st)
                       | None => Raise ValueError
                       end
                  else Ok (set_current_date (DateObj today) st)
              | None => Ok (set_current_date (DateObj today) st)
              end;
        let st := set_muscle_recovery initialize_muscle_recovery st in
        st ← for_each (fun week st => for_each engage_day week st) (workouts st) st;
        st ← calculate_current_fatigue st;
        st ← for_each load_exercise_row (day_exercises workout) st;
        st ← update_muscle_recovery st;
        st ← update_volume_load st;
        st ← update_muscle_visualization st;
        Ok (st, [])
      else
        Ok (st, [ShowWarning "Invalid Week/Day"
                   "The selected week or day is out of range."])
  end.

Definition add_day (st : Planner) : Res (Planner * list Dialog) :=
  let max_days_per_week := 7 in
  pos ← py_pos (workouts st) (current_week st - 1);
  current_week_days ← py_index (workouts st) (current_week st - 1);
  if max_days_per_week <=? len current_week_days then
    Ok (st, [ShowWarning "Maximum Days Reached" "A week can have a maximum of 7 days."])
  else
    let new_day_number :=
      foldr (fun week n => len week + n) 0
            (py_slice_to (workouts st) (current_week st - 1))
      + len current_week_days + 1 in
    let new_day :=
      {| day_label := "Day " +:+ pretty new_day_number;
         day_date := Some (strftime (today + (new_day_number - 1)));
         day_exercises := [] |} in
    let current_week_days := current_week_days ++ [new_day] in
    let st := set_workouts (<[pos := current_week_days]> (workouts st)) st in
    let st := set_current_day (len current_week_days - 1) st in
    let st := renumber_all_days st in
    '(st, shown) ← load_workout_data st;
    week ← py_index (workouts st) (Z.of_nat pos);
    new_day ← py_index week (-1);
    Ok (st, shown ++
            [ShowInfo "Day Added"
               ("Added " +:+ day_label new_day +:+
                " to the current week and renumbered subsequent days.")]).

(** [remove_day]; [choice] is the label picked in the dialog when the user
    presses Remove, [None] when the dialog is closed without it. *)
Definition remove_day (choice : option string) (st : Planner)
    : Res (Planner * list Dialog) :=
  pos ← py_pos (workouts st) (current_week st - 1);
  current_week_days ← py_index (workouts st) (current_week st - 1);
  if len current_week_days <=? 1 then
    Ok (st, [ShowWarning "Cannot Remove Day" "A week must have at least one day."])
  else
    match choice with
    | None => Ok (st, [])
    | Some selected =>
        let day_options := map day_label current_week_days in
        day_index ← index_of selected day_options;
        removed_day ← py_index current_week_days (Z.of_nat day_index);
        let current_week_days := delete day_index current_week_days in
        let st := set_workouts (<[pos := current_week_days]> (workouts st)) st in
        let st := renumber_all_days st in
        let st := if len current_week_days <=? current_day st
                  then set_current_day (len current_week_days - 1) st
                  else st in
        '(st, shown) ← load_workout_data st;
        Ok (st, shown ++
                [ShowInfo "Day Removed"
                   ("Removed " +:+ day_label removed_day +:+
                    " from the current week and renumbered subsequent days.")])
    end.

End Planner.

(** ** An instance of the builtins: plain decimal literals and ISO dates *)

Module Dec.

Definition is_space (c : ascii) : bool :=
  let n := N_of_ascii c in
  ((n =? 32) || ((9 <=? n) && (n <=? 13)))%N.

Fixpoint lstrip (s : list ascii) : list ascii :=
  match s with
  | c :: rest => if is_space c then lstrip rest else s
  | [] => []
  end.

Definition strip (s : string) : list ascii :=
  rev (lstrip (rev (lstrip (list_ascii_of_string s)))).

Definition digit (c : ascii) : option Z :=
  let n := N_of_ascii c in
  if ((48 <=? n) && (n <=? 57))%N then Some (Z.of_N n - 48) else None.

(** The value of a run of digits read after [acc]; [None] on another byte. *)
Fixpoint digits (acc : Z) (s : list ascii) : option Z :=
  match s with
  | [] => Some acc
  | c :: rest =>
      match digit c with
      | Some d => digits (10 * acc + d) rest
      | None => None
      end
  end.

Definition natural (s : list ascii) : option Z :=
  match s with
  | [] => None
  | _ :: _ => digits 0 s
  end.

Definition signed {A : Type} (body : list ascii -> option A) (neg : A -> A)
    (s : list ascii) : option A :=
  match s with
  | "+"%char :: rest => body rest
  | "-"%char :: rest => neg <$> body rest
  | _ => body s
  end.

Definition int (s : string) : option Z :=
  signed natural Z.opp (strip s).

Fixpoint split_dot (s : list ascii) : list ascii * option (list ascii) :=
  match s with
  | [] => ([], None)
  | "."%char :: rest => ([], Some rest)
  | c :: rest => let '(a, b) := split_dot rest in (c :: a, b)
  end.

(** [digits] [.] [digits], with a digit on at least one side. *)
Definition unsigned_float (s : list ascii) : option Q :=
  match split_dot s with
  | (whole, None) => inject_Z <$> natural whole
  | (whole, Some frac) =>
      match whole, frac with
      | [], [] => None
      | _, _ =>
          w ← digits 0 whole;
          f ← digits 0 frac;
          Some (Qmake (w * 10 ^ len frac + f) (Z.to_pos (10 ^ len frac)))
      end
  end.

(** [p / d] rounded to the nearest integer, ties to even, for [0 <= p]. *)
Definition round_half_even (p d : Z) : Z :=
  let f := p / d in
  match 2 * (p mod d) ?= d with
  | Lt => f
  | Gt => f + 1
  | Eq => if Z.even f then f else f + 1
  end.

(** [n / d / 2 ^ s] as a fraction. *)
Definition scaled (n d s : Z) : Z * Z :=
  if 0 <=? s then (n, d * 2 ^ s) else (n * 2 ^ (- s), d).

(** The double nearest to [q], ties to even: 53 bits of mantissa, exponents
    from -1074; [q] is within the range of the finite doubles. *)
Definition round64 (q : Q) : Q :=
  let n := Z.abs (Qnum q) in
  let d := Zpos (Qden q) in
  if n =? 0 then 0%Q
  else
    let e0 := Z.log2 n - Z.log2 d in
    let e := (let '(p, r) := scaled n d e0 in if r <=? p then e0 else e0 - 1) in
    let s := Z.max (e - 52) (-1074) in
    let '(p, r) := scaled n d s in
    let m := Z.sgn (Qnum q) * round_half_even p r in
    Qred (if 0 <=? s then inject_Z (m * 2 ^ s) else Qmake m (Z.to_pos (2 ^ (- s)))).

(** The least number that rounds past the largest double. *)
Definition overflow : Z := 2 ^ 1024 - 2 ^ 970.

(** The float nearest to [q]: an infinity from [overflow] on. *)
Definition to_float (q : Q) : pyfloat :=
  if Qle_bool (inject_Z overflow) q then PosInf
  else if Qle_bool q (inject_Z (- overflow)) then NegInf
  else Finite (round64 q).

Definition float_opp (x : pyfloat) : pyfloat :=
  match x with
  | Finite q => Finite (- q)
  | PosInf => NegInf
  | NegInf => PosInf
  | NaN => NaN
  end.

(** A decimal, or one of the words [inf], [infinity] and [nan] in any case. *)
Definition unsigned_literal (s : list ascii) : option pyfloat :=
  let word := string_of_list_ascii (map lower_ascii s) in
  if String.eqb word "inf" || String.eqb word "infinity" then Some PosInf
  else if String.eqb word "nan" then Some NaN
  else to_float <$> unsigned_float s.

(** [float(s)]: the float nearest to the decimal. *)
Definition float (s : string) : option pyfloat :=
  signed unsigned_literal float_opp (strip s).

(** [n * x]: OverflowError when [n] rounds past the largest double; the
    product of the two floats is rounded again. *)
Definition int_times_float (n : Z) (x : pyfloat) : option pyfloat :=
  if overflow <=? Z.abs n then None
  else Some (match x with
             | Finite q => to_float (round64 (inject_Z n) * q)
             | PosInf => if 0 <? n then PosInf else if n <? 0 then NegInf else NaN
             | NegInf => if 0 <? n then NegInf else if n <? 0 then PosInf else NaN
             | NaN => NaN
             end).

(** Days before the first of January of [year], as [datetime] counts them. *)
Definition days_before_year (year : Z) : Z :=
  let y := year - 1 in
  y * 365 + y / 4 - y / 100 + y / 400.

Definition is_leap (year : Z) : bool :=
  (year mod 4 =? 0) && (negb (year mod 100 =? 0) || (year mod 400 =? 0)).

Definition month_lengths (year : Z) : list Z :=
  [31; if is_leap year then 29 else 28; 31; 30; 31; 30; 31; 31; 30; 31; 30; 31].

Definition ymd2ord (year month day : Z) : Z :=
  days_before_year year
  + foldr Z.add 0 (take (Z.to_nat (month - 1)) (month_lengths year)) + day.

Definition strptime (s : string) : option Z :=
  match list_ascii_of_string s with
  | [y1; y2; y3; y4; "-"%char; m1; m2; "-"%char; d1; d2] =>
      year ← digits 0 [y1; y2; y3; y4];
      month ← digits 0 [m1; m2];
      day ← digits 0 [d1; d2];
      days ← month_lengths year !! Z.to_nat (month - 1);
      if (1 <=? year) && (1 <=? month) && (1 <=? day) && (day <=? days)
      then Some (ymd2ord year month day) else None
  | _ => None
  end.

(** The month and day of the [n]-th day (from 0) of a year with these months. *)
Fixpoint month_day (month : Z) (n : Z) (months : list Z) : Z * Z :=
  match months with
  | [] => (month, n + 1)
  | days :: rest => if n <? days then (month, n + 1) else month_day (month + 1) (n - days) rest
  end.

Definition ord2ymd (ordinal : Z) : Z * Z * Z :=
  let n := ordinal - 1 in
  let n400 := n / 146097 in let n := n mod 146097 in
  let n100 := n / 36524 in let n := n mod 36524 in
  let n4 := n / 1461 in let n := n mod 1461 in
  let n1 := n / 365 in let n := n mod 365 in
  let year := n400 * 400 + 1 + n100 * 100 + n4 * 4 + n1 in
  if (n1 =? 4) || (n100 =? 4) then (year - 1, 12, 31)
  else let '(month, day) := month_day 1 n (month_lengths year) in (year, month, day).

Definition pad (width : nat) (n : Z) : string :=
  let s := pretty n in
  String.concat "" (replicate (width - String.length s) "0"%string) +:+ s.

Definition strftime (ordinal : Z) : string :=
  let '(year, month, day) := ord2ymd ordinal in
  pad 4 year +:+ "-" +:+ pad 2 month +:+ "-" +:+ pad 2 day.

End Dec.

(** The builtins when [date.today()] is the day of ordinal [today]. *)
Definition dec_builtins_on (today : Z) : Builtins :=
  {| py_int := Dec.int; py_float := Dec.float;
     strptime := Dec.strptime; strftime := Dec.strftime;
     int_times_float := Dec.int_times_float; today := today |}.

(** The builtins on 2024-01-01. *)
Definition dec_builtins : Builtins := dec_builtins_on 738886.

(** ** Sample data *)

Definition entry (name sets reps weight : string) : Exercise :=
  {| ex_name := name; ex_sets := sets; ex_reps := reps; ex_weight := weight |}.

Definition bench_press : Exercise := entry "Bench Press" "3" "5" "100".

(** A planner with these weeks, viewing the first day of week 1 on
    2024-01-01, with no PR and the muscles at rest. *)
Definition planner_of (weeks : list (list Day)) : Planner :=
  {| workouts := weeks; total_weeks := len weeks; current_week := 1; current_day := 0;
     current_date := DateObj 738886; prs := ∅;
     muscle_recovery := initialize_muscle_recovery |}.

Section Replay.
Context `{Builtins}.

(** The record of an exercise name, with the defaults [update_prs] creates
    for a name it has not seen. *)
Definition pr_of (name : string) (st : Planner) : PRData :=
  default new_pr (prs st !! name).

(** [record(entry, onDate)]: [update_prs] reads the date from
    [self.current_date]. *)
Definition record (exercise : Exercise) (on_date : pydate) (st : Planner) : Planner :=
  update_prs exercise (set_current_date on_date st).

Definition replay (calls : list (Exercise * pydate)) (st : Planner) : Planner :=
  foldl (fun st '(exercise, on_date) => record exercise on_date st) st calls.

(** The date [recalculate_prs] records a day under: its stored date, or
    the current date as the loop reaches the day. *)
Definition day_on_date (current : pydate) (day : Day) : pydate :=
  match day_date day with
  | Some d => DateStr d
  | None => current
  end.

(** The record calls of a run over [days] that starts with the current
    date [current], in order, each exercise with the date of its day. *)
Fixpoint replay_calls (current : pydate) (days : list Day) : list (Exercise * pydate) :=
  match days with
  | [] => []
  | day :: rest =>
      let on_date := day_on_date current day in
      map (fun exercise => (exercise, on_date)) (day_exercises day)
        ++ replay_calls on_date rest
  end.

(** The exercise names of a plan. *)
Definition plan_names (weeks : list (list Day)) : list string :=
  map ex_name (concat (map day_exercises (concat weeks))).

(** [recompute] as the spec words it: every day without a stored date is
    replayed under the epoch date "2000-01-01". *)
Definition epoch_calls (days : list Day) : list (Exercise * pydate) :=
  flat_map (fun day =>
              map (fun exercise =>
                     (exercise, DateStr (default "2000-01-01"%string (day_date day))))
                  (day_exercises day))
           days.

Definition recompute_with_epoch (st : Planner) : gmap string PRData :=
  prs (replay (epoch_calls (concat (workouts st))) (set_prs (initialize_prs st) st)).

(** [update_prs] on the PR map alone, under the current date [d]. *)
Definition prs_after (exercise : Exercise) (d : pydate) (p : gmap string PRData)
    : gmap string PRData :=
  prs (update_prs exercise
         {| workouts := []; total_weeks := 0; current_week := 0; current_day := 0;
            current_date := d; prs := p; muscle_recovery := [] |}).

(** [replay] on the PR map alone. *)
Definition replay_prs (calls : list (Exercise * pydate)) (p : gmap string PRData)
    : gmap string PRData :=
  foldl (fun p '(exercise, on_date) => prs_after exercise on_date p) p calls.

(** ** The engine's operations, as the spec names them *)

(** The fatigue of a muscle; a muscle not tracked yet counts as rested. *)
Definition fatigue_of (muscle : string) (st : Planner) : Q :=
  match dict_get muscle (muscle_recovery st) with
  | Some data => fatigue data
  | None => 0
  end.

(** [key] occurs in [s]. *)
Definition substring_of (key s : string) : Prop :=
  exists pre post, s = pre +:+ key +:+ post.

(** [key] is the first key of the engagement table, in table order, that
    occurs in [name]. *)
Definition first_match (key name : string) : Prop :=
  exists before after,
    dict_keys engagement_map = before ++ key :: after /\
    substring_of key name /\
    Forall (fun k => ~ substring_of k name) before.

(** [engage(entry, onDate)] and [decay(toDate)]; the decay is
    [calculate_current_fatigue] at the current date [toDate]. *)
Inductive EngineOp :=
| Engage (exercise : Exercise) (on_date : Z)
| Decay (to_date : Z).

Definition run_op (op : EngineOp) (st : Planner) : Res Planner :=
  match op with
  | Engage exercise on_date => engage_muscles exercise on_date st
  | Decay to_date => calculate_current_fatigue (set_current_date (DateObj to_date) st)
  end.

(** The load of the entry of an engage call returns. *)
Definition loaded (op : EngineOp) : Prop :=
  match op with
  | Engage exercise _ => returns (calculate_load exercise)
  | Decay _ => True
  end.

Definition in_bounds (data : MuscleState) : Prop :=
  (0 <= fatigue data)%Q /\ (fatigue data <= fatigue_threshold)%Q.

(** Every tracked muscle has a recovery rate and a fatigue within bounds. *)
Definition tracked_ok (mr : dict MuscleState) : Prop :=
  Forall (fun '(muscle, data) =>
            is_Some (dict_get muscle recovery_rates) /\ in_bounds data) mr.

End Replay.

(** A plan whose first day has no stored date, followed by a dated day. *)
Definition undated_then_dated : list (list Day) :=
  [[{| day_label := "Day 1"; day_date := None; day_exercises := [bench_press] |};
    {| day_label := "Day 2"; day_date := Some "2024-01-02"%string; day_exercises := [] |}]].

(** An empty day with a label and a stored date. *)
Definition rest_day (label stored : string) : Day :=
  {| day_label := label; day_date := Some stored; day_exercises := [] |}.

(** A week of one day, and a week of seven. *)
Definition single_day_week : list Day :=
  [{| day_label := "Day 1"; day_date := Some "2024-01-01"%string;
      day_exercises := [bench_press] |}].

Definition seven_day_week : list Day :=
  single_day_week ++
  [rest_day "Day 2" "2024-01-02"; rest_day "Day 3" "2024-01-03";
   rest_day "Day 4" "2024-01-04"; rest_day "Day 5" "2024-01-05";
   rest_day "Day 6" "2024-01-06"; rest_day "Day 7" "2024-01-07"].

(** A heavier set with fewer reps, and an entry whose weight is a word. *)
Definition heavy_triple : Exercise := entry "Bench Press" "3" "3" "110".
Definition worded_weight : Exercise := entry "Bench Press" "3" "5" "heavy".

(** Twelve days of a flat import. *)
Definition twelve_days : list Day :=
  map (fun n => {| day_label := "Day " +:+ pretty n; day_date := None;
                   day_exercises := [] |})
      (seqZ 1 12).

(** ** What a run of record calls should leave, stated apart from the code *)

Section Histories.
Context `{Builtins}.

(** The history entry of one call: none when the weight or the reps do not
    parse. *)
Definition history_entry (call : Exercise * pydate) : option HistoryEntry :=
  weight ← py_float (ex_weight call.1);
  reps ← py_int (ex_reps call.1);
  Some {| h_date := call.2; h_weight := weight; h_reps := reps |}.

(** The history entries that [calls] give the exercise [name], in call order. *)
Definition entries_for (name : string) (calls : list (Exercise * pydate))
    : list HistoryEntry :=
  omap history_entry (filter (fun call => ex_name call.1 = name) calls).

(** Each dated PR mark of a record is carried by an entry of its history. *)
Definition backed (pr : PRData) : Prop :=
  (forall d, mark_date (pr_weight pr) = Some d ->
     exists entry, entry ∈ pr_history pr /\
                   h_date entry = d /\ h_weight entry = value (pr_weight pr)) /\
  (forall d, mark_date (pr_reps pr) = Some d ->
     exists entry, entry ∈ pr_history pr /\
                   h_date entry = d /\ h_reps entry = value (pr_reps pr)).

End Histories.

(** The label [renumber_all_days] gives the day numbered [k]. *)
Definition day_name (k : Z) : string := "Day " +:+ pretty k.

(** ** Navigation, day and exercise edits, loading *)

Definition set_current_week (n : Z) (st : Planner) : Planner :=
  {| workouts := workouts st; total_weeks := total_weeks st; current_week := n;
     current_day := current_day st; current_date := current_date st; prs := prs st;
     muscle_recovery := muscle_recovery st |}.

Definition set_day_date (stored : option string) (d : Day) : Day :=
  {| day_label := day_label d; day_date := stored; day_exercises := day_exercises d |}.

Definition set_day_exercises (exercises : list Exercise) (d : Day) : Day :=
  {| day_label := day_label d; day_date := day_date d; day_exercises := exercises |}.

(** [l.insert(i, x)] for an index that is not negative: past the end it
    appends. *)
Definition py_insert {A : Type} (i : nat) (x : A) (l : list A) : list A :=
  take i l ++ x :: drop i l.

(** [calculate_rpe(week)] *)
Definition calculate_rpe (week : Z) : Q :=
  if week <=? 6 then (60 + inject_Z (week - 1) * (45 # 10))%Q
  else if week =? 7 then 70%Q
  else (75 + inject_Z (week - 8) * (45 # 10))%Q.

Section Navigation.
Context `{Builtins}.

(** [self.current_week <= len(self.workouts) and
    self.current_day < len(self.workouts[self.current_week - 1])] *)
Definition position_in_range (st : Planner) : Res bool :=
  if current_week st <=? len (workouts st)
  then week ← py_index (workouts st) (current_week st - 1);
       Ok (current_day st <? len week)
  else Ok false.

(** Writes [day] at the viewed position of the plan. *)
Definition set_viewed_day (day : Day) (st : Planner) : Res Planner :=
  pos ← py_pos (workouts st) (current_week st - 1);
  week ← py_index (workouts st) (current_week st - 1);
  day_pos ← py_pos week (current_day st);
  Ok (set_workouts (<[pos := <[day_pos := day]> week]> (workouts st)) st).

(** [self.workouts[self.current_week - 1][self.current_day]] *)
Definition viewed_day (st : Planner) : Res Day :=
  week ← py_index (workouts st) (current_week st - 1);
  py_index week (current_day st).

(** [save_current_date]; [selected] is the date shown in the date entry. *)
Definition save_current_date (selected : Z) (st : Planner) : Res Planner :=
  in_range ← position_in_range st;
  if (in_range : bool) then
    workout ← viewed_day st;
    set_viewed_day (set_day_date (Some (strftime selected)) workout) st
  else Ok st.

Definition next_day (selected : Z) (st : Planner) : Res (Planner * list Dialog) :=
  st ← save_current_date selected st;
  week ← py_index (workouts st) (current_week st - 1);
  let st :=
    if current_day st <? len week - 1 then set_current_day (current_day st + 1) st
    else if current_week st <? len (workouts st)
         then set_current_day 0 (set_current_week (current_week st + 1) st)
         else st in
  load_workout_data st.

Definition previous_day (selected : Z) (st : Planner) : Res (Planner * list Dialog) :=
  st ← save_current_date selected st;
  st ← (if 0 <? current_day st then Ok (set_current_day (current_day st - 1) st)
        else if 1 <? current_week st
             then let st := set_current_week (current_week st - 1) st in
                  week ← py_index (workouts st) (current_week st - 1);
                  Ok (set_current_day (len week - 1) st)
             else Ok st);
  load_workout_data st.

(** [edit_day(day_index)] *)
Definition edit_day (day_index : Z) (st : Planner) : Res (Planner * list Dialog) :=
  load_workout_data (set_current_day day_index st).

(** [swap_days]; [choice] is the pair of labels picked when the user presses
    Swap, [None] when the dialog is closed without it. *)
Definition swap_days (choice : option (string * string)) (st : Planner)
    : Res (Planner * list Dialog) :=
  week ← py_index (workouts st) (current_week st - 1);
  let day_options := day_label <$> week in
  _ ← py_index day_options 0;
  _ ← py_index day_options 1;
  match choice with
  | None => Ok (st, [])
  | Some (day1, day2) =>
      day1_index ← index_of day1 day_options;
      day2_index ← index_of day2 day_options;
      if decide (day1_index <> day2_index) then
        pos ← py_pos (workouts st) (current_week st - 1);
        week ← py_index (workouts st) (current_week st - 1);
        first ← py_index week (Z.of_nat day1_index);
        second ← py_index week (Z.of_nat day2_index);
        let week := <[day2_index := first]> (<[day1_index := second]> week) in
        let st := set_workouts (<[pos := week]> (workouts st)) st in
        let st := renumber_all_days st in
        '(st, shown) ← load_workout_data st;
        Ok (st, shown ++
                [ShowInfo "Swap Successful"
                   "The selected days have been swapped and day numbers updated."])
      else Ok (st, [])
  end.

Definition new_exercise : Exercise :=
  {| ex_name := "New Exercise"; ex_sets := "0"; ex_reps := "0"; ex_weight := "0" |}.

Definition add_exercise (st : Planner) : Res (Planner * list Dialog) :=
  in_range ← position_in_range st;
  if (in_range : bool) then
    workout ← viewed_day st;
    st ← set_viewed_day
           (set_day_exercises (day_exercises workout ++ [new_exercise]) workout) st;
    st ← update_volume_load st;
    Ok (st, [])
  else
    Ok (st, [ShowWarning "Invalid Week/Day"
               "Cannot add exercise to the selected week/day."]).

(** [remove_exercise]; [selection] is the row selected in the tree, if any. *)
Definition remove_exercise (selection : option nat) (st : Planner) : Res Planner :=
  match selection with
  | None => Ok st
  | Some index =>
      in_range ← position_in_range st;
      if (in_range : bool) then
        workout ← viewed_day st;
        _ ← py_index (day_exercises workout) (Z.of_nat index);
        st ← set_viewed_day
               (set_day_exercises (delete index (day_exercises workout)) workout) st;
        update_volume_load st
      else Ok st
  end.

(** [on_release]; [drag] is the row the drag started at and the row the
    item was dropped at, [None] when no drag is in progress. *)
Definition on_release (drag : option (nat * nat)) (st : Planner) : Res Planner :=
  match drag with
  | None => Ok st
  | Some (index, new_index) =>
      in_range ← position_in_range st;
      if (in_range : bool) then
        workout ← viewed_day st;
        exercise ← py_index (day_exercises workout) (Z.of_nat index);
        set_viewed_day
          (set_day_exercises
             (py_insert new_index exercise (delete index (day_exercises workout)))
             workout) st
      else Ok st
  end.

(** The body of [find_start_date]'s loop. *)
Definition start_date_step (day : Day) (start_date : option Z) : Res (option Z) :=
  match day_date day with
  | Some stored =>
      if truthy stored then
        match strptime stored with
        | Some date_obj =>
            match start_date with
            | None => Ok (Some date_obj)
            | Some earliest =>
                Ok (Some (if date_obj <? earliest then date_obj else earliest))
            end
        | None => Raise ValueError
        end
      else Ok start_date
  | None => Ok start_date
  end.

Definition find_start_date (st : Planner) : Res Z :=
  start_date ← for_each (fun week start_date => for_each start_date_step week start_date)
                        (workouts st) None;
  Ok (default today start_date).

(** [load_data] once a file has been picked and read; [saved_prs] is its
    ['prs'] entry, if it has one. *)
Definition load_data (input : WorkoutsInput) (saved_prs : option (gmap string PRData))
    (st : Planner) : Res (Planner * list Dialog) :=
  let st := set_workouts (restructure_workouts input) st in
  let st := set_prs (default (initialize_prs st) saved_prs) st in
  let st := set_current_week 1 st in
  let st := set_current_day 0 st in
  let st := recalculate_prs st in
  '(st, shown) ← load_workout_data st;
  Ok (st, shown ++
          [ShowInfo "Load Successful" "Workout data has been loaded successfully."]).

End Navigation.

(** ** Conditions and frames used to state what the refresh does *)

(** Every tracked muscle has a recovery rate. *)
Definition rated (mr : dict MuscleState) : Prop :=
  Forall (fun item => is_Some (dict_get item.1 recovery_rates)) mr.

(** The second planner is the first but for its muscle states. *)
Definition only_muscles (st st' : Planner) : Prop :=
  st' = set_muscle_recovery (muscle_recovery st') st.

(** The two planners show the same plan at the same position. *)
Definition same_plan (st st' : Planner) : Prop :=
  workouts st' = workouts st /\
  current_week st' = current_week st /\
  current_day st' = current_day st.

(** The states in which the replay and the decays return: the current date
    is a date object and every tracked muscle has a rate. *)
Definition engine_ready (st : Planner) : Prop :=
  (exists c, current_date st = DateObj c) /\ rated (muscle_recovery st).

Section Conditions.
Context `{Builtins}.

(** Every stored date of the plan parses, and so does the default date of
    the days without one. *)
Definition dates_parse (weeks : list (list Day)) : Prop :=
  Forall (fun day => is_Some (strptime (default "2000-01-01"%string (day_date day))))
         (concat weeks).

(** The load of every entry returns: no [sets * reps] too large for a
    float. *)
Definition loads_return (exercises : list Exercise) : Prop :=
  Forall (fun exercise => returns (calculate_load exercise)) exercises.

(** The entries of the plan, in plan order. *)
Definition entries (weeks : list (list Day)) : list Exercise :=
  concat (day_exercises <$> concat weeks).

(** What the replay needs of a day: a date that parses, the default one
    when it stores none, and entries whose loads return. *)
Definition day_replays (day : Day) : Prop :=
  is_Some (strptime (default "2000-01-01"%string (day_date day))) /\
  loads_return (day_exercises day).

Definition plan_replays (weeks : list (list Day)) : Prop :=
  Forall day_replays (concat weeks).

(** Each exercise of the day has a PR record or a weight and reps that
    parse, so that [update_prs] leaves a record for it. *)
Definition names_known (p : gmap string PRData) (day : Day) : Prop :=
  Forall (fun exercise =>
            is_Some (p !! ex_name exercise) \/
            (is_Some (py_float (ex_weight exercise)) /\
             is_Some (py_int (ex_reps exercise))))
         (day_exercises day).

(** The date [load_workout_data] views a day under. *)
Definition viewing_date (workout : Day) : Z :=
  match day_date workout with
  | Some stored => if truthy stored then default today (strptime stored) else today
  | None => today
  end.

End Conditions.

(** The stored date of a day that [find_start_date] reads: present and not
    the empty string. *)
Definition dated (day : Day) : option string :=
  stored ← day_date day;
  if truthy stored then Some stored else None.

(** The dates the plan stores, in plan order. *)
Definition stored_dates (weeks : list (list Day)) : list string :=
  omap dated (concat weeks).

(** The planner views the day at index [dpos] of the week at index [pos]
    (week number [pos + 1]). *)
Definition at_position (st : Planner) (pos dpos : nat) : Prop :=
  current_week st = Z.of_nat pos + 1 /\ current_day st = Z.of_nat dpos.

(** The plan with [day] written at the given position. *)
Definition with_day (pos dpos : nat) (day : Day) (weeks : list (list Day))
    : list (list Day) :=
  match weeks !! pos with
  | Some week => <[pos := <[dpos := day]> week]> weeks
  | None => weeks
  end.

(** The day at index [dpos] of the week at index [pos]. *)
Definition day_at (weeks : list (list Day)) (pos dpos : nat) : option Day :=
  week ← weeks !! pos; week !! dpos.

(** Where the Next button leads from a position: the next day of the week,
    else the first day of the next week, else nowhere. *)
Definition next_position (weeks : list (list Day)) (pos dpos : nat) : nat * nat :=
  if decide (S dpos < length (default [] (weeks !! pos)))%nat then (pos, S dpos)
  else if decide (S pos < length weeks)%nat then (S pos, 0%nat)
  else (pos, dpos).

(** Where the Previous button leads: the day before in the week, else the
    last day of the week before, else nowhere. *)
Definition previous_position (weeks : list (list Day)) (pos dpos : nat) : nat * nat :=
  match dpos, pos with
  | S before, _ => (pos, before)
  | O, S week_before => (week_before, (length (default [] (weeks !! week_before)) - 1)%nat)
  | O, O => (pos, dpos)
  end.

(** ** Plans written as text *)

(** [c.isspace()] on ASCII. *)
Definition isspace (c : ascii) : bool :=
  let n := N_of_ascii c in
  ((n =? 32) || ((9 <=? n) && (n <=? 13)) || ((28 <=? n) && (n <=? 31)))%N.

(** [s.lstrip()] *)
Fixpoint lstrip (s : string) : string :=
  match s with
  | EmptyString => EmptyString
  | String c rest => if isspace c then lstrip rest else s
  end.

(** [s.rstrip()] *)
Fixpoint rstrip (s : string) : string :=
  match s with
  | EmptyString => EmptyString
  | String c rest =>
      match rstrip rest with
      | EmptyString => if isspace c then EmptyString else String c EmptyString
      | String _ _ as kept => String c kept
      end
  end.

(** [s.strip()] *)
Definition strip (s : string) : string := lstrip (rstrip s).

(** [s.split(sep)] for a separator of one character. *)
Fixpoint split (sep : ascii) (s : string) : list string :=
  match s with
  | EmptyString => [EmptyString]
  | String c rest =>
      if Ascii.eqb c sep then EmptyString :: split sep rest
      else match split sep rest with
           | piece :: pieces => String c piece :: pieces
           | [] => [String c EmptyString]
           end
  end.

(** [sep.join(pieces)] *)
Fixpoint join (sep : ascii) (pieces : list string) : string :=
  match pieces with
  | [] => EmptyString
  | [piece] => piece
  | piece :: rest => piece +:+ String sep (join sep rest)
  end.

(** [s.rsplit(sep, maxsplit)]: the last [maxsplit] separators split. *)
Definition rsplit (sep : ascii) (maxsplit : nat) (s : string) : list string :=
  let pieces := split sep s in
  let whole := (length pieces - maxsplit)%nat in
  if (length pieces <=? maxsplit + 1)%nat then pieces
  else join sep (take whole pieces) :: drop whole pieces.

Module Parser.

(** The variables of [parse_workout_data]'s loop. *)
Record State := {
  workouts : list Day;
  current_workout : option Day;
  current_exercise : option string
}.

(** An entry as the parser writes it: the weight is left empty. *)
Definition entry (name sets reps : string) : Exercise :=
  {| ex_name := name; ex_sets := sets; ex_reps := reps; ex_weight := "" |}.

(** [current_workout['exercises'].append(exercise)] *)
Definition append (exercise : Exercise) (workout : Day) : Day :=
  set_day_exercises (day_exercises workout ++ [exercise]) workout.

(** The name the test [if current_exercise:] lets through. *)
Definition pending (s : State) : option string :=
  match current_exercise s with
  | Some name => if truthy name then Some name else None
  | None => None
  end.

(** The body of the loop, for one line of the text. *)
Definition parse_line (raw : string) (s : State) : State :=
  let line := strip raw in
  if startswith "Day" line then
    {| workouts := match current_workout s with
                   | Some workout => workouts s ++ [workout]
                   | None => workouts s
                   end;
       current_workout := Some {| day_label := line; day_date := None;
                                  day_exercises := [] |};
       current_exercise := None |}
  else
    match current_workout s with
    | Some workout =>
        if truthy line then
          if str_in "x" line && (length (split "x" line) =? 2)%nat then
            match split "x" line with
            | [sets; reps] =>
                match pending s with
                | Some name =>
                    {| workouts := workouts s;
                       current_workout :=
                         Some (append (entry name (strip sets) (strip reps)) workout);
                       current_exercise := None |}
                | None =>
                    match rsplit " " 2 line with
                    | [exercise; sets; reps] =>
                        {| workouts := workouts s;
                           current_workout :=
                             Some (append (entry (strip exercise) (strip sets) (strip reps))
                                          workout);
                           current_exercise := current_exercise s |}
                    | _ =>
                        {| workouts := workouts s;
                           current_workout := Some workout;
                           current_exercise := Some line |}
                    end
                end
            | _ => s
            end
          else
            {| workouts := workouts s;
               current_workout :=
                 Some match pending s with
                      | Some name => append (entry name "" "") workout
                      | None => workout
                      end;
               current_exercise := Some line |}
        else s
    | None => s
    end.

Definition parse_workout_data (data : string) : list Day :=
  let s := foldl (fun s line => parse_line line s)
                 {| workouts := []; current_workout := None; current_exercise := None |}
                 (split "010" data) in
  match current_workout s with
  | Some workout =>
      workouts s ++ [match pending s with
                     | Some name => append (entry name "" "") workout
                     | None => workout
                     end]
  | None => workouts s
  end.

End Parser.

(** The text of a small plan, as [paste.txt] would hold it. *)
Definition pasted_plan : string :=
  "Push" +:+ String "010" (
  "Day 1" +:+ String "010" (
  "Bench Press" +:+ String "010" (
  " 3 x 10 " +:+ String "010" (
  "Plank" +:+ String "010" (
  String "010" (
  "  Day 2" +:+ String "010" (
  "Squat 5 x5" +:+ String "010" "Stretch"))))))).

(** The days the parser holds: the finished ones and the open one. *)
Definition all_days (s : Parser.State) : list Day :=
  Parser.workouts s ++ option_list (Parser.current_workout s).

(** A day as the parser leaves it: no date, and no weight in any entry. *)
Definition blank (day : Day) : Prop :=
  day_date day = None /\ Forall (fun exercise => ex_weight exercise = ""%string) (day_exercises day).

(** ** The plan a text stands for, block by block *)

(** What a name still waiting for its sets and reps gives when it is
    entered without them. *)
Definition flush (waiting : option string) : list Exercise :=
  match waiting with
  | Some name => [Parser.entry name "" ""]
  | None => []
  end.

(** What one line inside a day gives: the entries it adds to the day, and
    the name waiting afterwards.  A blank line changes nothing.  A line with
    exactly one "x" completes the waiting name; with no name waiting it is
    an entry of its own if its last two spaces cut it in three, and else
    becomes the waiting name.  Any other line becomes the waiting name, and
    the name that was waiting is entered without sets and reps. *)
Definition line_entries (waiting : option string) (raw : string)
    : list Exercise * option string :=
  let line := strip raw in
  if truthy line then
    match split "x" line with
    | [sets; reps] =>
        match waiting with
        | Some name => ([Parser.entry name (strip sets) (strip reps)], None)
        | None =>
            match rsplit " " 2 line with
            | [exercise; sets; reps] =>
                ([Parser.entry (strip exercise) (strip sets) (strip reps)], None)
            | _ => ([], Some line)
            end
        end
    | _ => (flush waiting, Some line)
    end
  else ([], waiting).

(** The same for the lines between two "Day" lines. *)
Fixpoint block_entries (waiting : option string) (lines : list string)
    : list Exercise * option string :=
  match lines with
  | [] => ([], waiting)
  | raw :: rest =>
      let '(added, waiting) := line_entries waiting raw in
      let '(more, waiting) := block_entries waiting rest in
      (added ++ more, waiting)
  end.

(** The lines of a text cut at the lines that start with "Day": the lines
    before the first of them, and each of them, stripped, with the lines up
    to the next. *)
Fixpoint day_blocks (lines : list string) : list string * list (string * list string) :=
  match lines with
  | [] => ([], [])
  | raw :: rest =>
      let '(body, blocks) := day_blocks rest in
      if startswith "Day" (strip raw) then ([], (strip raw, body) :: blocks)
      else (raw :: body, blocks)
  end.

(** The day of a block: a name still waiting at the end of the block is
    entered in the last block of the text, and dropped in the others. *)
Definition block_day (last : bool) (block : string * list string) : Day :=
  let '(label, body) := block in
  let '(added, waiting) := block_entries None body in
  {| day_label := label; day_date := None;
     day_exercises := if last then added ++ flush waiting else added |}.

Fixpoint block_days (blocks : list (string * list string)) : list Day :=
  match blocks with
  | [] => []
  | [block] => [block_day true block]
  | block :: rest => block_day false block :: block_days rest
  end.

(** What [parse_workout_data] returns from the state its loop ends in. *)
Definition finish (s : Parser.State) : list Day :=
  match Parser.current_workout s with
  | Some workout =>
      Parser.workouts s ++
      [set_day_exercises (day_exercises workout ++ flush (Parser.pending s)) workout]
  | None => Parser.workouts s
  end.

(** ** Editing a cell of the viewed day *)

(** The columns [on_double_click] opens for editing, "#1" to "#4"; the
    lower-cased heading of each is the key of the entry it shows. *)
Inductive Column := ColExercise | ColSets | ColReps | ColWeight.

(** [exercise[column_name] = new_value] *)
Definition set_cell (column : Column) (new_value : string) (exercise : Exercise) : Exercise :=
  match column with
  | ColExercise => {| ex_name := new_value; ex_sets := ex_sets exercise;
                      ex_reps := ex_reps exercise; ex_weight := ex_weight exercise |}
  | ColSets => {| ex_name := ex_name exercise; ex_sets := new_value;
                  ex_reps := ex_reps exercise; ex_weight := ex_weight exercise |}
  | ColReps => {| ex_name := ex_name exercise; ex_sets := ex_sets exercise;
                  ex_reps := new_value; ex_weight := ex_weight exercise |}
  | ColWeight => {| ex_name := ex_name exercise; ex_sets := ex_sets exercise;
                    ex_reps := ex_reps exercise; ex_weight := new_value |}
  end.

Section CellEdit.
Context `{Builtins}.

(** The assignment [on_focus_out] starts with:
    [self.workouts[...][...]['exercises'][exercise_index][column_name] = new_value]. *)
Definition write_cell (exercise_index : nat) (column : Column) (new_value : string)
    (st : Planner) : Res Planner :=
  workout ← viewed_day st;
  exercise ← py_index (day_exercises workout) (Z.of_nat exercise_index);
  set_viewed_day
    (set_day_exercises
       (<[exercise_index := set_cell column new_value exercise]> (day_exercises workout))
       workout) st.

(** [on_focus_out]; [exercise_index] is the row of the edited cell. *)
Definition on_focus_out (exercise_index : nat) (column : Column) (new_value : string)
    (st : Planner) : Res Planner :=
  in_range ← position_in_range st;
  if (in_range : bool) then
    st ← write_cell exercise_index column new_value st;
    workout ← viewed_day st;
    exercise ← py_index (day_exercises workout) (Z.of_nat exercise_index);
    _ ← calculate_load exercise;
    let st := update_prs exercise st in
    match prs st !! ex_name exercise with
    | Some _ => update_volume_load st
    | None => Raise KeyError
    end
  else Ok st.

End CellEdit.

(** What renumbering keeps of a day, and of a plan. *)
Definition content (day : Day) : option string * list Exercise :=
  (day_date day, day_exercises day).

Definition shape (weeks : list (list Day)) : list (list (option string * list Exercise)) :=
  (fun week : list Day => content <$> week) <$> weeks.

(** A week of a bench day and a rest day, and a plan of this week and a
    week of one rest day. *)
Definition two_day_week : list Day :=
  single_day_week ++ [rest_day "Day 2" "2024-01-02"].

Definition two_weeks : list (list Day) :=
  [two_day_week; [rest_day "Day 3" "2024-01-03"]].

(** The same with an empty week in the middle. *)
Definition gapped_weeks : list (list Day) :=
  [single_day_week; []; [rest_day "Day 2" "2024-01-03"]].

(** A day of two exercises, and a day whose only entry has a word as weight. *)
Definition bench_day : Day :=
  {| day_label := "Day 1"; day_date := Some "2024-01-01"%string;
     day_exercises := [bench_press; heavy_triple] |}.

Definition worded_day : Day :=
  {| day_label := "Day 1"; day_date := Some "2024-01-01"%string;
     day_exercises := [worded_weight] |}.

(** The sets of an entry too large for a float: a 1 followed by 400
    zeros. *)
Definition huge_sets : string :=
  "1" +:+ String.concat "" (replicate 400 "0"%string).

Definition huge_entry : Exercise := entry "Bench Press" huge_sets "5" "100".

(** A one-day plan whose second entry is too large for a float. *)
Definition huge_day_week : list Day :=
  [{| day_label := "Day 1"; day_date := Some "2024-01-01"%string;
      day_exercises := [bench_press; huge_entry] |}].

(** The sample planner once the bench press, of load 1500, has been
    engaged on 2024-01-01. *)
Definition engaged_bench (weeks : list (list Day)) : Planner :=
  engage_loaded (Finite 1500) bench_press 738886 (planner_of weeks).

(** A planner with these weeks, viewing the day at index [dpos] of the week
    at index [pos]. *)
Definition planner_at (weeks : list (list Day)) (pos dpos : nat) : Planner :=
  set_current_day (Z.of_nat dpos) (set_current_week (Z.of_nat pos + 1) (planner_of weeks)).

(** * Properties *)

Lemma Qgtb_true x y : Qgtb x y = true <-> (y < x)%Q.
Proof.
  unfold Qgtb. rewrite (Qgt_alt x y).
  destruct (Qcompare x y); split; congruence.
Qed.

Lemma Qgtb_false x y : Qgtb x y = false <-> (x <= y)%Q.
Proof.
  unfold Qgtb. rewrite Qle_alt.
  destruct (Qcompare x y); split; congruence.
Qed.

(** ** Float comparisons *)

Lemma float_lt_finite a b : float_lt (Finite a) (Finite b) <-> (a < b)%Q.
Proof. unfold float_lt. simpl. apply Qgtb_true. Qed.

Lemma float_eq_finite a b : float_eq (Finite a) (Finite b) <-> (a == b)%Q.
Proof. unfold float_eq. simpl. apply Qeq_bool_iff. Qed.

Lemma float_lt_irrefl x : ~ float_lt x x.
Proof.
  destruct x; unfold float_lt; simpl; try discriminate.
  rewrite Qgtb_true. apply Qlt_irrefl.
Qed.

Lemma float_lt_trans x y z : float_lt x y -> float_lt y z -> float_lt x z.
Proof.
  destruct x, y, z; unfold float_lt; simpl; intros Hxy Hyz;
    try discriminate; try reflexivity.
  apply Qgtb_true in Hxy, Hyz. apply Qgtb_true. eapply Qlt_trans; eassumption.
Qed.

(** Only nan differs from itself, and nan is below nothing. *)
Lemma float_lt_eq_refl x y : float_lt x y -> float_eq y y.
Proof.
  destruct x, y; unfold float_lt, float_eq; simpl; intros Hlt;
    try discriminate; try reflexivity.
  all: apply Qeq_bool_iff; reflexivity.
Qed.

Lemma float_eq_not_lt x y : float_eq x y -> ~ float_lt y x.
Proof.
  destruct x, y; unfold float_lt, float_eq; simpl; try discriminate.
  rewrite Qgtb_true. intros Heq%Qeq_bool_iff Hlt. rewrite Heq in Hlt.
  now apply Qlt_irrefl in Hlt.
Qed.

Section LoadFacts.
Context `{Builtins}.

Lemma calculate_load_no_weight (exercise : Exercise) :
  py_float (ex_weight exercise) = None -> calculate_load exercise = Ok (Finite 0).
Proof.
  intros Hw. unfold calculate_load.
  destruct (py_int (ex_sets exercise)); [| reflexivity].
  destruct (py_int (ex_reps exercise)); [now rewrite Hw | reflexivity].
Qed.

(** What the [except] clause misses: when the three fields parse and the
    int [sets * reps] is too large for a float, the OverflowError of the
    product leaves [calculate_load]. *)
Lemma calculate_load_raises (exercise : Exercise) (sets reps : Z) (weight : pyfloat) :
  py_int (ex_sets exercise) = Some sets ->
  py_int (ex_reps exercise) = Some reps ->
  py_float (ex_weight exercise) = Some weight ->
  int_times_float (sets * reps) weight = None ->
  calculate_load exercise = Raise OverflowError.
Proof. unfold calculate_load. now intros -> -> -> ->. Qed.

(** C9, amended. [calculate_load] returns 0, raising nothing, when the
    sets, the reps or the weight do not parse; when the three parse and the
    int [sets * reps] converts to a float, it returns the product of
    [sets * reps] and the float [weight] as the float multiplication
    rounds it. *)
Theorem calculate_load_spec (exercise : Exercise) :
  (forall sets reps weight load,
      py_int (ex_sets exercise) = Some sets ->
      py_int (ex_reps exercise) = Some reps ->
      py_float (ex_weight exercise) = Some weight ->
      int_times_float (sets * reps) weight = Some load ->
      calculate_load exercise = Ok load) /\
  (py_int (ex_sets exercise) = None \/ py_int (ex_reps exercise) = None \/
   py_float (ex_weight exercise) = None ->
   calculate_load exercise = Ok (Finite 0)).
Proof.
  unfold calculate_load. split.
  - now intros sets reps weight load -> -> -> ->.
  - intros [Hs | [Hr | Hw]].
    + now rewrite Hs.
    + destruct (py_int (ex_sets exercise)); [now rewrite Hr | reflexivity].
    + destruct (py_int (ex_sets exercise)); [| reflexivity].
      destruct (py_int (ex_reps exercise)); [now rewrite Hw | reflexivity].
Qed.

End LoadFacts.


Section PRFacts.
Context `{Builtins}.

Lemma pr_of_set_current_date name d st :
  pr_of name (set_current_date d st) = pr_of name st.
Proof. reflexivity. Qed.

(** A call leaves the records of the other names alone. *)
Lemma pr_of_update_prs_ne name exercise st :
  ex_name exercise <> name ->
  pr_of name (update_prs exercise st) = pr_of name st.
Proof.
  intros Hne. unfold update_prs, pr_of.
  destruct (py_float (ex_weight exercise)); [| reflexivity].
  destruct (py_int (ex_reps exercise)); [| reflexivity].
  simpl. now rewrite lookup_insert_ne.
Qed.

(** What a call that parses leaves in the record of its own name. *)
Lemma pr_of_update_prs_eq exercise st weight reps :
  py_float (ex_weight exercise) = Some weight ->
  py_int (ex_reps exercise) = Some reps ->
  let old := pr_of (ex_name exercise) st in
  let new := pr_of (ex_name exercise) (update_prs exercise st) in
  pr_weight new =
    (if float_gtb weight (value (pr_weight old))
     then {| value := weight; mark_date := Some (current_date st) |}
     else pr_weight old) /\
  pr_reps new =
    (if float_eqb weight (value (pr_weight new)) && (value (pr_reps old) <? reps)
     then {| value := reps; mark_date := Some (current_date st) |}
     else pr_reps old) /\
  pr_history new =
    pr_history old ++
      [{| h_date := current_date st; h_weight := weight; h_reps := reps |}].
Proof.
  intros Hw Hr. unfold update_prs, pr_of. rewrite Hw, Hr. simpl.
  rewrite lookup_insert_eq. simpl.
  destruct (float_gtb weight _); simpl;
    destruct (float_eqb weight _ && _) eqn:E; simpl; rewrite ?E; auto.
Qed.

(** The two early returns of [update_prs]. *)
Lemma update_prs_no_weight exercise st :
  py_float (ex_weight exercise) = None -> update_prs exercise st = st.
Proof. unfold update_prs. now intros ->. Qed.

Lemma update_prs_no_reps exercise st :
  py_int (ex_reps exercise) = None -> update_prs exercise st = st.
Proof.
  unfold update_prs. intros ->. now destruct (py_float (ex_weight exercise)).
Qed.

(** C8. When the weight does not read as a decimal or the reps do not read
    as an integer, [update_prs] returns the planner as it was: no record is
    created or changed, no history entry is added, and nothing is raised
    ([update_prs] is a total function). *)
Theorem update_prs_unparsed (exercise : Exercise) (st : Planner) :
  py_float (ex_weight exercise) = None \/ py_int (ex_reps exercise) = None ->
  update_prs exercise st = st.
Proof.
  intros [Hweight | Hreps].
  - now apply update_prs_no_weight.
  - now apply update_prs_no_reps.
Qed.

(** C10. In one call whose weight is strictly above the best so far, the
    weight PR becomes that weight on the current date, and the reps test
    then compares against the new best: the reps PR becomes the call's reps
    when they exceed the stored reps PR, and otherwise keeps its value,
    which was reached at a lower weight. *)
Theorem update_prs_new_best (exercise : Exercise) (st : Planner)
    (weight : pyfloat) (reps : Z) :
  py_float (ex_weight exercise) = Some weight ->
  py_int (ex_reps exercise) = Some reps ->
  float_lt (value (pr_weight (pr_of (ex_name exercise) st))) weight ->
  pr_weight (pr_of (ex_name exercise) (update_prs exercise st)) =
    {| value := weight; mark_date := Some (current_date st) |} /\
  (value (pr_reps (pr_of (ex_name exercise) st)) < reps ->
   pr_reps (pr_of (ex_name exercise) (update_prs exercise st)) =
     {| value := reps; mark_date := Some (current_date st) |}) /\
  (reps <= value (pr_reps (pr_of (ex_name exercise) st)) ->
   pr_reps (pr_of (ex_name exercise) (update_prs exercise st)) =
     pr_reps (pr_of (ex_name exercise) st)).
Proof.
  intros Hw Hr Hlt.
  destruct (pr_of_update_prs_eq exercise st weight reps Hw Hr) as (Ew & Er & _).
  pose proof (float_lt_eq_refl _ _ Hlt) as Hrefl.
  unfold float_lt in Hlt. unfold float_eq in Hrefl.
  rewrite Hlt in Ew. rewrite Ew in Er. simpl in Er.
  rewrite Hrefl in Er. simpl in Er.
  split; [exact Ew |]. split; intros Hreps.
  - apply Z.ltb_lt in Hreps. now rewrite Hreps in Er.
  - apply Z.ltb_ge in Hreps. now rewrite Hreps in Er.
Qed.

(** One call leaves the weight PR of a name as it is or raises it. *)
Lemma record_weight_le name exercise on_date st :
  value (pr_weight (pr_of name (record exercise on_date st))) =
    value (pr_weight (pr_of name st)) \/
  float_lt (value (pr_weight (pr_of name st)))
           (value (pr_weight (pr_of name (record exercise on_date st)))).
Proof.
  unfold record.
  destruct (decide (ex_name exercise = name)) as [<- | Hne].
  - destruct (py_float (ex_weight exercise)) as [weight |] eqn:Hw;
      [destruct (py_int (ex_reps exercise)) as [reps |] eqn:Hr |].
    + destruct (pr_of_update_prs_eq exercise (set_current_date on_date st)
                  weight reps Hw Hr) as (Ew & _).
      rewrite Ew, pr_of_set_current_date.
      destruct (float_gtb weight _) eqn:Hgt; simpl; [right; exact Hgt | now left].
    + rewrite update_prs_no_reps by assumption. now left.
    + rewrite update_prs_no_weight by assumption. now left.
  - rewrite pr_of_update_prs_ne by done. now left.
Qed.

Lemma replay_weight_le name calls st :
  value (pr_weight (pr_of name (replay calls st))) =
    value (pr_weight (pr_of name st)) \/
  float_lt (value (pr_weight (pr_of name st)))
           (value (pr_weight (pr_of name (replay calls st)))).
Proof.
  revert st. induction calls as [| [exercise on_date] calls IH]; intros st; simpl.
  - now left.
  - destruct (record_weight_le name exercise on_date st) as [E1 | L1];
      destruct (IH (record exercise on_date st)) as [E2 | L2].
    + left. congruence.
    + right. now rewrite <- E1.
    + right. now rewrite E2.
    + right. eapply float_lt_trans; eassumption.
Qed.

(** C2. Over any sequence of record calls the weight PR of a name never
    decreases: it keeps its value or ends strictly above it.  In one call
    it changes only when the call is for that name and its weight is
    strictly above the best so far; the reps PR changes only in a call for
    that name whose weight equals the best weight that the reps test reads,
    the stored one once the weight step has run (so the weight is at least
    the best so far), and whose reps are strictly above the reps PR so
    far. *)
Theorem pr_updates_monotone (name : string) (st : Planner) :
  (forall calls,
      value (pr_weight (pr_of name (replay calls st))) =
        value (pr_weight (pr_of name st)) \/
      float_lt (value (pr_weight (pr_of name st)))
               (value (pr_weight (pr_of name (replay calls st))))) /\
  (forall exercise on_date,
      pr_weight (pr_of name (record exercise on_date st)) <> pr_weight (pr_of name st) ->
      ex_name exercise = name /\
      exists weight,
        py_float (ex_weight exercise) = Some weight /\
        float_lt (value (pr_weight (pr_of name st))) weight /\
        pr_weight (pr_of name (record exercise on_date st)) =
          {| value := weight; mark_date := Some on_date |}) /\
  (forall exercise on_date,
      pr_reps (pr_of name (record exercise on_date st)) <> pr_reps (pr_of name st) ->
      ex_name exercise = name /\
      exists weight reps,
        py_float (ex_weight exercise) = Some weight /\
        py_int (ex_reps exercise) = Some reps /\
        float_eq weight (value (pr_weight (pr_of name (record exercise on_date st)))) /\
        (float_lt (value (pr_weight (pr_of name st))) weight \/
         float_eq weight (value (pr_weight (pr_of name st)))) /\
        value (pr_reps (pr_of name st)) < reps /\
        pr_reps (pr_of name (record exercise on_date st)) =
          {| value := reps; mark_date := Some on_date |}).
Proof.
  split; [| split].
  - intros calls. apply replay_weight_le.
  - intros exercise on_date Hchg. unfold record in *.
    destruct (decide (ex_name exercise = name)) as [<- | Hne];
      [| now rewrite pr_of_update_prs_ne in Hchg by done].
    split; [reflexivity |].
    destruct (py_float (ex_weight exercise)) as [weight |] eqn:Hw;
      [| now rewrite update_prs_no_weight in Hchg by assumption].
    destruct (py_int (ex_reps exercise)) as [reps |] eqn:Hr;
      [| now rewrite update_prs_no_reps in Hchg by assumption].
    destruct (pr_of_update_prs_eq exercise (set_current_date on_date st)
                weight reps Hw Hr) as (Ew & _).
    rewrite pr_of_set_current_date in Ew. simpl in Ew.
    destruct (float_gtb weight _) eqn:Hgt; [| now rewrite Ew in Hchg].
    exists weight. split; [reflexivity |]. split; [exact Hgt | exact Ew].
  - intros exercise on_date Hchg. unfold record in *.
    destruct (decide (ex_name exercise = name)) as [<- | Hne];
      [| now rewrite pr_of_update_prs_ne in Hchg by done].
    split; [reflexivity |].
    destruct (py_float (ex_weight exercise)) as [weight |] eqn:Hw;
      [| now rewrite update_prs_no_weight in Hchg by assumption].
    destruct (py_int (ex_reps exercise)) as [reps |] eqn:Hr;
      [| now rewrite update_prs_no_reps in Hchg by assumption].
    destruct (pr_of_update_prs_eq exercise (set_current_date on_date st)
                weight reps Hw Hr) as (Ew & Er & _).
    rewrite pr_of_set_current_date in Ew, Er. simpl in Ew, Er.
    destruct (float_eqb weight _) eqn:Heq; simpl in Er; [| now rewrite Er in Hchg].
    destruct (_ <? reps) eqn:Hlt; [| now rewrite Er in Hchg].
    exists weight, reps. repeat split; try assumption.
    + rewrite Ew in Heq. destruct (float_gtb weight _) eqn:Hgt; simpl in Heq.
      * left. exact Hgt.
      * right. exact Heq.
    + now apply Z.ltb_lt.
Qed.

End PRFacts.

Section RecomputeFacts.
Context `{Builtins}.

Lemma update_prs_frame exercise st :
  update_prs exercise st =
  set_prs (prs_after exercise (current_date st) (prs st)) st.
Proof.
  unfold prs_after, update_prs. destruct st as [w tw cw cd d p mr]. simpl.
  destruct (py_float (ex_weight exercise)); [| reflexivity].
  destruct (py_int (ex_reps exercise)); reflexivity.
Qed.

Lemma replay_frame calls st :
  replay calls st =
  match last calls with
  | Some (_, d) => set_current_date d (set_prs (replay_prs calls (prs st)) st)
  | None => st
  end.
Proof.
  revert st. induction calls as [| [exercise d] calls IH]; intros st; [reflexivity |].
  change (replay ((exercise, d) :: calls) st) with (replay calls (record exercise d st)).
  rewrite IH. unfold record. rewrite update_prs_frame. simpl.
  destruct calls as [| c calls]; [destruct st; reflexivity |].
  change (last ((exercise, d) :: c :: calls)) with (last (c :: calls)).
  destruct (last (c :: calls)) as [[? ?] |] eqn:E; [destruct st; reflexivity |].
  now apply last_None in E.
Qed.

Lemma prs_replay calls st : prs (replay calls st) = replay_prs calls (prs st).
Proof.
  rewrite replay_frame. destruct (last calls) as [[? ?] |] eqn:E; [reflexivity |].
  apply last_None in E. now subst.
Qed.

Lemma replay_prs_app c1 c2 p :
  replay_prs (c1 ++ c2) p = replay_prs c2 (replay_prs c1 p).
Proof. apply foldl_app. Qed.

(** The exercises of one day, all under the current date. *)
Lemma day_exercises_frame exercises st :
  foldl (fun st exercise => update_prs exercise st) st exercises =
  set_prs (replay_prs (map (fun exercise => (exercise, current_date st)) exercises)
                      (prs st)) st.
Proof.
  revert st. induction exercises as [| e es IH]; intros st; simpl.
  - now destruct st.
  - rewrite IH, update_prs_frame. reflexivity.
Qed.

Lemma recalculate_days_frame days st :
  foldl (fun st day => recalculate_day day st) st days =
  set_current_date (foldl day_on_date (current_date st) days)
    (set_prs (replay_prs (replay_calls (current_date st) days) (prs st)) st).
Proof.
  revert st. induction days as [| day days IH]; intros st; simpl.
  - now destruct st.
  - rewrite IH. unfold recalculate_day. rewrite day_exercises_frame. simpl.
    rewrite replay_prs_app. reflexivity.
Qed.

Lemma foldl_concat {A B : Type} (f : A -> B -> A) (a : A) (ls : list (list B)) :
  foldl (fun a l => foldl f a l) a ls = foldl f a (concat ls).
Proof.
  revert a. induction ls as [| l ls IH]; intros a; simpl; [reflexivity |].
  now rewrite foldl_app, IH.
Qed.

(** [recalculate_prs] in one piece: the PR map replayed from the fresh
    records, and the current date left at the last date the run used. *)
Lemma recalculate_prs_frame st :
  recalculate_prs st =
  set_current_date (foldl day_on_date (current_date st) (concat (workouts st)))
    (set_prs (replay_prs (replay_calls (current_date st) (concat (workouts st)))
                         (initialize_prs st)) st).
Proof.
  unfold recalculate_prs.
  rewrite (foldl_concat (fun st day => recalculate_day day st)).
  rewrite recalculate_days_frame. now destruct st.
Qed.

Lemma init_pr_lookup exercises p name :
  foldl init_pr p exercises !! name =
  match p !! name with
  | Some v => Some v
  | None => if decide (name ∈ map ex_name exercises) then Some new_pr else None
  end.
Proof.
  revert p. induction exercises as [| e es IH]; intros p.
  - simpl foldl. destruct (p !! name); [reflexivity |].
    destruct (decide (name ∈ map ex_name [])) as [Hin |]; [| reflexivity].
    now apply elem_of_nil in Hin.
  - simpl foldl. rewrite IH. unfold init_pr.
    destruct (decide (ex_name e = name)) as [<- | Hne].
    + destruct (p !! ex_name e) eqn:E; [now rewrite E |].
      rewrite lookup_insert_eq.
      destruct (decide (ex_name e ∈ map ex_name (e :: es))) as [| Hin];
        [reflexivity |].
      destruct Hin. apply list_elem_of_here.
    + assert ((match p !! ex_name e with
               | Some _ => p
               | None => <[ex_name e := new_pr]> p
               end) !! name = p !! name) as ->.
      { destruct (p !! ex_name e); [done | now rewrite lookup_insert_ne]. }
      destruct (p !! name); [reflexivity |].
      destruct (decide (name ∈ map ex_name es)) as [Hin | Hin];
        destruct (decide (name ∈ map ex_name (e :: es))) as [Hin' | Hin'];
        try reflexivity; exfalso.
      * apply Hin'. now apply list_elem_of_further.
      * apply elem_of_cons in Hin' as [-> | Hin']; [now apply Hne | now apply Hin].
Qed.

(** [initialize_prs] holds a fresh record for each exercise name of the plan
    and nothing else. *)
Lemma initialize_prs_lookup st name :
  initialize_prs st !! name =
  if decide (name ∈ plan_names (workouts st)) then Some new_pr else None.
Proof.
  unfold initialize_prs, plan_names.
  rewrite (foldl_concat (fun p day => foldl init_pr p (day_exercises day))).
  generalize (concat (workouts st)) as days.
  assert (forall days p,
             foldl (fun p day => foldl init_pr p (day_exercises day)) p days =
             foldl init_pr p (concat (map day_exercises days))) as E.
  { induction days as [| d ds IH]; intros p; simpl; [reflexivity |].
    now rewrite foldl_app, IH. }
  intros days. rewrite E, init_pr_lookup. now rewrite lookup_empty.
Qed.

(** C4, amended. [recalculate_prs] drops the PR state it finds, starts from a
    fresh record for each exercise name of the plan, and replays
    [update_prs] for every exercise of every week and day in plan order,
    each under its day's stored date; a day with no stored date is replayed
    under the date in force when the loop reaches it: the stored date of the
    closest dated day before it, or the planner's current date when there is
    none. *)
Theorem recalculate_prs_replays (st : Planner) :
  prs (recalculate_prs st) =
    prs (replay (replay_calls (current_date st) (concat (workouts st)))
                (set_prs (initialize_prs st) st)) /\
  (forall p, prs (recalculate_prs (set_prs p st)) = prs (recalculate_prs st)) /\
  (forall name,
      initialize_prs st !! name =
      if decide (name ∈ plan_names (workouts st)) then Some new_pr else None).
Proof.
  split; [| split].
  - rewrite recalculate_prs_frame, prs_replay. reflexivity.
  - intros p. rewrite !recalculate_prs_frame. reflexivity.
  - apply initialize_prs_lookup.
Qed.

Lemma replay_calls_dated current current' day days :
  is_Some (day_date day) ->
  replay_calls current (day :: days) = replay_calls current' (day :: days).
Proof. intros [d Hd]. simpl. unfold day_on_date. now rewrite Hd. Qed.

Lemma last_date_undated current days :
  Forall (fun day => day_date day = None) days ->
  foldl day_on_date current days = current.
Proof.
  induction 1 as [| day days Hd _ IH]; simpl; [reflexivity |].
  unfold day_on_date at 2. now rewrite Hd.
Qed.

Lemma last_date_idem current days :
  foldl day_on_date (foldl day_on_date current days) days =
  foldl day_on_date current days.
Proof.
  assert (forall c, (forall c', foldl day_on_date c' days = foldl day_on_date c days) \/
                    Forall (fun day => day_date day = None) days) as Hcases.
  { induction days as [| day days IH]; intros c; [right; constructor |].
    simpl. destruct (day_date day) as [d |] eqn:Hd.
    - left. intros c'. unfold day_on_date. now rewrite Hd.
    - destruct (IH c) as [Hl | Hr].
      + left. intros c'. now rewrite (Hl (day_on_date c' day)), (Hl (day_on_date c day)).
      + right. now constructor. }
  destruct (Hcases current) as [Hl | Hr].
  - apply Hl.
  - now rewrite !last_date_undated.
Qed.

(** Where a second run changes nothing: a second [recalculate_prs] leaves
    the planner, and so the PR state, as the first left it whenever the
    first day of the plan has a stored date (in particular when every day
    has one) or no day has one. *)
Theorem recalculate_prs_idempotent (st : Planner) :
  match concat (workouts st) with
  | [] => True
  | day :: _ => is_Some (day_date day)
  end \/
  Forall (fun day => day_date day = None) (concat (workouts st)) ->
  recalculate_prs (recalculate_prs st) = recalculate_prs st.
Proof.
  intros Hplan.
  rewrite (recalculate_prs_frame (recalculate_prs st)).
  rewrite !recalculate_prs_frame. simpl.
  rewrite last_date_idem.
  assert (replay_calls (foldl day_on_date (current_date st) (concat (workouts st)))
                       (concat (workouts st)) =
          replay_calls (current_date st) (concat (workouts st))) as ->.
  { destruct Hplan as [Hfirst | Hnone].
    - destruct (concat (workouts st)) as [| day days]; [reflexivity |].
      now apply replay_calls_dated.
    - now rewrite last_date_undated. }
  reflexivity.
Qed.

End RecomputeFacts.

(** ** Dicts and strings *)

Section DictFacts.
Context {V : Type}.
Implicit Types (d : dict V) (k : string) (v : V).

Lemma dict_get_set_eq k v d : dict_get k (dict_set k v d) = Some v.
Proof.
  induction d as [| [k' v'] d IH]; simpl.
  - now rewrite String.eqb_refl.
  - destruct (String.eqb k k') eqn:E; simpl; rewrite E; [reflexivity | exact IH].
Qed.

Lemma dict_get_set_ne k k' v d :
  k <> k' -> dict_get k' (dict_set k v d) = dict_get k' d.
Proof.
  intros Hne. induction d as [| [k0 v0] d IH]; simpl.
  - apply String.eqb_neq in Hne. rewrite String.eqb_sym in Hne. now rewrite Hne.
  - destruct (String.eqb k k0) eqn:E; simpl.
    + apply String.eqb_eq in E. subst k0.
      assert (String.eqb k' k = false) as ->; [| reflexivity].
      apply String.eqb_neq. congruence.
    + now rewrite IH.
Qed.

Lemma dict_get_elem k v d : dict_get k d = Some v -> (k, v) ∈ d.
Proof.
  induction d as [| [k' v'] d IH]; simpl; [discriminate |].
  destruct (String.eqb k k') eqn:E.
  - apply String.eqb_eq in E. intros [= ->]. subst. apply list_elem_of_here.
  - intros Hd. apply list_elem_of_further. auto.
Qed.


(** Writing an entry keeps a property that the entry has. *)
Lemma dict_set_Forall (P : string * V -> Prop) k v d :
  P (k, v) -> Forall P d -> Forall P (dict_set k v d).
Proof.
  intros Hnew Hall. induction Hall as [| [k' v'] d Hx Hd IH]; simpl.
  - now repeat constructor.
  - destruct (String.eqb k k') eqn:E.
    + apply String.eqb_eq in E. subst k'. now constructor.
    + now constructor.
Qed.

End DictFacts.

Lemma startswith_spec key s : startswith key s = true <-> exists post, s = key +:+ post.
Proof.
  revert s. induction key as [| c key IH]; intros s; simpl.
  - split; [intros _; now exists s | reflexivity].
  - destruct s as [| c' s]; [split; [discriminate | intros [post [=]]] |].
    rewrite andb_true_iff, Ascii.eqb_eq, IH. split.
    + intros [-> [post ->]]. now exists post.
    + intros [post [= -> ->]]. split; [reflexivity | now exists post].
Qed.

(** [str_in] decides occurrence. *)
Lemma str_in_spec key s : str_in key s = true <-> substring_of key s.
Proof.
  unfold substring_of. induction s as [| c s IH].
  - simpl. rewrite orb_false_r, startswith_spec. split.
    + intros [post Hp]. now exists ""%string, post.
    + intros [pre [post Hp]]. destruct pre; [now exists post | discriminate].
  - simpl. rewrite orb_true_iff, startswith_spec, IH. split.
    + intros [[post Hp] | [pre [post Hp]]].
      * now exists ""%string, post.
      * exists (String c pre), post. simpl. now rewrite Hp.
    + intros [pre [post Hp]]. destruct pre as [| c' pre].
      * left. now exists post.
      * right. simpl in Hp. injection Hp as _ Hp. now exists pre, post.
Qed.

(** [List.find] returns the first element that passes the test. *)
Lemma find_first {A : Type} (f : A -> bool) (l : list A) (x : A) :
  List.find f l = Some x <->
  exists before after,
    l = before ++ x :: after /\ f x = true /\ Forall (fun y => f y = false) before.
Proof.
  induction l as [| y l IH]; simpl.
  - split; [discriminate | intros (before & after & Hl & _)].
    now destruct before.
  - destruct (f y) eqn:Hy.
    + split.
      * intros [= ->]. exists [], l. repeat split; [assumption | constructor].
      * intros (before & after & Hl & Hx & Hb).
        destruct before as [| b before]; simpl in Hl; injection Hl as -> Hl;
          [reflexivity |].
        apply Forall_cons in Hb as [Hb _]. congruence.
    + rewrite IH. split.
      * intros (before & after & -> & Hx & Hb).
        exists (y :: before), after. repeat split; [assumption | now constructor].
      * intros (before & after & Hl & Hx & Hb).
        destruct before as [| b before]; simpl in Hl; injection Hl as -> Hl;
          [congruence |].
        apply Forall_cons in Hb as [_ Hb]. now exists before, after.
Qed.

Lemma find_nothing {A : Type} (f : A -> bool) (l : list A) :
  List.find f l = None <-> Forall (fun y => f y = false) l.
Proof.
  induction l as [| y l IH]; simpl.
  - split; [constructor | reflexivity].
  - destruct (f y) eqn:Hy.
    + split; [discriminate | intros [Hf _]%Forall_cons; congruence].
    + rewrite IH. split; [now constructor | now intros [_ ?]%Forall_cons].
Qed.

(** ** The tables *)

Lemma distinct_NoDup l : distinct l = true -> NoDup l.
Proof.
  induction l as [| x l IH]; simpl; [constructor |].
  rewrite andb_true_iff, negb_true_iff. intros [Hx Hl].
  constructor; [| auto].
  intros Hin. apply list_elem_of_In in Hin.
  assert (existsb (String.eqb x) l = true) as E; [| congruence].
  apply existsb_exists. exists x. split; [assumption | apply String.eqb_refl].
Qed.

Lemma engagement_map_ok :
  forallb (fun '(key, engagement) => truthy key && engagement_ok engagement)
          engagement_map = true.
Proof. vm_compute. reflexivity. Qed.

Lemma engagement_map_distinct : distinct (dict_keys engagement_map) = true.
Proof. vm_compute. reflexivity. Qed.

Lemma recovery_rates_nonneg : forallb (fun '(_, rate) => 0 <=? rate) recovery_rates = true.
Proof. vm_compute. reflexivity. Qed.

Lemma engagement_entry_ok key engagement :
  (key, engagement) ∈ engagement_map ->
  truthy key = true /\ NoDup (dict_keys engagement) /\
  forall muscle factor, (muscle, factor) ∈ engagement ->
    is_Some (dict_get muscle recovery_rates) /\ (0 < factor)%Q.
Proof.
  intros Hin. apply list_elem_of_In in Hin.
  pose proof (proj1 (forallb_forall _ _) engagement_map_ok _ Hin) as Hok.
  lazy beta iota in Hok. apply andb_true_iff in Hok as [Hkey Hok].
  apply andb_true_iff in Hok as [Hd Hall].
  split; [assumption |]. split; [now apply distinct_NoDup |].
  intros muscle factor Hm. apply list_elem_of_In in Hm.
  pose proof (proj1 (forallb_forall _ _) Hall _ Hm) as Hmf. lazy beta iota in Hmf.
  destruct (dict_get muscle recovery_rates); [| discriminate].
  split; [eauto | now apply Qgtb_true].
Qed.


Section FatigueFacts.
Context `{Builtins}.

(** What the loop of [engage_muscles] leaves for the muscles of an
    engagement, and that it leaves the others alone. *)
Lemma engage_fold load on_date (engagement : dict Q) (mr : dict MuscleState) :
  NoDup (dict_keys engagement) ->
  (forall muscle factor, (muscle, factor) ∈ engagement ->
     dict_get muscle (foldl (engage_muscle load on_date) mr engagement) =
     Some {| fatigue :=
               Qmin fatigue_threshold
                 (match dict_get muscle mr with
                  | Some data => fatigue data
                  | None => 0
                  end + fatigue_increase load factor);
             last_workout := Some on_date |}) /\
  (forall muscle, muscle ∉ dict_keys engagement ->
     dict_get muscle (foldl (engage_muscle load on_date) mr engagement) =
     dict_get muscle mr).
Proof.
  revert mr. induction engagement as [| [m f] engagement IH]; intros mr Hnd.
  - split; [intros ? ? Hin; now apply elem_of_nil in Hin | reflexivity].
  - apply NoDup_cons in Hnd as [Hm Hnd].
    change (foldl (engage_muscle load on_date) mr ((m, f) :: engagement))
      with (foldl (engage_muscle load on_date)
                  (engage_muscle load on_date mr (m, f)) engagement).
    destruct (IH (engage_muscle load on_date mr (m, f)) Hnd) as [IHin IHout].
    split.
    + intros muscle factor Hin. apply elem_of_cons in Hin as [[= -> ->] | Hin].
      * rewrite IHout by exact Hm. unfold engage_muscle.
        rewrite dict_get_set_eq. now destruct (dict_get m mr).
      * rewrite (IHin _ _ Hin). unfold engage_muscle at 1.
        rewrite dict_get_set_ne; [reflexivity |].
        intros ->. apply Hm. unfold dict_keys.
        apply list_elem_of_In, (in_map fst _ (muscle, factor)).
        now apply list_elem_of_In.
    + intros muscle Hout. simpl in Hout. apply not_elem_of_cons in Hout as [Hne Hout].
      rewrite IHout by exact Hout. unfold engage_muscle.
      now rewrite dict_get_set_ne.
Qed.

Lemma matched_exercise_first key name :
  matched_exercise name = Some key <-> first_match key name.
Proof.
  unfold matched_exercise, first_match. rewrite find_first.
  split; intros (before & after & Hl & Hk & Hb); exists before, after;
    (split; [exact Hl |]); split.
  - now apply str_in_spec.
  - eapply Forall_impl; [exact Hb |]. simpl. intros k Hf Hs.
    apply str_in_spec in Hs. congruence.
  - now apply str_in_spec.
  - eapply Forall_impl; [exact Hb |]. simpl. intros k Hf.
    destruct (str_in k name) eqn:E; [| reflexivity].
    now apply str_in_spec in E.
Qed.

Lemma matched_exercise_none name :
  matched_exercise name = None <-> forall key, ~ first_match key name.
Proof.
  split.
  - intros Hnone key Hkey. apply matched_exercise_first in Hkey. congruence.
  - intros Hno. destruct (matched_exercise name) as [key |] eqn:E; [| reflexivity].
    apply matched_exercise_first in E. now apply Hno in E.
Qed.



Lemma initialize_muscle_recovery_ok : tracked_ok initialize_muscle_recovery.
Proof.
  unfold tracked_ok, initialize_muscle_recovery, recovery_rates. simpl.
  repeat (constructor;
          [split; [eexists; reflexivity | split; unfold Qle; simpl; lia] |]).
  constructor.
Qed.

Lemma tracked_ok_get muscle data (mr : dict MuscleState) :
  tracked_ok mr -> dict_get muscle mr = Some data -> in_bounds data.
Proof.
  intros Hok Hget. apply dict_get_elem in Hget.
  apply (proj1 (Forall_forall _ _) Hok) in Hget. apply Hget.
Qed.

Lemma fatigue_increase_nonneg load factor :
  float_lt (Finite 0) load -> (0 <= factor)%Q ->
  (0 <= fatigue_increase load factor)%Q.
Proof.
  intros Hload Hfactor. destruct load as [load | | |]; try discriminate.
  apply float_lt_finite in Hload. simpl.
  apply Q.min_glb; [| discriminate].
  unfold Qdiv. repeat apply Qmult_le_0_compat; try assumption;
    [now apply Qlt_le_weak | discriminate | discriminate].
Qed.

Lemma engage_muscle_ok load on_date mr muscle factor :
  float_lt (Finite 0) load -> (0 <= factor)%Q ->
  is_Some (dict_get muscle recovery_rates) ->
  tracked_ok mr -> tracked_ok (engage_muscle load on_date mr (muscle, factor)).
Proof.
  intros Hload Hfactor Hrate Hok. unfold engage_muscle.
  apply dict_set_Forall; [| exact Hok]. split; [exact Hrate |].
  assert (0 <= fatigue (match dict_get muscle mr with
                        | Some data => data
                        | None => {| fatigue := 0; last_workout := Some on_date |}
                        end))%Q as Hcur.
  { destruct (dict_get muscle mr) as [data |] eqn:E.
    - apply (tracked_ok_get _ _ _ Hok E).
    - apply Qle_refl. }
  pose proof (fatigue_increase_nonneg _ _ Hload Hfactor) as Hinc.
  split; simpl.
  - apply Q.min_glb; [discriminate |].
    apply (Qle_trans _ (0 + 0)); [apply Qle_refl |].
    now apply Qplus_le_compat.
  - apply Q.le_min_l.
Qed.

Lemma engage_fold_ok load on_date (engagement : dict Q) (mr : dict MuscleState) :
  float_lt (Finite 0) load ->
  (forall muscle factor, (muscle, factor) ∈ engagement ->
     is_Some (dict_get muscle recovery_rates) /\ (0 < factor)%Q) ->
  tracked_ok mr ->
  tracked_ok (foldl (engage_muscle load on_date) mr engagement).
Proof.
  intros Hload. revert mr.
  induction engagement as [| [muscle factor] engagement IH]; intros mr Hall Hok;
    [exact Hok |].
  change (foldl (engage_muscle load on_date) mr ((muscle, factor) :: engagement))
    with (foldl (engage_muscle load on_date)
                (engage_muscle load on_date mr (muscle, factor)) engagement).
  apply IH.
  - intros m f Hin. apply Hall. now apply list_elem_of_further.
  - destruct (Hall muscle factor (list_elem_of_here _ _)) as [Hrate Hfactor].
    apply engage_muscle_ok; [assumption | now apply Qlt_le_weak | assumption ..].
Qed.

Lemma engage_loaded_ok load exercise on_date st :
  tracked_ok (muscle_recovery st) ->
  tracked_ok (muscle_recovery (engage_loaded load exercise on_date st)).
Proof.
  intros Hok. unfold engage_loaded.
  destruct (matched_exercise _) as [key |]; [| exact Hok].
  destruct (truthy key && float_gtb load (Finite 0)) eqn:Hgo; [| exact Hok].
  apply andb_true_iff in Hgo as [_ Hload].
  destruct (dict_get key engagement_map) as [engagement |] eqn:Hget; [| exact Hok].
  destruct (engagement_entry_ok _ _ (dict_get_elem _ _ _ Hget)) as (_ & _ & Hall).
  simpl. now apply engage_fold_ok.
Qed.

Lemma recovery_rate_nonneg muscle rate :
  dict_get muscle recovery_rates = Some rate -> 0 <= rate.
Proof.
  intros Hget. apply dict_get_elem, list_elem_of_In in Hget.
  pose proof (proj1 (forallb_forall _ _) recovery_rates_nonneg _ Hget) as Hr.
  lazy beta iota in Hr. now apply Z.leb_le.
Qed.

(** [calculate_current_fatigue]'s loop returns, and keeps the bounds. *)
Lemma current_fatigue_ok to_date (mr : dict MuscleState) :
  tracked_ok mr ->
  exists mr', for_items (current_fatigue_item (DateObj to_date)) mr = Ok mr' /\
              tracked_ok mr'.
Proof.
  induction 1 as [| [muscle data] mr [[rate Hrate] [Hlo Hhi]] Hmr IH]; simpl.
  - exists []. split; [reflexivity | constructor].
  - destruct IH as (mr' & -> & Hok').
    unfold recovery_rate_of. rewrite Hrate.
    destruct (last_workout data) as [last |]; simpl.
    + eexists. split; [reflexivity |]. constructor; [| exact Hok'].
      split; [eauto |]. split; simpl.
      * apply Q.le_max_l.
      * apply Q.max_lub; [discriminate |].
        assert (0 <= inject_Z (rate * Z.max 0 (to_date - last)))%Q as Hrec.
        { change 0%Q with (inject_Z 0). rewrite <- Zle_Qle.
          apply recovery_rate_nonneg in Hrate.
          apply Z.mul_nonneg_nonneg; lia. }
        revert Hrec. generalize (inject_Z (rate * Z.max 0 (to_date - last))).
        unfold fatigue_threshold in *. intros q Hq. lra.
    + eexists. split; [reflexivity |]. constructor; [| exact Hok'].
      split; [eauto | split; assumption].
Qed.

(** From the reset state, a sequence of [engage_muscles] and
    [calculate_current_fatigue] calls in which the load of every engaged
    entry returns, returns as well, and leaves every fatigue in
    [[0, fatigue_threshold]]. *)
Theorem fatigue_stays_in_bounds (ops : list EngineOp) (st : Planner) :
  muscle_recovery st = initialize_muscle_recovery ->
  Forall loaded ops ->
  exists st',
    for_each run_op ops st = Ok st' /\
    Forall (fun '(_, data) => in_bounds data) (muscle_recovery st').
Proof.
  intros Hreset Hloads.
  assert (tracked_ok (muscle_recovery st)) as Hok
    by (rewrite Hreset; apply initialize_muscle_recovery_ok).
  clear Hreset.
  assert (exists st', for_each run_op ops st = Ok st' /\
                      tracked_ok (muscle_recovery st')) as (st' & Hrun & Hok').
  { revert st Hok. induction Hloads as [| op ops Hop _ IH]; intros st Hok; simpl.
    - now exists st.
    - destruct op as [exercise on_date | to_date]; simpl.
      + destruct Hop as [load Hload]. unfold engage_muscles. rewrite Hload.
        cbn [mbind Res_bind]. apply IH. now apply engage_loaded_ok.
      + unfold calculate_current_fatigue. simpl.
        destruct (current_fatigue_ok to_date _ Hok) as (mr' & -> & Hok'). simpl.
        apply IH. exact Hok'. }
  exists st'. split; [exact Hrun |].
  eapply Forall_impl; [exact Hok' |]. now intros [muscle data] [_ Hb].
Qed.

(** An engage call on an entry whose load raises stops the run with the
    OverflowError of the load. *)
Lemma engage_muscles_raises exercise on_date st e :
  calculate_load exercise = Raise e ->
  engage_muscles exercise on_date st = Raise e.
Proof. unfold engage_muscles. now intros ->. Qed.

Lemma engage_muscles_loaded exercise on_date st load :
  calculate_load exercise = Ok load ->
  engage_muscles exercise on_date st = Ok (engage_loaded load exercise on_date st).
Proof. unfold engage_muscles. now intros ->. Qed.

(** A decay to the date of the last engagement leaves the fatigue as it
    was, in [calculate_current_fatigue] and in [update_muscle_recovery]. *)
Theorem decay_same_day_unchanged (muscle : string) (data : MuscleState) (last rate : Z) :
  last_workout data = Some last ->
  dict_get muscle recovery_rates = Some rate ->
  (0 <= fatigue data)%Q ->
  (exists data',
      current_fatigue_item (DateObj last) (muscle, data) = Ok (muscle, data') /\
      (fatigue data' == fatigue data)%Q /\ last_workout data' = Some last) /\
  (exists data',
      muscle_recovery_item (DateObj last) (muscle, data) = Ok (muscle, data') /\
      (fatigue data' == fatigue data)%Q /\ last_workout data' = Some last).
Proof.
  intros Hlast Hrate Hpos.
  unfold current_fatigue_item, muscle_recovery_item, recovery_rate_of.
  rewrite Hlast, Hrate. simpl. rewrite Z.sub_diag. simpl. rewrite !Z.mul_0_r.
  change (inject_Z 0) with 0%Q.
  split; eexists; (split; [reflexivity |]); (split; [| reflexivity]); simpl.
  - rewrite Q.max_r; lra.
  - rewrite Q.max_l; lra.
Qed.

End FatigueFacts.

Section PlanFacts.
Context `{Builtins}.

(** The state of [restructure_workouts]'s loop: full weeks of five, and a
    current week shorter than five, together the days read so far. *)
Lemma restructure_step_inv (days : list Day) restructured week :
  Forall (fun w => length w = 5%nat) restructured ->
  (length week < 5)%nat ->
  let '(restructured', week') := foldl restructure_step (restructured, week) days in
  Forall (fun w => length w = 5%nat) restructured' /\
  (length week' < 5)%nat /\
  concat restructured' ++ week' = concat restructured ++ week ++ days.
Proof.
  revert restructured week.
  induction days as [| day days IH]; intros restructured week Hfull Hweek.
  - simpl. now rewrite app_nil_r.
  - change (foldl restructure_step (restructured, week) (day :: days))
      with (foldl restructure_step (restructure_step (restructured, week) day) days).
    unfold restructure_step at 2. unfold len.
    rewrite length_app. simpl length.
    destruct (Z.of_nat (length week + 1) =? 5) eqn:E.
    + apply Z.eqb_eq in E.
      specialize (IH (restructured ++ [week ++ [day]]) []).
      destruct (foldl restructure_step (restructured ++ [week ++ [day]], []) days)
        as [restructured' week'].
      destruct IH as (Hf & Hw & Hc).
      * apply Forall_app. split; [exact Hfull |]. repeat constructor.
        rewrite length_app. simpl. lia.
      * simpl. lia.
      * split; [exact Hf |]. split; [exact Hw |]. rewrite Hc.
        rewrite concat_app. simpl. now rewrite !app_nil_r, <- !app_assoc.
    + apply Z.eqb_neq in E.
      specialize (IH restructured (week ++ [day])).
      destruct (foldl restructure_step (restructured, week ++ [day]) days)
        as [restructured' week'].
      destruct IH as (Hf & Hw & Hc).
      * exact Hfull.
      * rewrite length_app. simpl. lia.
      * split; [exact Hf |]. split; [exact Hw |]. rewrite Hc.
        now rewrite <- !app_assoc.
Qed.

(** A flat import is cut into consecutive weeks, none empty, of five days
    each but for a shorter last one; a nested plan is returned as it is. *)
Theorem restructure_workouts_chunks (days : list Day) (weeks : list (list Day)) :
  restructure_workouts (Nested weeks) = weeks /\
  concat (restructure_workouts (Flat days)) = days /\
  Forall (fun w => (1 <= length w <= 5)%nat) (restructure_workouts (Flat days)) /\
  (forall front last_week,
      restructure_workouts (Flat days) = front ++ [last_week] ->
      Forall (fun w => length w = 5%nat) front).
Proof.
  split; [reflexivity |]. unfold restructure_workouts.
  pose proof (restructure_step_inv days [] []) as Hinv.
  destruct (foldl restructure_step ([], []) days) as [restructured week].
  destruct Hinv as (Hf & Hw & Hc); [constructor | simpl; lia |].
  simpl in Hc. destruct week as [| day week].
  - rewrite app_nil_r in Hc. split; [exact Hc |]. split.
    + eapply Forall_impl; [exact Hf |]. simpl. lia.
    + intros front last_week ->. now apply Forall_app in Hf as [Hf _].
  - split; [now rewrite concat_app; simpl; rewrite app_nil_r |]. split.
    + apply Forall_app. split.
      * eapply Forall_impl; [exact Hf |]. simpl. lia.
      * constructor; [simpl in *; lia | constructor].
    + intros front last_week Heq. apply app_inj_tail in Heq as [<- _]. exact Hf.
Qed.

(** C6, amended. Twelve flat days come back as three weeks: the first five
    days, the next five, and the last two. *)
Theorem restructure_workouts_twelve (days : list Day) :
  length days = 12%nat ->
  restructure_workouts (Flat days) = [take 5 days; take 5 (drop 5 days); drop 10 days] /\
  map length (restructure_workouts (Flat days)) = [5; 5; 2]%nat.
Proof.
  intros Hlen.
  do 12 (destruct days as [| ? days]; [discriminate Hlen |]).
  destruct days; [| discriminate Hlen].
  split; reflexivity.
Qed.

(** C7. On a week of seven days [add_day] shows the warning "Maximum Days
    Reached" and returns the planner as it was; on a week of one day
    [remove_day] shows the warning "Cannot Remove Day" and returns the
    planner as it was, whatever would have been picked in its dialog. *)
Theorem full_and_single_week_refused (st : Planner) (week : list Day) :
  py_index (workouts st) (current_week st - 1) = Ok week ->
  (len week = 7 ->
   add_day st =
   Ok (st, [ShowWarning "Maximum Days Reached" "A week can have a maximum of 7 days."])) /\
  (len week = 1 ->
   forall choice,
     remove_day choice st =
     Ok (st, [ShowWarning "Cannot Remove Day" "A week must have at least one day."])).
Proof.
  intros Hweek. unfold add_day, remove_day.
  assert (exists pos, py_pos (workouts st) (current_week st - 1) = Ok pos) as [pos Hpos].
  { unfold py_index in Hweek.
    destruct (py_pos (workouts st) (current_week st - 1)); [eauto | discriminate]. }
  rewrite Hpos, Hweek. simpl. split.
  - intros ->. reflexivity.
  - intros -> choice. reflexivity.
Qed.

End PlanFacts.

Section HistoryFacts.
Context `{Builtins}.

Lemma entries_for_cons_ne name exercise on_date calls :
  ex_name exercise <> name ->
  entries_for name ((exercise, on_date) :: calls) = entries_for name calls.
Proof.
  intros Hne. unfold entries_for. now rewrite filter_cons_False.
Qed.

Lemma entries_for_cons_eq exercise on_date calls :
  entries_for (ex_name exercise) ((exercise, on_date) :: calls) =
  match history_entry (exercise, on_date) with
  | Some entry => entry :: entries_for (ex_name exercise) calls
  | None => entries_for (ex_name exercise) calls
  end.
Proof.
  unfold entries_for. rewrite filter_cons_True by reflexivity. reflexivity.
Qed.

(** The history after one call. *)
Lemma record_history name exercise on_date st :
  pr_history (pr_of name (record exercise on_date st)) =
  pr_history (pr_of name st) ++ entries_for name [(exercise, on_date)].
Proof.
  unfold record.
  destruct (decide (ex_name exercise = name)) as [<- | Hne].
  - rewrite entries_for_cons_eq. unfold history_entry. simpl.
    destruct (py_float (ex_weight exercise)) as [weight |] eqn:Hw; simpl.
    + destruct (py_int (ex_reps exercise)) as [reps |] eqn:Hr; simpl.
      * destruct (pr_of_update_prs_eq exercise (set_current_date on_date st)
                    weight reps Hw Hr) as (_ & _ & Eh).
        exact Eh.
      * rewrite update_prs_no_reps by assumption. now rewrite app_nil_r.
    + rewrite update_prs_no_weight by assumption. now rewrite app_nil_r.
  - rewrite pr_of_update_prs_ne by assumption.
    rewrite entries_for_cons_ne by assumption. now rewrite app_nil_r.
Qed.

(** The history of a name only grows, at its end, by one entry for each
    call for that name that parses, in call order, whether or not the call
    set a PR, and with repeats kept. *)
Theorem history_append_only (name : string) (calls : list (Exercise * pydate))
    (st : Planner) :
  pr_history (pr_of name (replay calls st)) =
  pr_history (pr_of name st) ++ entries_for name calls.
Proof.
  revert st. induction calls as [| [exercise on_date] calls IH]; intros st.
  - unfold entries_for. simpl. now rewrite app_nil_r.
  - change (replay ((exercise, on_date) :: calls) st)
      with (replay calls (record exercise on_date st)).
    rewrite IH, record_history, <- app_assoc. f_equal.
    destruct (decide (ex_name exercise = name)) as [<- | Hne].
    + rewrite !entries_for_cons_eq.
      now destruct (history_entry (exercise, on_date)).
    + now rewrite !entries_for_cons_ne by assumption.
Qed.

(** The weight PR after one call, from the entry of the call. *)
Lemma record_weight_cases name exercise on_date st :
  (pr_weight (pr_of name (record exercise on_date st)) = pr_weight (pr_of name st) /\
   forall entry, entry ∈ entries_for name [(exercise, on_date)] ->
                 ~ float_lt (value (pr_weight (pr_of name st))) (h_weight entry)) \/
  (exists entry, entries_for name [(exercise, on_date)] = [entry] /\
                 float_lt (value (pr_weight (pr_of name st))) (h_weight entry) /\
                 pr_weight (pr_of name (record exercise on_date st)) =
                   {| value := h_weight entry; mark_date := Some (h_date entry) |}).
Proof.
  unfold record.
  destruct (decide (ex_name exercise = name)) as [<- | Hne].
  - rewrite entries_for_cons_eq. unfold history_entry. simpl.
    destruct (py_float (ex_weight exercise)) as [weight |] eqn:Hw; simpl.
    + destruct (py_int (ex_reps exercise)) as [reps |] eqn:Hr; simpl.
      * destruct (pr_of_update_prs_eq exercise (set_current_date on_date st)
                    weight reps Hw Hr) as (Ew & _).
        rewrite pr_of_set_current_date in Ew. simpl in Ew.
        destruct (float_gtb weight _) eqn:Hgt.
        -- right. eexists. split; [reflexivity |]. simpl.
           split; [exact Hgt | exact Ew].
        -- left. split; [exact Ew |]. intros entry Hin.
           apply list_elem_of_singleton in Hin. subst entry. simpl.
           unfold float_lt. now rewrite Hgt.
      * left. rewrite update_prs_no_reps by assumption.
        split; [reflexivity |]. intros entry Hin. now apply elem_of_nil in Hin.
    + left. rewrite update_prs_no_weight by assumption.
      split; [reflexivity |]. intros entry Hin. now apply elem_of_nil in Hin.
  - left. rewrite pr_of_update_prs_ne by assumption.
    rewrite entries_for_cons_ne by assumption.
    split; [reflexivity |]. intros entry Hin. now apply elem_of_nil in Hin.
Qed.

Lemma entries_for_app name c1 c2 :
  entries_for name (c1 ++ c2) = entries_for name c1 ++ entries_for name c2.
Proof. unfold entries_for. now rewrite filter_app, omap_app. Qed.

(** After any run of record calls, no weight the run recorded for a name is
    above its weight PR, in the order of the floats, where nan is above
    nothing and nothing is above nan: a nan weight enters the history and
    never the PR.  The weight PR is either the mark the run started from or
    the weight and date of one of the run's entries, above the mark the run
    started from. *)
Theorem no_weight_above_the_pr (name : string) (calls : list (Exercise * pydate))
    (st : Planner) :
  (forall entry, entry ∈ entries_for name calls ->
     ~ float_lt (value (pr_weight (pr_of name (replay calls st)))) (h_weight entry)) /\
  (pr_weight (pr_of name (replay calls st)) = pr_weight (pr_of name st) \/
   exists entry, entry ∈ entries_for name calls /\
     float_lt (value (pr_weight (pr_of name st))) (h_weight entry) /\
     pr_weight (pr_of name (replay calls st)) =
       {| value := h_weight entry; mark_date := Some (h_date entry) |}).
Proof.
  revert st. induction calls as [| [exercise on_date] calls IH]; intros st.
  - split; [intros entry Hin; now apply elem_of_nil in Hin | now left].
  - change (replay ((exercise, on_date) :: calls) st)
      with (replay calls (record exercise on_date st)).
    change ((exercise, on_date) :: calls) with ([(exercise, on_date)] ++ calls).
    rewrite entries_for_app.
    destruct (IH (record exercise on_date st)) as [IHle IHeq].
    pose proof (replay_weight_le name calls (record exercise on_date st)) as Hmono.
    assert (forall w,
               ~ float_lt (value (pr_weight (pr_of name (record exercise on_date st)))) w ->
               ~ float_lt (value (pr_weight (pr_of name (replay calls
                                        (record exercise on_date st))))) w) as Hup.
    { intros w Hw Hlt. apply Hw. destruct Hmono as [E | L].
      - now rewrite <- E.
      - eapply float_lt_trans; eassumption. }
    destruct (record_weight_cases name exercise on_date st)
      as [[Hsame Hle] | (entry0 & He & Hlt & Hnew)].
    + split.
      * intros entry Hin. apply elem_of_app in Hin as [Hin | Hin]; [| now apply IHle].
        apply Hup. rewrite Hsame. now apply Hle.
      * destruct IHeq as [IHeq | (entry & Hin & Hlt & IHeq)].
        -- left. now rewrite IHeq.
        -- right. exists entry. split; [apply elem_of_app; now right |].
           split; [now rewrite <- Hsame | exact IHeq].
    + rewrite He. split.
      * intros entry Hin. apply elem_of_app in Hin as [Hin | Hin]; [| now apply IHle].
        apply list_elem_of_singleton in Hin. subst entry.
        apply Hup. rewrite Hnew. simpl. apply float_lt_irrefl.
      * right. destruct IHeq as [IHeq | (entry & Hin & Hlt' & IHeq)].
        -- exists entry0. split; [apply elem_of_app; left; apply list_elem_of_here |].
           split; [exact Hlt | now rewrite IHeq].
        -- exists entry. split; [apply elem_of_app; now right |].
           split; [| exact IHeq]. rewrite Hnew in Hlt'. simpl in Hlt'.
           eapply float_lt_trans; eassumption.
Qed.

End HistoryFacts.

Section RecomputeMore.
Context `{Builtins}.

Lemma update_prs_lookup_ne name exercise st :
  ex_name exercise <> name ->
  prs (update_prs exercise st) !! name = prs st !! name.
Proof.
  intros Hne. unfold update_prs.
  destruct (py_float (ex_weight exercise)); [| reflexivity].
  destruct (py_int (ex_reps exercise)); [| reflexivity].
  simpl. now rewrite lookup_insert_ne.
Qed.

Lemma backed_new_pr : backed new_pr.
Proof. split; intros d Hd; discriminate Hd. Qed.

(** One call keeps every record backed by its history. *)
Lemma update_prs_backed exercise st :
  (forall name pr, prs st !! name = Some pr -> backed pr) ->
  forall name pr, prs (update_prs exercise st) !! name = Some pr -> backed pr.
Proof.
  intros Hall name pr Hget.
  destruct (decide (ex_name exercise = name)) as [<- | Hne];
    [| rewrite update_prs_lookup_ne in Hget by assumption; eauto].
  destruct (py_float (ex_weight exercise)) as [weight |] eqn:Hw;
    [| rewrite update_prs_no_weight in Hget by assumption; eauto].
  destruct (py_int (ex_reps exercise)) as [reps |] eqn:Hr;
    [| rewrite update_prs_no_reps in Hget by assumption; eauto].
  assert (backed (pr_of (ex_name exercise) st)) as [Hbw Hbr].
  { unfold pr_of. destruct (prs st !! ex_name exercise) eqn:E; simpl;
      [eauto | apply backed_new_pr]. }
  destruct (pr_of_update_prs_eq exercise st weight reps Hw Hr) as (Ew & Er & Eh).
  assert (pr_of (ex_name exercise) (update_prs exercise st) = pr) as Hpr
    by (unfold pr_of; now rewrite Hget).
  rewrite Hpr in Ew, Er, Eh. split; intros d Hd.
  - rewrite Ew in Hd |- *. rewrite Eh. destruct (float_gtb weight _).
    + injection Hd as <-. eexists. split; [apply elem_of_app; right; apply list_elem_of_here |].
      split; reflexivity.
    + destruct (Hbw d Hd) as (entry & Hin & Hdate & Hweight).
      exists entry. split; [apply elem_of_app; now left | now split].
  - rewrite Er in Hd |- *. rewrite Eh. destruct (_ && _).
    + injection Hd as <-. eexists. split; [apply elem_of_app; right; apply list_elem_of_here |].
      split; reflexivity.
    + destruct (Hbr d Hd) as (entry & Hin & Hdate & Hreps).
      exists entry. split; [apply elem_of_app; now left | now split].
Qed.

Lemma replay_prs_backed calls p :
  (forall name pr, p !! name = Some pr -> backed pr) ->
  forall name pr, replay_prs calls p !! name = Some pr -> backed pr.
Proof.
  revert p. induction calls as [| [exercise d] calls IH]; intros p Hall; [exact Hall |].
  apply IH. unfold prs_after.
  apply (update_prs_backed exercise
           {| workouts := []; total_weeks := 0; current_week := 0; current_day := 0;
              current_date := d; prs := p; muscle_recovery := [] |}).
  exact Hall.
Qed.

(** After [recalculate_prs], the date of every weight PR and of every reps
    PR is the date of a history entry of that exercise with that weight,
    respectively with those reps. *)
Theorem recalculate_prs_marks_backed (st : Planner) (name : string) (pr : PRData) :
  prs (recalculate_prs st) !! name = Some pr -> backed pr.
Proof.
  rewrite recalculate_prs_frame. simpl. apply replay_prs_backed.
  intros name' pr' Hget. rewrite initialize_prs_lookup in Hget.
  destruct (decide _); [| discriminate]. injection Hget as <-. apply backed_new_pr.
Qed.

(** [recalculate_prs] writes [self.prs] and [self.current_date] only, leaves
    the current date at the stored date of the last dated day (as it was
    when no day is dated), and from its second run on it repeats itself:
    a third run leaves what the second left. *)
Theorem recalculate_prs_settles (st : Planner) :
  workouts (recalculate_prs st) = workouts st /\
  total_weeks (recalculate_prs st) = total_weeks st /\
  current_week (recalculate_prs st) = current_week st /\
  current_day (recalculate_prs st) = current_day st /\
  muscle_recovery (recalculate_prs st) = muscle_recovery st /\
  current_date (recalculate_prs st) =
    foldl day_on_date (current_date st) (concat (workouts st)) /\
  recalculate_prs (recalculate_prs (recalculate_prs st)) =
    recalculate_prs (recalculate_prs st).
Proof.
  repeat (split; [rewrite recalculate_prs_frame; reflexivity |]).
  rewrite (recalculate_prs_frame (recalculate_prs (recalculate_prs st))).
  rewrite (recalculate_prs_frame (recalculate_prs st)).
  rewrite (recalculate_prs_frame st). simpl.
  now rewrite !last_date_idem.
Qed.

Lemma last_date_dated current days :
  Exists (fun day => is_Some (day_date day)) days ->
  exists iso, foldl day_on_date current days = DateStr iso.
Proof.
  revert current. induction days as [| day days IH]; intros current Hex;
    [now apply Exists_nil in Hex |].
  simpl. destruct (decide (Exists (fun day => is_Some (day_date day)) days))
    as [Hlater | Hnone].
  - now apply IH.
  - apply Exists_cons in Hex as [[iso Hiso] | Hex]; [| contradiction].
    exists iso. rewrite last_date_undated.
    + unfold day_on_date. now rewrite Hiso.
    + apply Forall_forall. intros d Hd.
      destruct (day_date d) eqn:E; [| reflexivity].
      destruct Hnone. apply Exists_exists. exists d. split; [exact Hd | now rewrite E].
Qed.

Lemma for_items_type_error (body : string * MuscleState -> Res (string * MuscleState))
    (mr : dict MuscleState) :
  (forall item, last_workout item.2 = None -> body item = Ok item) ->
  (forall item, is_Some (last_workout item.2) -> body item = Raise TypeError) ->
  Exists (fun item => is_Some (last_workout item.2)) mr ->
  for_items body mr = Raise TypeError.
Proof.
  intros Hnone Hsome. induction mr as [| item mr IH]; intros Hex;
    [now apply Exists_nil in Hex |].
  simpl. destruct (last_workout item.2) eqn:E.
  - now rewrite Hsome by (rewrite E; eauto).
  - rewrite Hnone by exact E. simpl.
    apply Exists_cons in Hex as [[? Hitem] | Hex]; [congruence |].
    now rewrite IH.
Qed.

(** [recalculate_prs] leaves a string in [self.current_date] as soon as one
    day has a stored date, and both decays then raise TypeError at the first
    muscle that has a last workout. *)
Theorem decay_after_recalculate_raises (st : Planner) :
  Exists (fun day => is_Some (day_date day)) (concat (workouts st)) ->
  Exists (fun item => is_Some (last_workout item.2)) (muscle_recovery st) ->
  calculate_current_fatigue (recalculate_prs st) = Raise TypeError /\
  update_muscle_recovery (recalculate_prs st) = Raise TypeError.
Proof.
  intros Hdated Hengaged.
  unfold calculate_current_fatigue, update_muscle_recovery.
  rewrite recalculate_prs_frame. simpl.
  destruct (last_date_dated (current_date st) _ Hdated) as [iso ->].
  split.
  - rewrite (for_items_type_error (current_fatigue_item (DateStr iso)));
      [reflexivity | | | exact Hengaged].
    + intros [muscle data] Hn. simpl in *. now rewrite Hn.
    + intros [muscle data] [last Hl]. simpl in *. now rewrite Hl.
  - rewrite (for_items_type_error (muscle_recovery_item (DateStr iso)));
      [reflexivity | | | exact Hengaged].
    + intros [muscle data] Hn. simpl in *. now rewrite Hn.
    + intros [muscle data] [last Hl]. simpl in *. now rewrite Hl.
Qed.

End RecomputeMore.

Section DecayFacts.
Context `{Builtins}.

(** [calculate_current_fatigue] on a state whose muscles have rates and
    fatigues within bounds, with a date object as current date: it returns,
    keeps the muscles, their order and their last workouts, never raises a
    fatigue, and touches nothing else of the planner. *)
Theorem decay_only_lowers (to_date : Z) (st : Planner) :
  tracked_ok (muscle_recovery st) ->
  current_date st = DateObj to_date ->
  exists st',
    calculate_current_fatigue st = Ok st' /\
    st' = set_muscle_recovery (muscle_recovery st') st /\
    Forall2 (fun before after =>
               after.1 = before.1 /\
               last_workout after.2 = last_workout before.2 /\
               (0 <= fatigue after.2)%Q /\ (fatigue after.2 <= fatigue before.2)%Q)
            (muscle_recovery st) (muscle_recovery st').
Proof.
  intros Hok Hdate. unfold calculate_current_fatigue. rewrite Hdate.
  assert (exists mr',
             for_items (current_fatigue_item (DateObj to_date)) (muscle_recovery st) = Ok mr' /\
             Forall2 (fun before after =>
                        after.1 = before.1 /\
                        last_workout after.2 = last_workout before.2 /\
                        (0 <= fatigue after.2)%Q /\ (fatigue after.2 <= fatigue before.2)%Q)
                     (muscle_recovery st) mr') as (mr' & Hrun & Hrel).
  { induction Hok as [| [muscle data] mr [[rate Hrate] [Hlo Hhi]] Hmr IH]; simpl.
    - exists []. split; [reflexivity | constructor].
    - destruct IH as (mr' & -> & Hrel).
      unfold recovery_rate_of. rewrite Hrate.
      destruct (last_workout data) as [last |] eqn:Hlast; simpl.
      + eexists. split; [reflexivity |]. constructor; [| exact Hrel]. simpl.
        split; [reflexivity |]. split; [now rewrite Hlast |].
        split; [apply Q.le_max_l |].
        apply Q.max_lub; [exact Hlo |].
        assert (0 <= inject_Z (rate * Z.max 0 (to_date - last)))%Q as Hrec.
        { change 0%Q with (inject_Z 0). rewrite <- Zle_Qle.
          apply recovery_rate_nonneg in Hrate.
          apply Z.mul_nonneg_nonneg; lia. }
        revert Hrec. generalize (inject_Z (rate * Z.max 0 (to_date - last))).
        intros q Hq. lra.
      + eexists. split; [reflexivity |]. constructor; [| exact Hrel]. simpl.
        split; [reflexivity |]. split; [reflexivity |].
        split; [exact Hlo | apply Qle_refl]. }
  rewrite Hrun. simpl. eexists. split; [reflexivity |]. split; [reflexivity |].
  exact Hrel.
Qed.

(** Two decays to the same date take the recovery off twice: the last
    workout is not moved by a decay, so a repeated
    [calculate_current_fatigue] keeps lowering the fatigue. *)
Theorem decay_twice_recovers_twice (muscle : string) (data : MuscleState)
    (last rate to_date : Z) :
  last_workout data = Some last ->
  dict_get muscle recovery_rates = Some rate ->
  exists once twice,
    current_fatigue_item (DateObj to_date) (muscle, data) = Ok (muscle, once) /\
    current_fatigue_item (DateObj to_date) (muscle, once) = Ok (muscle, twice) /\
    last_workout twice = Some last /\
    (fatigue twice ==
     Qmax 0 (fatigue data - 2 * inject_Z (rate * Z.max 0 (to_date - last))))%Q.
Proof.
  intros Hlast Hrate. do 2 eexists.
  split; [unfold current_fatigue_item; rewrite Hlast; simpl;
          unfold recovery_rate_of; rewrite Hrate; reflexivity |].
  split; [unfold current_fatigue_item; simpl;
          unfold recovery_rate_of; rewrite Hrate; reflexivity |].
  split; [reflexivity |]. simpl.
  assert (0 <= inject_Z (rate * Z.max 0 (to_date - last)))%Q as Hrec.
  { change 0%Q with (inject_Z 0). rewrite <- Zle_Qle.
    apply recovery_rate_nonneg in Hrate. apply Z.mul_nonneg_nonneg; lia. }
  revert Hrec. generalize (inject_Z (rate * Z.max 0 (to_date - last))).
  generalize (fatigue data). intros f q Hq.
  destruct (Qlt_le_dec 0 (f - q)) as [Hpos | Hneg].
  - rewrite (Q.max_r 0 (f - q)) by now apply Qlt_le_weak.
    apply Q.max_compat; [reflexivity | ring].
  - rewrite (Q.max_l 0 (f - q)) by exact Hneg.
    rewrite (Q.max_l 0 (0 - q)) by lra.
    rewrite (Q.max_l 0 (f - 2 * q)) by lra. reflexivity.
Qed.

(** When the current date is not before any last workout, the two decays
    of the planner return the same muscle states. *)
Theorem decays_agree_from_the_last_workout_on (to_date : Z) (st : Planner) :
  current_date st = DateObj to_date ->
  Forall (fun item =>
            is_Some (dict_get item.1 recovery_rates) /\
            forall last, last_workout item.2 = Some last -> last <= to_date)
         (muscle_recovery st) ->
  exists st1 st2,
    calculate_current_fatigue st = Ok st1 /\
    update_muscle_recovery st = Ok st2 /\
    Forall2 (fun one other =>
               one.1 = other.1 /\ last_workout one.2 = last_workout other.2 /\
               (fatigue one.2 == fatigue other.2)%Q)
            (muscle_recovery st1) (muscle_recovery st2).
Proof.
  intros Hdate Hall. unfold calculate_current_fatigue, update_muscle_recovery.
  rewrite Hdate.
  assert (exists mr1 mr2,
             for_items (current_fatigue_item (DateObj to_date)) (muscle_recovery st) = Ok mr1 /\
             for_items (muscle_recovery_item (DateObj to_date)) (muscle_recovery st) = Ok mr2 /\
             Forall2 (fun one other =>
                        one.1 = other.1 /\ last_workout one.2 = last_workout other.2 /\
                        (fatigue one.2 == fatigue other.2)%Q) mr1 mr2)
    as (mr1 & mr2 & -> & -> & Hrel).
  { induction Hall as [| [muscle data] mr [[rate Hrate] Hlast] Hmr IH]; simpl.
    - exists [], []. repeat split; constructor.
    - destruct IH as (mr1 & mr2 & -> & -> & Hrel). cbn [fst snd] in *.
      simpl. unfold recovery_rate_of. rewrite Hrate.
      destruct (last_workout data) as [last |] eqn:El; simpl.
      + do 2 eexists. split; [reflexivity |]. split; [reflexivity |].
        constructor; [| exact Hrel]. simpl. split; [reflexivity |].
        split; [reflexivity |].
        rewrite Z.max_r by (specialize (Hlast last eq_refl); lia).
        apply Q.max_comm.
      + do 2 eexists. split; [reflexivity |]. split; [reflexivity |].
        constructor; [| exact Hrel]. simpl. now rewrite El. }
  simpl. do 2 eexists. split; [reflexivity |]. split; [reflexivity |]. exact Hrel.
Qed.

(** [engage_muscles], whatever the load it has computed, never lowers the
    fatigue of a muscle of a state within bounds and never drops a
    muscle. *)
Theorem engage_only_raises (load : pyfloat) (exercise : Exercise) (on_date : Z)
    (st : Planner) (muscle : string) :
  tracked_ok (muscle_recovery st) ->
  (fatigue_of muscle st <=
   fatigue_of muscle (engage_loaded load exercise on_date st))%Q /\
  (is_Some (dict_get muscle (muscle_recovery st)) ->
   is_Some (dict_get muscle (muscle_recovery (engage_loaded load exercise on_date st)))).
Proof.
  intros Hok.
  assert (engage_loaded load exercise on_date st = st \/
          exists engagement,
            float_lt (Finite 0) load /\
            NoDup (dict_keys engagement) /\
            (forall m f, (m, f) ∈ engagement -> (0 <= f)%Q) /\
            muscle_recovery (engage_loaded load exercise on_date st) =
              foldl (engage_muscle load on_date)
                    (muscle_recovery st) engagement) as [-> | Hrun].
  { unfold engage_loaded.
    destruct (matched_exercise _) as [key |]; [| now left].
    destruct (truthy key && float_gtb load (Finite 0)) eqn:Hgo; [| now left].
    apply andb_true_iff in Hgo as [_ Hload].
    destruct (dict_get key engagement_map) as [engagement |] eqn:Hget; [| now left].
    destruct (engagement_entry_ok _ _ (dict_get_elem _ _ _ Hget)) as (_ & Hnd & Hall).
    right. exists engagement. repeat split; try assumption.
    intros m f Hin. apply Qlt_le_weak. exact (proj2 (Hall m f Hin)). }
  { split; [apply Qle_refl | auto]. }
  destruct Hrun as (engagement & Hload & Hnd & Hfactors & Hmr).
  destruct (engage_fold load on_date engagement (muscle_recovery st) Hnd)
    as [Hin Hout].
  unfold fatigue_of at 2. rewrite Hmr.
  destruct (decide (muscle ∈ dict_keys engagement)) as [Hkey | Hkey].
  - apply list_elem_of_In, in_map_iff in Hkey as ([m f] & Hm & Hmf).
    simpl in Hm. subst m. apply list_elem_of_In in Hmf.
    rewrite (Hin _ _ Hmf). simpl. split; [| eauto].
    pose proof (fatigue_increase_nonneg load f Hload (Hfactors _ _ Hmf)) as Hinc.
    assert (0 <= fatigue_of muscle st /\ fatigue_of muscle st <= fatigue_threshold)%Q
      as [Hlo Hhi].
    { unfold fatigue_of. destruct (dict_get muscle (muscle_recovery st)) eqn:E.
      - apply (tracked_ok_get _ _ _ Hok E).
      - split; discriminate. }
    unfold fatigue_of in *. apply Q.min_glb; [exact Hhi |].
    revert Hinc. generalize (fatigue_increase load f).
    intros q Hq. lra.
  - rewrite (Hout _ Hkey). split; [apply Qle_refl | auto].
Qed.

End DecayFacts.

Section RenumberFacts.

#[local] Instance day_name_inj : Inj (=) (=) day_name.
Proof.
  intros k1 k2 Heq. unfold day_name in Heq.
  apply (inj (String.append "Day ")) in Heq. now apply (inj pretty) in Heq.
Qed.

Lemma renumber_week_spec day_number week :
  (renumber_week day_number week).2 = day_number + len week /\
  length (renumber_week day_number week).1 = length week /\
  day_label <$> (renumber_week day_number week).1 =
    day_name <$> seqZ day_number (len week) /\
  day_date <$> (renumber_week day_number week).1 = day_date <$> week /\
  day_exercises <$> (renumber_week day_number week).1 = day_exercises <$> week.
Proof.
  revert day_number. unfold len.
  induction week as [| day week IH]; intros day_number.
  - simpl. repeat split; lia.
  - simpl renumber_week.
    destruct (IH (day_number + 1)) as (Hnext & Hlen & Hlabels & Hdates & Hex).
    destruct (renumber_week (day_number + 1) week) as [week' next].
    cbn [fst snd] in *. rewrite !length_cons, !fmap_cons.
    split; [lia |]. split; [now rewrite Hlen |].
    rewrite (seqZ_cons day_number) by lia.
    replace (Z.pred (Z.of_nat (S (length week))))
      with (Z.of_nat (length week)) by lia.
    replace (Z.succ day_number) with (day_number + 1) by lia.
    rewrite fmap_cons, Hlabels, Hdates, Hex. repeat split.
Qed.

Lemma renumber_weeks_spec day_number weeks :
  length <$> renumber_weeks day_number weeks = length <$> weeks /\
  day_label <$> concat (renumber_weeks day_number weeks) =
    day_name <$> seqZ day_number (len (concat weeks)) /\
  day_date <$> concat (renumber_weeks day_number weeks) = day_date <$> concat weeks /\
  day_exercises <$> concat (renumber_weeks day_number weeks) =
    day_exercises <$> concat weeks.
Proof.
  revert day_number. induction weeks as [| week weeks IH]; intros day_number.
  - simpl. repeat split.
  - simpl renumber_weeks.
    destruct (renumber_week_spec day_number week) as (Hnext & Hlen & Hlabels & Hdates & Hex).
    destruct (renumber_week day_number week) as [week' next].
    cbn [fst snd] in *. subst next.
    destruct (IH (day_number + len week)) as (IHlen & IHlabels & IHdates & IHex).
    rewrite !fmap_cons, !concat_cons, !fmap_app.
    rewrite Hlen, IHlen, Hlabels, IHlabels, Hdates, IHdates, Hex, IHex.
    split; [reflexivity |]. split; [| now split].
    unfold len. rewrite length_app, Nat2Z.inj_add.
    rewrite seqZ_app by lia. now rewrite fmap_app.
Qed.

(** [renumber_all_days] labels the days "Day 1" to "Day N" in plan order,
    with no gap and no repeat, keeps the week sizes, the dates and the
    exercises, touches nothing else, and run again it changes nothing. *)
Theorem renumber_all_days_labels (st : Planner) :
  day_label <$> concat (workouts (renumber_all_days st)) =
    day_name <$> seqZ 1 (len (concat (workouts st))) /\
  NoDup (day_label <$> concat (workouts (renumber_all_days st))) /\
  length <$> workouts (renumber_all_days st) = length <$> workouts st /\
  day_date <$> concat (workouts (renumber_all_days st)) =
    day_date <$> concat (workouts st) /\
  day_exercises <$> concat (workouts (renumber_all_days st)) =
    day_exercises <$> concat (workouts st) /\
  renumber_all_days st = set_workouts (workouts (renumber_all_days st)) st /\
  renumber_all_days (renumber_all_days st) = renumber_all_days st.
Proof.
  unfold renumber_all_days. simpl.
  destruct (renumber_weeks_spec 1 (workouts st)) as (Hlen & Hlabels & Hdates & Hex).
  split; [exact Hlabels |].
  split; [rewrite Hlabels; apply NoDup_fmap_2; [apply _ | apply NoDup_seqZ] |].
  split; [exact Hlen |]. split; [exact Hdates |]. split; [exact Hex |].
  split; [reflexivity |].
  unfold set_workouts. simpl. f_equal.
  assert (forall n weeks, renumber_weeks n (renumber_weeks n weeks) = renumber_weeks n weeks)
    as Hidem; [| apply Hidem].
  assert (forall n week, renumber_week n (renumber_week n week).1 = renumber_week n week)
    as Hweek.
  { intros n week. revert n. induction week as [| day week IH]; intros n; [reflexivity |].
    simpl. specialize (IH (n + 1)).
    destruct (renumber_week (n + 1) week) as [week' next]. simpl in *.
    now rewrite IH. }
  intros n weeks. revert n. induction weeks as [| week weeks IH]; intros n; [reflexivity |].
  simpl. specialize (Hweek n week).
  destruct (renumber_week n week) as [week' next]. simpl in *.
  rewrite Hweek. now rewrite IH.
Qed.

End RenumberFacts.

(** ** The refresh *)

Lemma bind_Ok {A B : Type} (m : Res A) (k : A -> Res B) (b : B) :
  m ≫= k = Ok b -> exists a, m = Ok a /\ k a = Ok b.
Proof. destruct m as [a | e]; simpl; [eauto | discriminate]. Qed.

Lemma for_each_preserves {A S : Type} (R : S -> S -> Prop)
    (body : A -> S -> Res S) (xs : list A) :
  (forall s, R s s) -> (forall s1 s2 s3, R s1 s2 -> R s2 s3 -> R s1 s3) ->
  (forall x s s', x ∈ xs -> body x s = Ok s' -> R s s') ->
  forall st st', for_each body xs st = Ok st' -> R st st'.
Proof.
  intros Hrefl Htrans. induction xs as [| x xs IH]; intros Hbody st st' Hrun.
  - injection Hrun as <-. apply Hrefl.
  - simpl in Hrun. apply bind_Ok in Hrun as (s & Hx & Hrest).
    apply (Htrans _ s).
    + eapply Hbody; [apply list_elem_of_here | exact Hx].
    + apply IH; [| exact Hrest]. intros y s1 s2 Hy. apply Hbody.
      now apply list_elem_of_further.
Qed.

Lemma for_each_returns {A S : Type} (I : S -> Prop)
    (body : A -> S -> Res S) (xs : list A) :
  (forall x s, x ∈ xs -> I s -> exists s', body x s = Ok s' /\ I s') ->
  forall st, I st -> exists st', for_each body xs st = Ok st' /\ I st'.
Proof.
  induction xs as [| x xs IH]; intros Hbody st Hst; [now exists st |].
  simpl. destruct (Hbody x st (list_elem_of_here _ _) Hst) as (s & -> & Hs). simpl.
  apply IH; [| exact Hs]. intros y s' Hy. apply Hbody. now apply list_elem_of_further.
Qed.

Lemma only_muscles_refl st : only_muscles st st.
Proof. unfold only_muscles. now destruct st. Qed.

Lemma only_muscles_trans s1 s2 s3 :
  only_muscles s1 s2 -> only_muscles s2 s3 -> only_muscles s1 s3.
Proof. unfold only_muscles. intros H12 H23. rewrite H23, H12. reflexivity. Qed.

Lemma only_muscles_set mr st : only_muscles st (set_muscle_recovery mr st).
Proof. reflexivity. Qed.

Lemma for_items_rated {V : Type} (P : string * V -> Prop)
    (body : string * V -> Res (string * V)) (d : dict V) :
  (forall item, P item -> exists v, body item = Ok (item.1, v)) ->
  Forall P d ->
  exists d', for_items body d = Ok d' /\ dict_keys d' = dict_keys d.
Proof.
  intros Hbody. induction 1 as [| item d Hitem Hd IH]; simpl.
  - now exists [].
  - destruct (Hbody item Hitem) as [v ->]. destruct IH as (d' & -> & Hkeys). simpl.
    eexists. split; [reflexivity |]. simpl. now rewrite Hkeys.
Qed.

Lemma rated_keys (mr mr' : dict MuscleState) :
  dict_keys mr' = dict_keys mr -> rated mr -> rated mr'.
Proof.
  unfold rated, dict_keys. revert mr'.
  induction mr as [| item mr IH]; intros [| item' mr'] Hkeys Hr;
    try discriminate; [constructor |].
  injection Hkeys as Hk Hkeys. apply Forall_cons in Hr as [Hi Hr].
  constructor; [now rewrite Hk | now apply IH].
Qed.

Section RefreshFacts.
Context `{Builtins}.

Lemma engage_loaded_only_muscles load exercise on_date st :
  only_muscles st (engage_loaded load exercise on_date st).
Proof.
  unfold engage_loaded.
  destruct (matched_exercise _); [| apply only_muscles_refl].
  destruct (_ && _); [| apply only_muscles_refl].
  destruct (dict_get _ engagement_map); [reflexivity | apply only_muscles_refl].
Qed.

Lemma engage_muscle_rated load on_date mr muscle factor :
  is_Some (dict_get muscle recovery_rates) ->
  rated mr -> rated (engage_muscle load on_date mr (muscle, factor)).
Proof.
  intros Hrate Hr. unfold engage_muscle. now apply dict_set_Forall.
Qed.

Lemma engage_loaded_rated load exercise on_date st :
  rated (muscle_recovery st) ->
  rated (muscle_recovery (engage_loaded load exercise on_date st)).
Proof.
  intros Hr. unfold engage_loaded.
  destruct (matched_exercise _) as [key |]; [| exact Hr].
  destruct (_ && _); [| exact Hr].
  destruct (dict_get key engagement_map) as [engagement |] eqn:Hget; [| exact Hr].
  destruct (engagement_entry_ok _ _ (dict_get_elem _ _ _ Hget)) as (_ & _ & Hall).
  simpl. revert Hr. generalize (muscle_recovery st) as mr.
  assert (forall muscle factor, (muscle, factor) ∈ engagement ->
                                is_Some (dict_get muscle recovery_rates)) as Hrates
    by (intros m f Hin; exact (proj1 (Hall m f Hin))).
  clear Hall Hget.
  induction engagement as [| [muscle factor] engagement IH]; intros mr Hr; [exact Hr |].
  change (foldl (engage_muscle load on_date) mr ((muscle, factor) :: engagement))
    with (foldl (engage_muscle load on_date)
                (engage_muscle load on_date mr (muscle, factor)) engagement).
  apply IH.
  - intros m f Hin. apply (Hrates m f). now apply list_elem_of_further.
  - apply engage_muscle_rated; [| exact Hr].
    apply (Hrates muscle factor). apply list_elem_of_here.
Qed.

Lemma engage_muscles_only_muscles exercise on_date st st' :
  engage_muscles exercise on_date st = Ok st' -> only_muscles st st'.
Proof.
  unfold engage_muscles. intros Hrun.
  apply bind_Ok in Hrun as (load & _ & Hrun). injection Hrun as <-.
  apply engage_loaded_only_muscles.
Qed.

Lemma engage_exercises_only_muscles exercises on_date st st' :
  for_each (fun exercise st => engage_muscles exercise on_date st) exercises st = Ok st' ->
  only_muscles st st'.
Proof.
  apply for_each_preserves.
  - apply only_muscles_refl.
  - apply only_muscles_trans.
  - intros exercise s s' _. apply engage_muscles_only_muscles.
Qed.

(** The engage calls of a day return when the loads of its entries do. *)
Lemma engage_exercises_return exercises on_date st :
  loads_return exercises ->
  rated (muscle_recovery st) ->
  exists st',
    for_each (fun exercise st => engage_muscles exercise on_date st) exercises st = Ok st' /\
    rated (muscle_recovery st').
Proof.
  intros Hloads. revert st.
  induction Hloads as [| exercise exercises [load Hload] _ IH]; intros st Hr;
    cbn [for_each].
  - now exists st.
  - rewrite (engage_muscles_loaded _ _ _ _ Hload). cbn [mbind Res_bind].
    apply IH. now apply engage_loaded_rated.
Qed.

(** The first entry whose load raises stops the engage calls of a day. *)
Lemma engage_exercises_raise before exercise after on_date st e :
  loads_return before ->
  calculate_load exercise = Raise e ->
  for_each (fun exercise st => engage_muscles exercise on_date st)
           (before ++ exercise :: after) st = Raise e.
Proof.
  intros Hloads Hraise. revert st.
  induction Hloads as [| first before [load Hload] _ IH]; intros st;
    cbn [for_each app].
  - now rewrite (engage_muscles_raises _ _ _ _ Hraise).
  - rewrite (engage_muscles_loaded _ _ _ _ Hload). cbn [mbind Res_bind]. apply IH.
Qed.

Lemma engage_day_only_muscles day st st' :
  engage_day day st = Ok st' -> only_muscles st st'.
Proof.
  unfold engage_day. intros Hrun.
  apply bind_Ok in Hrun as (d & _ & Hrun).
  apply bind_Ok in Hrun as (before & _ & Hrun).
  destruct before.
  - now apply engage_exercises_only_muscles in Hrun.
  - injection Hrun as <-. apply only_muscles_refl.
Qed.

Lemma engine_ready_only_muscles st st' :
  only_muscles st st' -> rated (muscle_recovery st') ->
  engine_ready st -> engine_ready st'.
Proof.
  intros Hom Hr [[c Hc] _]. split; [| exact Hr].
  exists c. rewrite Hom. exact Hc.
Qed.

Lemma engage_day_returns day st :
  is_Some (strptime (default "2000-01-01"%string (day_date day))) ->
  loads_return (day_exercises day) ->
  engine_ready st ->
  exists st', engage_day day st = Ok st' /\ only_muscles st st' /\ engine_ready st'.
Proof.
  intros [d Hd] Hloads Hready. pose proof Hready as [[c Hc] Hr].
  unfold engage_day, parsed_date, date_le. rewrite Hd, Hc. simpl.
  destruct (d <=? c).
  - destruct (engage_exercises_return _ d st Hloads Hr) as (st' & Hrun & Hr').
    exists st'. split; [exact Hrun |].
    pose proof (engage_exercises_only_muscles _ _ _ _ Hrun) as Hom.
    split; [exact Hom |].
    eapply engine_ready_only_muscles; [exact Hom | exact Hr' | exact Hready].
  - exists st. split; [reflexivity |]. split; [apply only_muscles_refl | exact Hready].
Qed.

Lemma decay_items_return (current : Z) (mr : dict MuscleState) :
  rated mr ->
  (exists mr', for_items (current_fatigue_item (DateObj current)) mr = Ok mr' /\
               rated mr') /\
  (exists mr', for_items (muscle_recovery_item (DateObj current)) mr = Ok mr' /\
               rated mr').
Proof.
  intros Hr. split.
  - destruct (for_items_rated
                (fun item => is_Some (dict_get item.1 recovery_rates))
                (current_fatigue_item (DateObj current)) mr) as (mr' & Hrun & Hkeys);
      [| exact Hr |].
    + intros [muscle data] [rate Hrate]. cbn [fst snd] in *.
      unfold current_fatigue_item.
      destruct (last_workout data); simpl; [| eauto].
      unfold recovery_rate_of. rewrite Hrate. simpl. eauto.
    + exists mr'. split; [exact Hrun | now apply (rated_keys mr)].
  - destruct (for_items_rated
                (fun item => is_Some (dict_get item.1 recovery_rates))
                (muscle_recovery_item (DateObj current)) mr) as (mr' & Hrun & Hkeys);
      [| exact Hr |].
    + intros [muscle data] [rate Hrate]. cbn [fst snd] in *.
      unfold muscle_recovery_item.
      destruct (last_workout data); simpl; [| eauto].
      unfold recovery_rate_of. rewrite Hrate. simpl. eauto.
    + exists mr'. split; [exact Hrun | now apply (rated_keys mr)].
Qed.

Lemma calculate_current_fatigue_only_muscles st st' :
  calculate_current_fatigue st = Ok st' -> only_muscles st st'.
Proof.
  unfold calculate_current_fatigue. intros Hrun.
  apply bind_Ok in Hrun as (mr & _ & Hrun). now injection Hrun as <-.
Qed.

Lemma update_muscle_recovery_only_muscles st st' :
  update_muscle_recovery st = Ok st' -> only_muscles st st'.
Proof.
  unfold update_muscle_recovery. intros Hrun.
  apply bind_Ok in Hrun as (mr & _ & Hrun). now injection Hrun as <-.
Qed.

Lemma decays_return st :
  engine_ready st ->
  (exists st', calculate_current_fatigue st = Ok st' /\
               only_muscles st st' /\ engine_ready st') /\
  (exists st', update_muscle_recovery st = Ok st' /\
               only_muscles st st' /\ engine_ready st').
Proof.
  intros Hready. pose proof Hready as [[c Hc] Hr].
  destruct (decay_items_return c _ Hr) as [(mr1 & H1 & Hr1) (mr2 & H2 & Hr2)].
  unfold calculate_current_fatigue, update_muscle_recovery. rewrite Hc, H1, H2. simpl.
  split; eexists; (split; [reflexivity |]); (split; [reflexivity |]);
    (split; [exists c; exact Hc | assumption]).
Qed.

End RefreshFacts.

Lemma only_muscles_fields st st' :
  only_muscles st st' ->
  workouts st' = workouts st /\ total_weeks st' = total_weeks st /\
  current_week st' = current_week st /\ current_day st' = current_day st /\
  current_date st' = current_date st /\ prs st' = prs st.
Proof. unfold only_muscles. intros ->. repeat split. Qed.

Lemma py_index_in_range {A : Type} (l : list A) (i : Z) :
  0 <= i < len l -> exists x, py_index l i = Ok x /\ x ∈ l.
Proof.
  intros Hi. unfold py_index, py_pos, len in *.
  destruct (i <? 0) eqn:E; [apply Z.ltb_lt in E; lia |].
  assert ((0 <=? i) && (i <? Z.of_nat (length l)) = true) as ->
    by (apply andb_true_iff; split; [apply Z.leb_le | apply Z.ltb_lt]; lia).
  simpl. destruct (l !! Z.to_nat i) as [x |] eqn:El.
  - exists x. split; [reflexivity |]. now apply list_elem_of_lookup_2 in El.
  - apply lookup_ge_None in El. lia.
Qed.

Lemma py_index_Ok {A : Type} (l : list A) (i : Z) (x : A) :
  py_index l i = Ok x ->
  i < len l /\ exists pos, py_pos l i = Ok pos /\ l !! pos = Some x.
Proof.
  unfold py_index. intros Hrun. apply bind_Ok in Hrun as (pos & Hpos & Hget).
  destruct (l !! pos) eqn:El; [| discriminate]. injection Hget as ->.
  split; [| eauto]. unfold py_pos, len in *.
  destruct (i <? 0) eqn:E; [apply Z.ltb_lt in E; lia |].
  destruct ((0 <=? i) && (i <? Z.of_nat (length l))) eqn:E2; [| discriminate].
  apply andb_true_iff in E2 as [_ E2]. now apply Z.ltb_lt in E2.
Qed.

Section LoadFacts2.
Context `{Builtins}.

Lemma calculate_muscle_engagement_only_muscles st st' :
  calculate_muscle_engagement st = Ok st' -> only_muscles st st'.
Proof.
  unfold calculate_muscle_engagement, update_muscle_visualization. intros Hrun.
  apply bind_Ok in Hrun as (s & Hloop & Hdecay).
  apply (only_muscles_trans _ s);
    [| exact (calculate_current_fatigue_only_muscles _ _ Hdecay)].
  revert Hloop. apply for_each_preserves;
    [apply only_muscles_refl | apply only_muscles_trans |].
  intros week s1 s2 _ Hweek. apply bind_Ok in Hweek as (days & _ & Hdays).
  revert Hdays. apply for_each_preserves;
    [apply only_muscles_refl | apply only_muscles_trans |].
  intros day s3 s4 _. apply engage_day_only_muscles.
Qed.

Lemma plan_replays_iff weeks :
  plan_replays weeks <-> dates_parse weeks /\ loads_return (entries weeks).
Proof.
  unfold plan_replays, dates_parse, loads_return, entries, day_replays.
  induction (concat weeks) as [| day days IH]; simpl.
  - split; [intros _; split; constructor | constructor].
  - rewrite !Forall_cons, Forall_app, IH. tauto.
Qed.

Lemma engage_days_return base days st :
  Forall day_replays days ->
  only_muscles base st -> engine_ready st ->
  exists st', for_each engage_day days st = Ok st' /\
              only_muscles base st' /\ engine_ready st'.
Proof.
  intros Hparse Hom Hready.
  destruct (for_each_returns (fun s => only_muscles base s /\ engine_ready s)
              engage_day days) with (st := st) as (st' & Hrun & Hst'); [| easy | eauto].
  intros day s Hday [Hs Hr].
  destruct (proj1 (Forall_forall _ _) Hparse day Hday) as [Hdate Hloads].
  destruct (engage_day_returns day s Hdate Hloads Hr) as (s' & Hrun & Hs' & Hr').
  exists s'. split; [exact Hrun |]. split; [| exact Hr'].
  eapply only_muscles_trans; eassumption.
Qed.

Lemma plan_replays_week weeks week :
  plan_replays weeks -> week ∈ weeks -> Forall day_replays week.
Proof.
  unfold plan_replays. intros Hall Hin. apply Forall_forall. intros day Hday.
  apply (proj1 (Forall_forall _ _) Hall). apply list_elem_of_In, in_concat.
  exists week. split; now apply list_elem_of_In.
Qed.

Lemma calculate_muscle_engagement_returns st :
  total_weeks st = len (workouts st) ->
  plan_replays (workouts st) ->
  engine_ready st ->
  exists st', calculate_muscle_engagement st = Ok st' /\
              only_muscles st st' /\ engine_ready st'.
Proof.
  intros Htotal Hparse Hready.
  unfold calculate_muscle_engagement, update_muscle_visualization.
  destruct (for_each_returns (fun s => only_muscles st s /\ engine_ready s)
              (fun week s => days ← py_index (workouts s) (week - 1);
                             for_each engage_day days s)
              (seqZ 1 (total_weeks st))) with (st := st) as (s & -> & Hs & Hr).
  - intros week s Hweek [Hs Hr]. apply elem_of_seqZ in Hweek.
    destruct (only_muscles_fields _ _ Hs) as (Hw & _).
    destruct (py_index_in_range (workouts s) (week - 1)) as (days & -> & Hdays);
      [rewrite Hw; lia |].
    simpl. apply engage_days_return; try assumption.
    apply (plan_replays_week (workouts st)); [exact Hparse | now rewrite <- Hw].
  - split; [apply only_muscles_refl | exact Hready].
  - simpl. destruct (proj1 (decays_return s Hr)) as (st' & -> & Hs' & Hr').
    exists st'. split; [reflexivity |]. split; [| exact Hr'].
    eapply only_muscles_trans; eassumption.
Qed.

Lemma update_prs_keeps_known exercise st name :
  is_Some (prs st !! name) -> is_Some (prs (update_prs exercise st) !! name).
Proof.
  intros Hknown. unfold update_prs.
  destruct (py_float (ex_weight exercise)); [| exact Hknown].
  destruct (py_int (ex_reps exercise)); [| exact Hknown].
  simpl. destruct (decide (ex_name exercise = name)) as [-> | Hne].
  - rewrite lookup_insert_eq. eauto.
  - now rewrite lookup_insert_ne.
Qed.

Lemma load_exercise_row_known exercise st :
  returns (calculate_load exercise) ->
  is_Some (prs st !! ex_name exercise) \/
  (is_Some (py_float (ex_weight exercise)) /\ is_Some (py_int (ex_reps exercise))) ->
  load_exercise_row exercise st = Ok (update_prs exercise st).
Proof.
  intros [load Hload] Hknown. unfold load_exercise_row. rewrite Hload.
  cbn [mbind Res_bind].
  assert (is_Some (prs (update_prs exercise st) !! ex_name exercise)) as [pr Hpr].
  { destruct Hknown as [He | [[w Hw] [r Hr]]]; [now apply update_prs_keeps_known |].
    unfold update_prs. rewrite Hw, Hr. simpl. rewrite lookup_insert_eq. eauto. }
  cbv zeta. now rewrite Hpr.
Qed.

Lemma load_exercise_rows_return exercises st :
  loads_return exercises ->
  Forall (fun exercise =>
            is_Some (prs st !! ex_name exercise) \/
            (is_Some (py_float (ex_weight exercise)) /\
             is_Some (py_int (ex_reps exercise)))) exercises ->
  for_each load_exercise_row exercises st =
  Ok (foldl (fun st exercise => update_prs exercise st) st exercises).
Proof.
  revert st. induction exercises as [| e es IH]; intros st Hloads Hknown;
    [reflexivity |].
  apply Forall_cons in Hknown as [He Hes]. apply Forall_cons in Hloads as [Hl Hls].
  change (for_each load_exercise_row (e :: es) st)
    with (load_exercise_row e st ≫= for_each load_exercise_row es).
  rewrite load_exercise_row_known by assumption.
  simpl. apply IH; [exact Hls |]. eapply Forall_impl; [exact Hes |]. simpl.
  intros e' [Hk | Hp]; [left; now apply update_prs_keeps_known | now right].
Qed.

(** The sum of [update_volume_load] returns when every load does. *)
Lemma total_load_returns weeks :
  loads_return (entries weeks) -> returns (total_load weeks).
Proof.
  unfold total_load, entries, loads_return. intros Hloads. generalize (Finite 0).
  induction Hloads as [| exercise exercises [load Hload] _ IH]; intros total;
    cbn [for_each].
  - now exists total.
  - rewrite Hload. cbn [mbind Res_bind]. apply IH.
Qed.

Lemma update_volume_load_returns st :
  total_weeks st = len (workouts st) ->
  plan_replays (workouts st) ->
  engine_ready st ->
  exists st', update_volume_load st = Ok st' /\
              only_muscles st st' /\ engine_ready st'.
Proof.
  intros Htotal Hplan Hready. unfold update_volume_load.
  destruct (total_load_returns (workouts st)) as [total ->];
    [now apply plan_replays_iff in Hplan |].
  cbn [mbind Res_bind]. now apply calculate_muscle_engagement_returns.
Qed.

Lemma update_volume_load_only_muscles st st' :
  update_volume_load st = Ok st' -> only_muscles st st'.
Proof.
  unfold update_volume_load. intros Hrun.
  apply bind_Ok in Hrun as (total & _ & Hrun).
  now apply calculate_muscle_engagement_only_muscles.
Qed.

Lemma update_prs_exercises_frame exercises st :
  foldl (fun st exercise => update_prs exercise st) st exercises =
  set_prs (prs (foldl (fun st exercise => update_prs exercise st) st exercises)) st.
Proof. rewrite day_exercises_frame. reflexivity. Qed.

End LoadFacts2.

Lemma same_plan_refl st : same_plan st st.
Proof. repeat split. Qed.

Lemma same_plan_trans s1 s2 s3 : same_plan s1 s2 -> same_plan s2 s3 -> same_plan s1 s3.
Proof.
  unfold same_plan. intros (Hw & Hc & Hd) (Hw' & Hc' & Hd').
  repeat split; congruence.
Qed.

Lemma only_muscles_same_plan st st' : only_muscles st st' -> same_plan st st'.
Proof. unfold only_muscles. intros ->. repeat split. Qed.

Section LoadTheorems.
Context `{Builtins}.

Lemma update_prs_same_plan exercise st : same_plan st (update_prs exercise st).
Proof. rewrite update_prs_frame. repeat split. Qed.

Lemma load_exercise_row_same_plan exercise st st' :
  load_exercise_row exercise st = Ok st' -> same_plan st st'.
Proof.
  unfold load_exercise_row. cbv zeta. intros Hrun.
  apply bind_Ok in Hrun as (load & _ & Hrun).
  destruct (prs (update_prs exercise st) !! ex_name exercise); [| discriminate].
  injection Hrun as <-. apply update_prs_same_plan.
Qed.

Lemma load_workout_data_same_plan (st st' : Planner) (shown : list Dialog) :
  load_workout_data st = Ok (st', shown) -> same_plan st st'.
Proof.
  unfold load_workout_data.
  destruct (workouts st) as [| w ws] eqn:Hws; [intros [= <- _]; apply same_plan_refl |].
  rewrite <- Hws. clear Hws w ws. cbv zeta.
  set (st0 := set_total_weeks (len (workouts st)) st).
  assert (same_plan st st0) as H0 by (repeat split).
  intros Hrun. apply bind_Ok in Hrun as (in_range & _ & Hrun).
  destruct in_range; [| injection Hrun as <- _; exact H0].
  apply bind_Ok in Hrun as (week & _ & Hrun).
  apply bind_Ok in Hrun as (workout & _ & Hrun).
  apply bind_Ok in Hrun as (st1 & Hdate & Hrun).
  assert (same_plan st0 st1) as H1.
  { destruct (day_date workout) as [stored |];
      [destruct (truthy stored); [destruct (strptime stored); [| discriminate] |] |];
      injection Hdate as <-; repeat split. }
  apply bind_Ok in Hrun as (st2 & Hreplay & Hrun).
  assert (same_plan st1 st2) as H2.
  { apply (same_plan_trans _ (set_muscle_recovery initialize_muscle_recovery st1));
      [repeat split |].
    refine (for_each_preserves same_plan _ _ same_plan_refl same_plan_trans _ _ _ Hreplay).
    intros week' s s' _ Hweek'.
    refine (for_each_preserves same_plan _ _ same_plan_refl same_plan_trans _ _ _ Hweek').
    intros day s1 s2 _ Hday.
    now apply engage_day_only_muscles, only_muscles_same_plan in Hday. }
  apply bind_Ok in Hrun as (st3 & Hdecay & Hrun).
  apply calculate_current_fatigue_only_muscles, only_muscles_same_plan in Hdecay.
  apply bind_Ok in Hrun as (st4 & Hrows & Hrun).
  assert (same_plan st3 st4) as H4.
  { refine (for_each_preserves same_plan _ _ same_plan_refl same_plan_trans _ _ _ Hrows).
    intros e s s' _. apply load_exercise_row_same_plan. }
  apply bind_Ok in Hrun as (st5 & Hupdate & Hrun).
  apply update_muscle_recovery_only_muscles, only_muscles_same_plan in Hupdate.
  apply bind_Ok in Hrun as (st6 & Hvolume & Hrun).
  apply update_volume_load_only_muscles, only_muscles_same_plan in Hvolume.
  apply bind_Ok in Hrun as (st7 & Hvisual & Hrun).
  apply calculate_current_fatigue_only_muscles, only_muscles_same_plan in Hvisual.
  injection Hrun as <- _.
  repeat (eapply same_plan_trans; [eassumption |]). apply same_plan_refl.
Qed.

(** [load_workout_data] never edits the plan or moves the position: when it
    returns, the weeks, the week number and the day index are the ones it
    was given.  On an empty plan it only warns "No Data"; when the position
    is out of range it only warns "Invalid Week/Day", having set the week
    count. *)
Theorem load_workout_data_keeps_plan (st : Planner) :
  (forall st' shown, load_workout_data st = Ok (st', shown) -> same_plan st st') /\
  (workouts st = [] ->
   load_workout_data st =
   Ok (st, [ShowWarning "No Data" "No workout data available."])) /\
  (workouts st <> [] ->
   position_in_range st = Ok false ->
   load_workout_data st =
   Ok (set_total_weeks (len (workouts st)) st,
       [ShowWarning "Invalid Week/Day" "The selected week or day is out of range."])).
Proof.
  split; [| split].
  - intros st' shown. apply load_workout_data_same_plan.
  - intros Hws. unfold load_workout_data. now rewrite Hws.
  - intros Hws Hout. unfold load_workout_data.
    destruct (workouts st) as [| w ws] eqn:E; [contradiction |].
    rewrite <- E. cbv zeta. unfold position_in_range in Hout.
    change (workouts (set_total_weeks (len (workouts st)) st)) with (workouts st).
    change (current_week (set_total_weeks (len (workouts st)) st)) with (current_week st).
    change (current_day (set_total_weeks (len (workouts st)) st)) with (current_day st).
    rewrite Hout. reflexivity.
Qed.

(** [load_workout_data] returns, with no dialog, whenever the position is
    in range, every day of the plan replays and every exercise of the
    viewed day has a PR record or parses.  It then leaves the plan and the
    position as given, the week count at the number of weeks, the current
    date at the viewed day's date (today when it has none), the PRs as
    [update_prs] leaves them after the viewed day's exercises under that
    date, and a muscle state in which every muscle has a rate. *)
Lemma load_workout_data_runs (st : Planner) (week : list Day) (workout : Day) :
  current_week st <= len (workouts st) ->
  py_index (workouts st) (current_week st - 1) = Ok week ->
  py_index week (current_day st) = Ok workout ->
  plan_replays (workouts st) ->
  names_known (prs st) workout ->
  exists st',
    load_workout_data st = Ok (st', []) /\
    same_plan st st' /\
    total_weeks st' = len (workouts st) /\
    current_date st' = DateObj (viewing_date workout) /\
    prs st' =
      prs (foldl (fun st exercise => update_prs exercise st)
                 (set_current_date (DateObj (viewing_date workout)) st)
                 (day_exercises workout)) /\
    rated (muscle_recovery st').
Proof.
  intros Hcw Hweek Hworkout Hparse Hknown.
  destruct (py_index_Ok _ _ _ Hweek) as (_ & pos & _ & Hlookup).
  destruct (py_index_Ok _ _ _ Hworkout) as (Hcd & dpos & _ & Hdlookup).
  assert (workout ∈ concat (workouts st)) as Hin.
  { apply list_elem_of_In, in_concat. exists week.
    split; apply list_elem_of_In; eapply list_elem_of_lookup_2; eassumption. }
  destruct (proj1 (Forall_forall _ _) Hparse workout Hin) as [Hviewed Hloads].
  unfold load_workout_data.
  destruct (workouts st) as [| w ws] eqn:Hws; [now destruct pos |].
  rewrite <- Hws in *. clear Hws w ws. cbv zeta.
  set (st0 := set_total_weeks (len (workouts st)) st).
  change (workouts st0) with (workouts st).
  change (current_week st0) with (current_week st).
  change (current_day st0) with (current_day st).
  apply Z.leb_le in Hcw. rewrite Hcw, Hweek. cbn [mbind Res_bind].
  apply Z.ltb_lt in Hcd. rewrite Hcd, Hworkout. cbn [mbind Res_bind].
  set (st1 := set_current_date (DateObj (viewing_date workout)) st0).
  assert ((match day_date workout with
           | Some workout_date =>
               if truthy workout_date
               then match strptime workout_date with
                    | Some d => Ok (set_current_date (DateObj d) st0)
                    | None => Raise ValueError
                    end
               else Ok (set_current_date (DateObj today) st0)
           | None => Ok (set_current_date (DateObj today) st0)
           end) = Ok st1) as ->.
  { unfold st1, viewing_date. clear st1.
    destruct (day_date workout) as [stored |] eqn:Hstored; [| reflexivity].
    destruct (truthy stored); [| reflexivity].
    simpl in Hviewed. now destruct Hviewed as [d ->]. }
  cbn [mbind Res_bind].
  set (st2 := set_muscle_recovery initialize_muscle_recovery st1).
  assert (engine_ready st2) as Hready2.
  { split; [now exists (viewing_date workout) |].
    eapply Forall_impl; [apply initialize_muscle_recovery_ok |].
    now intros [muscle data] [Hrate _]. }
  destruct (for_each_returns (fun s => only_muscles st2 s /\ engine_ready s)
              (fun week s => for_each engage_day week s) (workouts st2))
    with (st := st2) as (st3 & -> & Hom3 & Hready3).
  { intros week' s Hweek' [Hs Hr]. apply engage_days_return; try assumption.
    now apply (plan_replays_week (workouts st)). }
  { split; [apply only_muscles_refl | exact Hready2]. }
  cbn [mbind Res_bind].
  destruct (proj1 (decays_return st3 Hready3)) as (st4 & -> & Hom4 & Hready4). cbn [mbind Res_bind].
  assert (prs st4 = prs st) as Hprs4.
  { destruct (only_muscles_fields _ _ Hom4) as (_ & _ & _ & _ & _ & ->).
    destruct (only_muscles_fields _ _ Hom3) as (_ & _ & _ & _ & _ & ->). reflexivity. }
  rewrite load_exercise_rows_return by (try exact Hloads; now rewrite Hprs4).
  cbn [mbind Res_bind].
  set (st5 := foldl (fun st exercise => update_prs exercise st) st4 (day_exercises workout)).
  assert (st5 = set_prs (prs st5) st4) as Hst5 by apply update_prs_exercises_frame.
  assert (engine_ready st5) as Hready5.
  { rewrite Hst5. destruct Hready4 as [[c Hc] Hr]. split; [now exists c | exact Hr]. }
  destruct (proj2 (decays_return st5 Hready5)) as (st6 & -> & Hom6 & Hready6). cbn [mbind Res_bind].
  assert (workouts st6 = workouts st /\ total_weeks st6 = len (workouts st) /\
          current_week st6 = current_week st /\ current_day st6 = current_day st /\
          current_date st6 = DateObj (viewing_date workout) /\ prs st6 = prs st5)
    as (Hw6 & Ht6 & Hc6 & Hd6 & Hdate6 & Hprs6).
  { destruct (only_muscles_fields _ _ Hom6) as (-> & -> & -> & -> & -> & ->).
    rewrite Hst5. simpl.
    destruct (only_muscles_fields _ _ Hom4) as (-> & -> & -> & -> & -> & _).
    destruct (only_muscles_fields _ _ Hom3) as (-> & -> & -> & -> & -> & _).
    repeat split. }
  destruct (update_volume_load_returns st6) as (st7 & -> & Hom7 & Hready7);
    [congruence | now rewrite Hw6 | exact Hready6 |].
  cbn [mbind Res_bind]. unfold update_muscle_visualization.
  destruct (proj1 (decays_return st7 Hready7)) as (st8 & -> & Hom8 & Hready8). cbn [mbind Res_bind].
  exists st8. split; [reflexivity |].
  destruct (only_muscles_fields _ _ Hom8) as (Hw8 & Ht8 & Hc8 & Hd8 & Hdate8 & Hprs8).
  destruct (only_muscles_fields _ _ Hom7) as (Hw7 & Ht7 & Hc7 & Hd7 & Hdate7 & Hprs7).
  split; [repeat split; congruence |].
  split; [congruence |]. split; [congruence |].
  split; [| exact (proj2 Hready8)].
  rewrite Hprs8, Hprs7, Hprs6. unfold st5.
  rewrite !day_exercises_frame. simpl.
  destruct (only_muscles_fields _ _ Hom4) as (_ & _ & _ & _ & -> & _).
  destruct (only_muscles_fields _ _ Hom3) as (_ & _ & _ & _ & -> & _).
  rewrite Hprs4. reflexivity.
Qed.

End LoadTheorems.

(** ** Positions in Python lists *)

Lemma py_pos_Ok {A : Type} (l : list A) (i : Z) (pos : nat) :
  py_pos l i = Ok pos ->
  (pos < length l)%nat /\ (i = Z.of_nat pos \/ i = Z.of_nat pos - len l).
Proof.
  unfold py_pos, len. destruct (i <? 0) eqn:E;
    destruct (_ && _) eqn:E2; try discriminate; intros [= <-];
    apply andb_true_iff in E2 as [E3 E4];
    apply Z.leb_le in E3; apply Z.ltb_lt in E4.
  - apply Z.ltb_lt in E. split; lia.
  - split; lia.
Qed.

Lemma py_pos_same_length {A : Type} (l l' : list A) (i : Z) :
  length l' = length l -> py_pos l' i = py_pos l i.
Proof. unfold py_pos. now intros ->. Qed.

Lemma py_index_lookup {A : Type} (l : list A) (i : Z) (pos : nat) (x : A) :
  py_pos l i = Ok pos -> l !! pos = Some x -> py_index l i = Ok x.
Proof. unfold py_index. intros -> Hx. simpl. now rewrite Hx. Qed.

Lemma py_pos_nat {A : Type} (l : list A) (n : nat) :
  (n < length l)%nat -> py_pos l (Z.of_nat n) = Ok n.
Proof.
  intros Hn. unfold py_pos.
  destruct (Z.of_nat n <? 0) eqn:E; [apply Z.ltb_lt in E; lia |].
  assert ((0 <=? Z.of_nat n) && (Z.of_nat n <? Z.of_nat (length l)) = true) as ->
    by (apply andb_true_iff; split; [apply Z.leb_le | apply Z.ltb_lt]; lia).
  now rewrite Nat2Z.id.
Qed.

Lemma py_index_nat {A : Type} (l : list A) (n : nat) (x : A) :
  l !! n = Some x -> py_index l (Z.of_nat n) = Ok x.
Proof.
  intros Hx. apply (py_index_lookup _ _ n); [| exact Hx].
  apply py_pos_nat. now apply lookup_lt_Some in Hx.
Qed.

Lemma py_index_last {A : Type} (l : list A) (x : A) : py_index (l ++ [x]) (-1) = Ok x.
Proof.
  apply (py_index_lookup _ _ (length l)).
  - unfold py_pos. rewrite length_app. simpl.
    assert ((0 <=? -1 + Z.of_nat (length l + 1)) &&
            (-1 + Z.of_nat (length l + 1) <? Z.of_nat (length l + 1)) = true) as ->
      by (apply andb_true_iff; split; [apply Z.leb_le | apply Z.ltb_lt]; lia).
    f_equal. lia.
  - rewrite lookup_app_r by lia. now rewrite Nat.sub_diag.
Qed.

Lemma py_slice_to_pos {A : Type} (l : list A) (i : Z) (pos : nat) :
  py_pos l i = Ok pos -> py_slice_to l i = take pos l.
Proof.
  intros Hpos. destruct (py_pos_Ok _ _ _ Hpos) as [Hlt [-> | ->]]; unfold py_slice_to, len.
  - destruct (Z.of_nat pos <? 0) eqn:E; [apply Z.ltb_lt in E; lia |].
    now rewrite Nat2Z.id.
  - destruct (Z.of_nat pos - Z.of_nat (length l) <? 0) eqn:E;
      [| apply Z.ltb_ge in E; lia].
    f_equal. lia.
Qed.

Lemma sum_len {A : Type} (ls : list (list A)) :
  foldr (fun l n => len l + n) 0 ls = len (concat ls).
Proof.
  unfold len. induction ls as [| l ls IH]; simpl; [reflexivity |].
  rewrite IH, length_app. lia.
Qed.

Lemma concat_insert {A : Type} (ls : list (list A)) (pos : nat) (l l' : list A) :
  ls !! pos = Some l ->
  concat ls = concat (take pos ls) ++ l ++ concat (drop (S pos) ls) /\
  concat (<[pos := l']> ls) = concat (take pos ls) ++ l' ++ concat (drop (S pos) ls).
Proof.
  intros Hl. pose proof (lookup_lt_Some _ _ _ Hl) as Hlt. split.
  - rewrite <- (take_drop_middle ls pos l Hl) at 1.
    now rewrite concat_app, concat_cons.
  - rewrite insert_take_drop by exact Hlt.
    now rewrite concat_app, concat_cons.
Qed.

(** ** Renumbering, position by position *)

Lemma renumber_week_imap day_number week :
  (renumber_week day_number week).1 =
  imap (fun j day => set_day_label (day_name (day_number + Z.of_nat j)) day) week.
Proof.
  revert day_number. induction week as [| day week IH]; intros day_number; [reflexivity |].
  simpl renumber_week. specialize (IH (day_number + 1)).
  destruct (renumber_week (day_number + 1) week) as [week' next].
  cbn [fst] in *. rewrite imap_cons, IH. f_equal.
  - unfold day_name. now rewrite Z.add_0_r.
  - apply imap_ext. intros j d _. simpl. do 2 f_equal. lia.
Qed.

Lemma renumber_weeks_lookup day_number weeks pos week :
  weeks !! pos = Some week ->
  renumber_weeks day_number weeks !! pos =
  Some (renumber_week (day_number + len (concat (take pos weeks))) week).1.
Proof.
  revert day_number pos. induction weeks as [| w weeks IH]; intros day_number pos Hweek;
    [discriminate |].
  simpl renumber_weeks.
  destruct (renumber_week_spec day_number w) as (Hnext & _).
  destruct (renumber_week day_number w) as [w' next] eqn:Ew. cbn [fst snd] in *. subst next.
  destruct pos as [| pos].
  - injection Hweek as <-. simpl. rewrite Z.add_0_r. now rewrite Ew.
  - simpl in Hweek |- *. rewrite (IH _ _ Hweek). do 3 f_equal.
    unfold len. rewrite length_app. lia.
Qed.

Lemma renumber_weeks_length day_number weeks :
  length (renumber_weeks day_number weeks) = length weeks.
Proof.
  destruct (renumber_weeks_spec day_number weeks) as (Hlen & _).
  apply (f_equal length) in Hlen. now rewrite !length_fmap in Hlen.
Qed.

Section DayEdits.
Context `{Builtins}.

Lemma plan_replays_ext weeks weeks' :
  day_date <$> concat weeks' = day_date <$> concat weeks ->
  day_exercises <$> concat weeks' = day_exercises <$> concat weeks ->
  plan_replays weeks -> plan_replays weeks'.
Proof.
  intros Hdates Hexercises Hall.
  apply plan_replays_iff in Hall as [Hparse Hloads]. apply plan_replays_iff. split.
  - unfold dates_parse in *.
    apply (Forall_fmap day_date
             (fun stored => is_Some (strptime (default "2000-01-01"%string stored)))).
    rewrite Hdates. now apply Forall_fmap.
  - unfold entries. now rewrite Hexercises.
Qed.

Lemma plan_replays_renumber day_number weeks :
  plan_replays weeks -> plan_replays (renumber_weeks day_number weeks).
Proof.
  destruct (renumber_weeks_spec day_number weeks) as (_ & _ & Hdates & Hexercises).
  now apply plan_replays_ext.
Qed.

(** [add_day] on a week with room, in a plan every day of which replays.
    With [n] the number of days up to and including the current week, plus
    one: it appends to the current week a day with no exercise, dated
    [n - 1] days after today, renumbers all days (which leaves the new day
    "Day n"), views the new day, keeps the PRs, and reports
    "Added Day n". *)
Lemma add_day_runs (st : Planner) (pos : nat) (week : list Day) :
  py_pos (workouts st) (current_week st - 1) = Ok pos ->
  workouts st !! pos = Some week ->
  len week < 7 ->
  current_week st <= len (workouts st) ->
  plan_replays (workouts st) ->
  is_Some (strptime
             (strftime (today + (len (concat (take pos (workouts st))) + len week)))) ->
  exists st',
    add_day st =
    Ok (st', [ShowInfo "Day Added"
                ("Added " +:+ day_name (len (concat (take pos (workouts st))) + len week + 1) +:+
                 " to the current week and renumbered subsequent days.")]) /\
    workouts st' =
      renumber_weeks 1
        (<[pos := week ++
                  [{| day_label := day_name (len (concat (take pos (workouts st))) + len week + 1);
                      day_date := Some (strftime (today + (len (concat (take pos (workouts st)))
                                                          + len week)));
                      day_exercises := [] |}]]> (workouts st)) /\
    current_week st' = current_week st /\
    current_day st' = len week /\
    prs st' = prs st /\
    total_weeks st' = len (workouts st).
Proof.
  intros Hpos Hweek Hroom Hcw Hparse Hnew.
  pose proof (lookup_lt_Some _ _ _ Hweek) as Hlt.
  unfold add_day. rewrite Hpos, (py_index_lookup _ _ _ _ Hpos Hweek).
  cbn [mbind Res_bind].
  assert ((7 <=? len week) = false) as -> by (apply Z.leb_gt; lia).
  rewrite (py_slice_to_pos _ _ _ Hpos), sum_len.
  set (before := len (concat (take pos (workouts st)))) in *.
  replace (before + len week + 1 - 1) with (before + len week) by lia.
  fold (day_name (before + len week + 1)).
  set (new_day := {| day_label := day_name (before + len week + 1);
                     day_date := Some (strftime (today + (before + len week)));
                     day_exercises := [] |}).
  set (edited := <[pos := week ++ [new_day]]> (workouts st)).
  assert (edited !! pos = Some (week ++ [new_day])) as Hedited
    by (apply list_lookup_insert_eq; exact Hlt).
  assert (len (concat (take pos edited)) = before) as Hbefore
    by (unfold edited, before; now rewrite take_insert_ge by lia).
  set (viewed := set_day_label (day_name (before + len week + 1)) new_day).
  set (week' := (renumber_week (1 + before) (week ++ [new_day])).1).
  assert (renumber_weeks 1 edited !! pos = Some week') as Hweek'
    by (rewrite (renumber_weeks_lookup _ _ _ _ Hedited), Hbefore; reflexivity).
  assert (week' !! length week = Some viewed) as Hviewed.
  { unfold week'. rewrite renumber_week_imap, list_lookup_imap.
    rewrite lookup_app_r by lia. rewrite Nat.sub_diag. simpl.
    unfold viewed, len. do 3 f_equal. lia. }
  assert (length week' = S (length week)) as Hlen'.
  { unfold week'. rewrite renumber_week_imap, length_imap, length_app. simpl. lia. }
  set (st1 := renumber_all_days
                (set_current_day (len (week ++ [new_day]) - 1)
                   (set_workouts edited st))).
  assert (workouts st1 = renumber_weeks 1 edited) as Hw1 by reflexivity.
  assert (current_day st1 = len week) as Hd1.
  { unfold st1, len. simpl. rewrite length_app. simpl. lia. }
  assert (py_pos (workouts st1) (current_week st - 1) = Ok pos) as Hpos1.
  { rewrite Hw1, <- Hpos. apply py_pos_same_length.
    unfold edited. now rewrite renumber_weeks_length, length_insert. }
  destruct (load_workout_data_runs st1 week' viewed)
    as (st' & -> & (Hw' & Hc' & Hd') & Htotal' & _ & Hprs' & _).
  - change (current_week st1) with (current_week st). unfold len in *.
    rewrite Hw1, renumber_weeks_length. unfold edited. now rewrite length_insert.
  - apply (py_index_lookup _ _ pos); [exact Hpos1 | now rewrite Hw1].
  - rewrite Hd1. now apply py_index_nat.
  - rewrite Hw1. apply plan_replays_renumber. unfold plan_replays, edited.
    destruct (concat_insert (workouts st) pos week (week ++ [new_day]) Hweek) as [Hold ->].
    unfold plan_replays in Hparse. rewrite Hold in Hparse.
    apply Forall_app in Hparse as [Htake Hrest].
    apply Forall_app in Hrest as [Hmid Hdrop].
    repeat (apply Forall_app; split); try assumption.
    constructor; [split; [exact Hnew | constructor] | constructor].
  - constructor.
  - cbn [mbind Res_bind]. rewrite Hw', Hw1.
    rewrite (py_index_nat _ _ _ Hweek'). cbn [mbind Res_bind].
    assert (week' = take (length week) week' ++ [viewed]) as ->.
    { rewrite <- (take_drop (length week) week') at 1. f_equal.
      apply list_eq. intros [| j].
      - rewrite lookup_drop, Nat.add_0_r. exact Hviewed.
      - rewrite lookup_drop. simpl. apply lookup_ge_None. lia. }
    rewrite py_index_last. cbn [mbind Res_bind].
    exists st'. split; [reflexivity |].
    split; [now rewrite Hw', Hw1 |]. split; [exact Hc' |].
    split; [now rewrite Hd' |].
    split; [rewrite Hprs'; reflexivity |].
    rewrite Htotal', Hw1. unfold len, edited.
    now rewrite renumber_weeks_length, length_insert.
Qed.

End DayEdits.

(** ** [l.index(x)] *)

Lemma index_of_Ok (x : string) (l : list string) (i : nat) :
  index_of x l = Ok i ->
  l !! i = Some x /\ forall j, (j < i)%nat -> l !! j <> Some x.
Proof.
  revert i. induction l as [| y l IH]; intros i; [discriminate |].
  simpl. destruct (String.eqb y x) eqn:E.
  - intros [= <-]. apply String.eqb_eq in E as ->. split; [reflexivity | lia].
  - destruct (index_of x l) as [k | e]; [| discriminate].
    intros [= <-]. destruct (IH k eq_refl) as [Hk Hfirst]. split; [exact Hk |].
    intros [| j] Hj; simpl.
    + intros [= ->]. now rewrite String.eqb_refl in E.
    + apply Hfirst. lia.
Qed.

Lemma index_of_first (x : string) (l : list string) (i : nat) :
  l !! i = Some x -> (forall j, (j < i)%nat -> l !! j <> Some x) ->
  index_of x l = Ok i.
Proof.
  revert i. induction l as [| y l IH]; intros i Hi Hfirst; [discriminate |].
  simpl. destruct i as [| i].
  - injection Hi as ->. now rewrite String.eqb_refl.
  - destruct (String.eqb y x) eqn:E.
    + apply String.eqb_eq in E as ->. now destruct (Hfirst 0%nat ltac:(lia)).
    + rewrite (IH i Hi); [reflexivity |].
      intros j Hj. apply (Hfirst (S j)). lia.
Qed.

Lemma index_of_NoDup (x : string) (l : list string) (i : nat) :
  NoDup l -> l !! i = Some x -> index_of x l = Ok i.
Proof.
  intros Hnd Hi. apply index_of_first; [exact Hi |].
  intros j Hj Hx. pose proof (NoDup_lookup _ _ _ _ Hnd Hi Hx). lia.
Qed.

Lemma map_fmap {A B : Type} (f : A -> B) (l : list A) : map f l = f <$> l.
Proof. induction l as [| a l IH]; [reflexivity |]. simpl. now rewrite IH. Qed.

Section DayRemoval.
Context `{Builtins}.

Lemma prs_known_after_rows exercises st name :
  is_Some (prs st !! name) ->
  is_Some (prs (foldl (fun st exercise => update_prs exercise st) st exercises) !! name).
Proof.
  revert st. induction exercises as [| exercise exercises IH]; intros st Hname; [exact Hname |].
  simpl. apply IH. now apply update_prs_keeps_known.
Qed.

Lemma names_known_grows (p p' : gmap string PRData) (day : Day) :
  (forall name, is_Some (p !! name) -> is_Some (p' !! name)) ->
  names_known p day -> names_known p' day.
Proof.
  intros Hgrows Hknown. unfold names_known in *.
  eapply Forall_impl; [exact Hknown |].
  intros exercise [Hrecord | Hparses]; [left; now apply Hgrows | now right].
Qed.

Lemma plan_replays_sub weeks pos week week' :
  weeks !! pos = Some week -> week' ⊆ week ->
  plan_replays weeks -> plan_replays (<[pos := week']> weeks).
Proof.
  intros Hweek Hsub. unfold plan_replays.
  destruct (concat_insert weeks pos week week' Hweek) as [-> ->].
  rewrite !Forall_app. intros (Htake & Hmid & Hdrop).
  repeat split; try assumption.
  apply Forall_forall. intros d Hd.
  exact (proj1 (Forall_forall _ _) Hmid d (Hsub d Hd)).
Qed.

(** [remove_day] once a label of the current week is picked in the dialog,
    in a week of more than one day of a plan every day of which replays: it
    drops the first day of the week that carries the label, renumbers all
    days, keeps the viewed index unless it now lies past the week's end
    (then the last day is viewed), keeps the week, and reports the label
    picked. *)
Lemma remove_day_runs (st : Planner) (pos index : nat) (week : list Day)
    (selected : string) :
  py_pos (workouts st) (current_week st - 1) = Ok pos ->
  workouts st !! pos = Some week ->
  1 < len week ->
  current_week st <= len (workouts st) ->
  0 <= current_day st ->
  index_of selected (map day_label week) = Ok index ->
  plan_replays (workouts st) ->
  Forall (names_known (prs st)) week ->
  exists st' removed,
    remove_day (Some selected) st =
    Ok (st', [ShowInfo "Day Removed"
                ("Removed " +:+ selected +:+
                 " from the current week and renumbered subsequent days.")]) /\
    week !! index = Some removed /\
    day_label removed = selected /\
    (forall j day, (j < index)%nat -> week !! j = Some day -> day_label day <> selected) /\
    workouts st' = renumber_weeks 1 (<[pos := delete index week]> (workouts st)) /\
    current_week st' = current_week st /\
    current_day st' = Z.min (current_day st) (len week - 2) /\
    (forall name, is_Some (prs st !! name) -> is_Some (prs st' !! name)).
Proof.
  intros Hpos Hweek Hmany Hcw Hcd Hindex Hparse Hknown.
  pose proof (lookup_lt_Some _ _ _ Hweek) as Hlt.
  rewrite map_fmap in Hindex.
  destruct (index_of_Ok _ _ _ Hindex) as [Hlabel Hfirst].
  rewrite list_lookup_fmap in Hlabel.
  destruct (week !! index) as [removed |] eqn:Hremoved; [| discriminate].
  injection Hlabel as Hlabel.
  pose proof (lookup_lt_Some _ _ _ Hremoved) as Hilt.
  unfold remove_day. rewrite Hpos, (py_index_lookup _ _ _ _ Hpos Hweek).
  cbn [mbind Res_bind].
  assert ((len week <=? 1) = false) as -> by (apply Z.leb_gt; lia).
  rewrite map_fmap, Hindex. cbn [mbind Res_bind].
  rewrite (py_index_nat _ _ _ Hremoved). cbn [mbind Res_bind].
  set (rest := delete index week).
  assert (len rest = len week - 1) as Hrest.
  { unfold rest, len in *. rewrite length_delete by (now rewrite Hremoved). lia. }
  set (edited := <[pos := rest]> (workouts st)).
  assert (edited !! pos = Some rest) as Hedited
    by (apply list_lookup_insert_eq; exact Hlt).
  set (week' := (renumber_week (1 + len (concat (take pos edited))) rest).1).
  assert (renumber_weeks 1 edited !! pos = Some week') as Hweek'
    by (now rewrite (renumber_weeks_lookup _ _ _ _ Hedited)).
  assert (length week' = length rest) as Hlen'
    by (unfold week'; now rewrite renumber_week_imap, length_imap).
  set (st0 := renumber_all_days (set_workouts edited st)).
  set (st1 := if len rest <=? current_day st0
              then set_current_day (len rest - 1) st0 else st0).
  assert (workouts st1 = renumber_weeks 1 edited) as Hw1
    by (unfold st1; now destruct (len rest <=? current_day st0)).
  assert (current_week st1 = current_week st) as Hc1
    by (unfold st1; now destruct (len rest <=? current_day st0)).
  assert (prs st1 = prs st) as Hp1
    by (unfold st1; now destruct (len rest <=? current_day st0)).
  assert (current_day st1 = Z.min (current_day st) (len week - 2)) as Hd1.
  { unfold st1. change (current_day st0) with (current_day st).
    destruct (len rest <=? current_day st) eqn:E.
    - apply Z.leb_le in E. simpl. lia.
    - apply Z.leb_gt in E. change (current_day st0) with (current_day st). lia. }
  assert (exists k, current_day st1 = Z.of_nat k /\ (k < length rest)%nat) as (k & Hk & Hklt).
  { exists (Z.to_nat (current_day st1)). unfold len in *. split; lia. }
  destruct (lookup_lt_is_Some_2 rest k Hklt) as [day Hday].
  set (viewed := set_day_label
                   (day_name (1 + len (concat (take pos edited)) + Z.of_nat k)) day).
  assert (week' !! k = Some viewed) as Hviewed
    by (unfold week'; now rewrite renumber_week_imap, list_lookup_imap, Hday).
  assert (rest ⊆ week) as Hsub by apply list_subseteq_delete.
  destruct (load_workout_data_runs st1 week' viewed)
    as (st' & Hload & (Hw' & Hc' & Hd') & _ & _ & Hprs' & _).
  - rewrite Hc1, Hw1. unfold len in *.
    rewrite renumber_weeks_length. unfold edited. now rewrite length_insert.
  - rewrite Hc1, Hw1. apply (py_index_lookup _ _ pos); [| exact Hweek'].
    rewrite <- Hpos. apply py_pos_same_length.
    unfold edited. now rewrite renumber_weeks_length, length_insert.
  - rewrite Hk. now apply py_index_nat.
  - rewrite Hw1. apply plan_replays_renumber.
    now apply (plan_replays_sub _ _ week).
  - rewrite Hp1.
    apply (proj1 (Forall_forall _ _) Hknown day), Hsub.
    eapply list_elem_of_lookup_2. exact Hday.
  - fold rest edited st0 st1. rewrite Hload. cbn [mbind Res_bind].
    exists st', removed.
    split; [now rewrite Hlabel |]. split; [reflexivity |]. split; [exact Hlabel |].
    split.
    { intros j d Hj Hd Heq. apply (Hfirst j Hj).
      now rewrite list_lookup_fmap, Hd, <- Heq. }
    split; [now rewrite Hw', Hw1 |].
    split; [now rewrite Hc', Hc1 |]. split; [now rewrite Hd', Hd1 |].
    intros name Hname. rewrite Hprs'. apply prs_known_after_rows.
    simpl. now rewrite Hp1.
Qed.

End DayRemoval.

Section DaySwap.
Context `{Builtins}.

(** [swap_days] cannot be opened on a week of fewer than two days: filling
    the two drop-downs reads [day_options[0]] and [day_options[1]], so it
    raises IndexError before anything is picked or changed, where
    [remove_day] on a week of one day warns. *)
Theorem swap_days_short_week_raises (st : Planner) (week : list Day)
    (choice : option (string * string)) :
  py_index (workouts st) (current_week st - 1) = Ok week ->
  len week < 2 ->
  swap_days choice st = Raise IndexError.
Proof.
  intros Hweek Hshort.
  unfold swap_days. rewrite Hweek. cbn [mbind Res_bind].
  destruct week as [| day [| day' week]]; [reflexivity | reflexivity |].
  unfold len in Hshort. simpl in Hshort. lia.
Qed.

Lemma swap_lookup {A : Type} (l : list A) (i1 i2 j : nat) (first second : A) :
  l !! i1 = Some first -> l !! i2 = Some second ->
  <[i2 := first]> (<[i1 := second]> l) !! j =
  if decide (j = i2) then Some first
  else if decide (j = i1) then Some second else l !! j.
Proof.
  intros H1 H2.
  pose proof (lookup_lt_Some _ _ _ H1). pose proof (lookup_lt_Some _ _ _ H2).
  destruct (decide (j = i2)) as [-> | Hne2].
  - apply list_lookup_insert_eq. now rewrite length_insert.
  - rewrite list_lookup_insert_ne by congruence.
    destruct (decide (j = i1)) as [-> | Hne1].
    + now apply list_lookup_insert_eq.
    + now rewrite list_lookup_insert_ne by congruence.
Qed.

Lemma swap_subseteq {A : Type} (l : list A) (i1 i2 : nat) (first second : A) :
  l !! i1 = Some first -> l !! i2 = Some second ->
  <[i2 := first]> (<[i1 := second]> l) ⊆ l.
Proof.
  intros H1 H2 x Hx. apply list_elem_of_lookup_1 in Hx as [j Hj].
  rewrite (swap_lookup l i1 i2 j first second H1 H2) in Hj.
  destruct (decide (j = i2)); [injection Hj as <-; eapply list_elem_of_lookup_2; eassumption |].
  destruct (decide (j = i1)); [injection Hj as <-; eapply list_elem_of_lookup_2; eassumption |].
  eapply list_elem_of_lookup_2; eassumption.
Qed.

(** [swap_days] once two labels of the current week at different positions
    are picked, in a plan every day of which replays: the two days change
    places (each is the first day carrying its label), all days are
    renumbered, so the labels stay in order while the dates and exercises
    move, and the viewed week and index stay. *)
Lemma swap_days_runs (st : Planner) (pos i1 i2 : nat) (week : list Day)
    (day1 day2 : string) :
  py_pos (workouts st) (current_week st - 1) = Ok pos ->
  workouts st !! pos = Some week ->
  current_week st <= len (workouts st) ->
  0 <= current_day st < len week ->
  index_of day1 (day_label <$> week) = Ok i1 ->
  index_of day2 (day_label <$> week) = Ok i2 ->
  i1 <> i2 ->
  plan_replays (workouts st) ->
  Forall (names_known (prs st)) week ->
  exists st' first second,
    swap_days (Some (day1, day2)) st =
    Ok (st', [ShowInfo "Swap Successful"
                "The selected days have been swapped and day numbers updated."]) /\
    week !! i1 = Some first /\ day_label first = day1 /\
    week !! i2 = Some second /\ day_label second = day2 /\
    workouts st' =
      renumber_weeks 1
        (<[pos := <[i2 := first]> (<[i1 := second]> week)]> (workouts st)) /\
    current_week st' = current_week st /\
    current_day st' = current_day st /\
    (forall name, is_Some (prs st !! name) -> is_Some (prs st' !! name)).
Proof.
  intros Hpos Hweek Hcw Hcd Hi1 Hi2 Hne Hparse Hknown.
  pose proof (lookup_lt_Some _ _ _ Hweek) as Hlt.
  destruct (index_of_Ok _ _ _ Hi1) as [Hl1 _].
  destruct (index_of_Ok _ _ _ Hi2) as [Hl2 _].
  rewrite list_lookup_fmap in Hl1, Hl2.
  destruct (week !! i1) as [first |] eqn:Hfirst; [| discriminate].
  destruct (week !! i2) as [second |] eqn:Hsecond; [| discriminate].
  injection Hl1 as Hl1. injection Hl2 as Hl2.
  pose proof (lookup_lt_Some _ _ _ Hfirst) as Hlt1.
  pose proof (lookup_lt_Some _ _ _ Hsecond) as Hlt2.
  unfold swap_days. rewrite Hpos, (py_index_lookup _ _ _ _ Hpos Hweek).
  cbn [mbind Res_bind].
  assert (exists x, py_index (day_label <$> week) 0 = Ok x) as [x0 ->].
  { destruct week as [| d0 week]; [simpl in Hlt1; lia |].
    eexists. now apply (py_index_nat _ 0). }
  assert (exists x, py_index (day_label <$> week) 1 = Ok x) as [x1 ->].
  { destruct week as [| d0 [| d1 week]]; [simpl in Hlt1; lia | simpl in Hlt1, Hlt2; lia |].
    eexists. now apply (py_index_nat _ 1). }
  cbn [mbind Res_bind]. rewrite Hi1, Hi2. cbn [mbind Res_bind].
  destruct (decide (i1 <> i2)) as [_ | Heq]; [| contradiction].
  rewrite (py_index_nat _ _ _ Hfirst), (py_index_nat _ _ _ Hsecond).
  cbn [mbind Res_bind].
  set (swapped := <[i2 := first]> (<[i1 := second]> week)).
  assert (length swapped = length week) as Hlen
    by (unfold swapped; now rewrite !length_insert).
  set (edited := <[pos := swapped]> (workouts st)).
  assert (edited !! pos = Some swapped) as Hedited
    by (apply list_lookup_insert_eq; exact Hlt).
  set (week' := (renumber_week (1 + len (concat (take pos edited))) swapped).1).
  assert (renumber_weeks 1 edited !! pos = Some week') as Hweek'
    by (now rewrite (renumber_weeks_lookup _ _ _ _ Hedited)).
  set (st1 := renumber_all_days (set_workouts edited st)).
  destruct Hcd as [Hcd0 Hcd1].
  assert (exists k, current_day st = Z.of_nat k /\ (k < length swapped)%nat)
    as (k & Hk & Hklt).
  { exists (Z.to_nat (current_day st)). unfold len in *. split; lia. }
  destruct (lookup_lt_is_Some_2 swapped k Hklt) as [day Hday].
  set (viewed := set_day_label
                   (day_name (1 + len (concat (take pos edited)) + Z.of_nat k)) day).
  assert (week' !! k = Some viewed) as Hviewed
    by (unfold week'; now rewrite renumber_week_imap, list_lookup_imap, Hday).
  assert (swapped ⊆ week) as Hsub by (now apply swap_subseteq).
  destruct (load_workout_data_runs st1 week' viewed)
    as (st' & Hload & (Hw' & Hc' & Hd') & _ & _ & Hprs' & _).
  - change (current_week st1) with (current_week st).
    change (workouts st1) with (renumber_weeks 1 edited). unfold len in *.
    rewrite renumber_weeks_length. unfold edited. now rewrite length_insert.
  - apply (py_index_lookup _ _ pos); [| exact Hweek'].
    change (current_week st1) with (current_week st).
    change (workouts st1) with (renumber_weeks 1 edited).
    rewrite <- Hpos. apply py_pos_same_length.
    unfold edited. now rewrite renumber_weeks_length, length_insert.
  - change (current_day st1) with (current_day st). rewrite Hk. now apply py_index_nat.
  - apply plan_replays_renumber. now apply (plan_replays_sub _ _ week).
  - change (prs st1) with (prs st).
    apply (proj1 (Forall_forall _ _) Hknown day), Hsub.
    eapply list_elem_of_lookup_2. exact Hday.
  - rewrite Hload. cbn [mbind Res_bind].
    exists st', first, second. repeat split; try assumption.
    intros name Hname. rewrite Hprs'. now apply prs_known_after_rows.
Qed.

End DaySwap.

Section ViewFacts.
Context `{Builtins}.

Lemma replay_on_one_date exercises on_date st :
  prs (replay ((fun exercise => (exercise, on_date)) <$> exercises) st) =
  prs (foldl (fun st exercise => update_prs exercise st)
             (set_current_date on_date st) exercises).
Proof.
  assert (forall st, current_date st = on_date ->
            replay ((fun exercise => (exercise, on_date)) <$> exercises) st =
            foldl (fun st exercise => update_prs exercise st) st exercises) as Hsame.
  { induction exercises as [| exercise exercises IH]; intros s Hs; [reflexivity |].
    rewrite fmap_cons.
    change (replay ((exercise, on_date) :: ((fun exercise => (exercise, on_date)) <$> exercises)) s)
      with (replay ((fun exercise => (exercise, on_date)) <$> exercises)
                   (record exercise on_date s)).
    change (foldl (fun st exercise => update_prs exercise st) s (exercise :: exercises))
      with (foldl (fun st exercise => update_prs exercise st) (update_prs exercise s) exercises).
    assert (record exercise on_date s = update_prs exercise s) as ->.
    { unfold record. f_equal. rewrite <- Hs. now destruct s. }
    apply IH. rewrite update_prs_frame. exact Hs. }
  destruct exercises as [| exercise exercises]; [reflexivity |].
  rewrite <- (Hsame (set_current_date on_date st) eq_refl).
  rewrite !fmap_cons.
  change (replay ((exercise, on_date) :: ?l) ?s) with (replay l (record exercise on_date s)).
  reflexivity.
Qed.

(** Viewing a day records it.  [load_workout_data] returns, with no dialog,
    whenever the position is in range, every day of the plan replays (its
    date parses and the load of each of its entries returns) and every
    exercise of the viewed day has a PR record or parses.  It then leaves
    the plan and the position as given, the week count at the number of
    weeks, the current date at the viewed day's date (today when it has
    none), and the PRs as a run of record calls for the viewed day's
    exercises under that date leaves them: each refresh of the view sends
    the day's exercises through [update_prs] once more. *)
Theorem load_workout_data_returns (st : Planner) (week : list Day) (workout : Day) :
  current_week st <= len (workouts st) ->
  py_index (workouts st) (current_week st - 1) = Ok week ->
  py_index week (current_day st) = Ok workout ->
  plan_replays (workouts st) ->
  names_known (prs st) workout ->
  exists st',
    load_workout_data st = Ok (st', []) /\
    same_plan st st' /\
    total_weeks st' = len (workouts st) /\
    current_date st' = DateObj (viewing_date workout) /\
    prs st' =
      prs (replay ((fun exercise => (exercise, DateObj (viewing_date workout)))
                     <$> day_exercises workout) st) /\
    rated (muscle_recovery st').
Proof.
  intros Hcw Hweek Hworkout Hparse Hknown.
  destruct (load_workout_data_runs st week workout Hcw Hweek Hworkout Hparse Hknown)
    as (st' & Hload & Hplan & Hweeks & Hdate & Hprs & Hrated).
  exists st'. rewrite replay_on_one_date. repeat split; try assumption; apply Hplan.
Qed.

End ViewFacts.

Section FileLoad.
Context `{Builtins}.

Lemma recalculate_prs_forgets (p : gmap string PRData) (st : Planner) :
  recalculate_prs (set_prs p st) = recalculate_prs st.
Proof. rewrite !recalculate_prs_frame. reflexivity. Qed.

(** [load_data] never restores the PRs of the file: it stores them and then
    runs [recalculate_prs], which starts from zero-valued records, so a file
    with a ['prs'] entry loads as the same file without it.  When it
    returns, the plan is the restructured input, viewed at week 1, day
    index 0.  An empty plan loads with the warning "No Data" followed by
    "Load Successful". *)
Theorem load_data_recomputes_prs (input : WorkoutsInput)
    (saved_prs : option (gmap string PRData)) (st : Planner) :
  load_data input saved_prs st = load_data input None st /\
  (forall st' shown,
     load_data input saved_prs st = Ok (st', shown) ->
     workouts st' = restructure_workouts input /\
     current_week st' = 1 /\ current_day st' = 0) /\
  (restructure_workouts input = [] ->
   exists st',
     load_data input saved_prs st =
     Ok (st', [ShowWarning "No Data" "No workout data available.";
               ShowInfo "Load Successful" "Workout data has been loaded successfully."]) /\
     prs st' = ∅).
Proof.
  assert (load_data input saved_prs st = load_data input None st) as Hsame.
  { unfold load_data. cbv zeta.
    destruct saved_prs as [p |]; [| reflexivity]. simpl default.
    change (set_current_day 0 (set_current_week 1 (set_prs ?p ?s)))
      with (set_prs p (set_current_day 0 (set_current_week 1 s))).
    now rewrite !recalculate_prs_forgets. }
  split; [exact Hsame |]. rewrite Hsame. clear Hsame. split.
  - intros st' shown. unfold load_data. cbv zeta. intros Hrun.
    apply bind_Ok in Hrun as ([st1 shown1] & Hload & Hrun).
    injection Hrun as <- _.
    apply load_workout_data_same_plan in Hload as (Hw & Hc & Hd).
    rewrite Hw, Hc, Hd, !recalculate_prs_frame. repeat split.
  - intros Hempty. unfold load_data. cbv zeta. rewrite Hempty.
    set (st1 := recalculate_prs _).
    assert (workouts st1 = []) as Hw1 by (unfold st1; now rewrite recalculate_prs_frame).
    unfold load_workout_data. rewrite Hw1. cbn [mbind Res_bind].
    exists st1. split; [reflexivity |].
    unfold st1. rewrite recalculate_prs_frame. reflexivity.
Qed.

End FileLoad.

(** ** The intensity schedule *)

Lemma rpe_low week : week <= 6 -> calculate_rpe week = (60 + inject_Z (week - 1) * (45 # 10))%Q.
Proof. intros Hw. unfold calculate_rpe. now apply Z.leb_le in Hw as ->. Qed.
Lemma rpe_mid : calculate_rpe 7 = 70%Q.
Proof. reflexivity. Qed.
Lemma rpe_high week : 8 <= week -> calculate_rpe week = (75 + inject_Z (week - 8) * (45 # 10))%Q.
Proof.
  intros Hw. unfold calculate_rpe.
  assert ((week <=? 6) = false) as -> by (apply Z.leb_gt; lia).
  assert ((week =? 7) = false) as -> by (apply Z.eqb_neq; lia). reflexivity.
Qed.
Ltac rpe_arith :=
  unfold Qle, Qlt, Qeq, Qplus, Qmult, inject_Z; cbn [Qnum Qden]; lia.
Ltac rpe_closed :=
  first [ lia | vm_compute; first [ reflexivity | discriminate ] ].

(** [calculate_rpe] gives at least 60 from week 1 on, rises by 4.5 from a
    week to the next except from week 6 to week 7, the only place where it
    drops, and is not capped: it stays within 100 exactly up to week 13. *)
Theorem calculate_rpe_profile (week : Z) :
  (1 <= week -> (60 <= calculate_rpe week)%Q) /\
  (week <> 6 -> week <> 7 ->
   (calculate_rpe (week + 1) == calculate_rpe week + (45 # 10))%Q) /\
  ((calculate_rpe (week + 1) < calculate_rpe week)%Q <-> week = 6) /\
  ((calculate_rpe week <= 100)%Q <-> week <= 13).
Proof.
  assert (week <= 5 \/ week = 6 \/ week = 7 \/ 8 <= week) as [Hw | [-> | [-> | Hw]]] by lia.
  - rewrite (rpe_low week), (rpe_low (week + 1)) by lia.
    repeat split; intros; try lia; try rpe_arith.
    all: revert H; rpe_arith.
  - repeat split; intros; rpe_closed.
  - repeat split; intros; rpe_closed.
  - rewrite (rpe_high week), (rpe_high (week + 1)) by lia.
    repeat split; intros; try lia; try rpe_arith.
    all: revert H; rpe_arith.
Qed.

(** ** The first date of the plan *)

Lemma for_each_concat {A S : Type} (body : A -> S -> Res S) (xss : list (list A)) (st : S) :
  for_each (fun xs st => for_each body xs st) xss st = for_each body (concat xss) st.
Proof.
  assert (forall xs ys s, for_each body (xs ++ ys) s =
                          s' ← for_each body xs s; for_each body ys s') as Happ.
  { induction xs as [| x xs IH]; intros ys s; [reflexivity |].
    simpl. destruct (body x s) as [s' | e]; [apply IH | reflexivity]. }
  revert st. induction xss as [| xs xss IH]; intros st; [reflexivity |].
  simpl. rewrite Happ. destruct (for_each body xs st) as [s' | e]; [apply IH | reflexivity].
Qed.

Section StartDate.
Context `{Builtins}.

Lemma start_date_step_cases (day : Day) (start : option Z) :
  start_date_step day start =
  match dated day with
  | Some stored =>
      match strptime stored with
      | Some date_obj =>
          Ok (Some (match start with
                    | Some earliest => if date_obj <? earliest then date_obj else earliest
                    | None => date_obj
                    end))
      | None => Raise ValueError
      end
  | None => Ok start
  end.
Proof.
  unfold start_date_step, dated.
  destruct (day_date day) as [stored |]; [| reflexivity]. simpl.
  destruct (truthy stored); [| reflexivity].
  destruct (strptime stored); [| reflexivity]. now destruct start.
Qed.

Lemma start_dates_run (days : list Day) (start : option Z) :
  Forall (fun stored => is_Some (strptime stored)) (omap dated days) ->
  exists result,
    for_each start_date_step days start = Ok result /\
    (omap dated days = [] -> result = start) /\
    (omap dated days <> [] -> is_Some result) /\
    (forall d, result = Some d ->
       (start = Some d \/ Some d ∈ strptime <$> omap dated days) /\
       (forall d', start = Some d' -> d <= d') /\
       (forall d', Some d' ∈ strptime <$> omap dated days -> d <= d')).
Proof.
  revert start. induction days as [| day days IH]; intros start Hparse.
  - exists start. split; [reflexivity |]. split; [reflexivity |]. split; [easy |].
    intros d ->. split; [now left |]. split; [intros d' [= ->]; lia |].
    intros d' Hd'. now apply elem_of_nil in Hd'.
  - change (for_each start_date_step (day :: days) start)
      with (st' ← start_date_step day start; for_each start_date_step days st').
    rewrite start_date_step_cases. simpl omap in Hparse |- *.
    destruct (dated day) as [stored |] eqn:Hstored; [| exact (IH start Hparse)].
    apply Forall_cons in Hparse as [[date_obj Hdate] Hparse].
    rewrite Hdate.
    set (next := match start with
                 | Some earliest => if date_obj <? earliest then date_obj else earliest
                 | None => date_obj
                 end).
    cbn [mbind Res_bind].
    destruct (IH (Some next) Hparse) as (result & -> & Hnone & Hsome & Hmin).
    exists result. split; [reflexivity |]. split; [discriminate |].
    split.
    { intros _. destruct (omap dated days) eqn:E; [rewrite Hnone; eauto | now apply Hsome]. }
    intros d Hd. destruct (Hmin d Hd) as (Hfrom & Hstart & Hrest).
    specialize (Hstart next eq_refl).
    assert (next <= date_obj /\ (forall d', start = Some d' -> next <= d') /\
            (next = date_obj \/ start = Some next)) as (Hn1 & Hn2 & Hn3).
    { unfold next. destruct start as [earliest |].
      - destruct (date_obj <? earliest) eqn:E;
          [apply Z.ltb_lt in E | apply Z.ltb_ge in E].
        + split; [lia |]. split; [intros d' [= ->]; lia | now left].
        + split; [lia |]. split; [intros d' [= ->]; lia | now right].
      - split; [lia |]. split; [discriminate | now left]. }
    rewrite fmap_cons, Hdate. split; [| split].
    + destruct Hfrom as [[= ->] | Hin].
      * destruct Hn3 as [-> | Hs]; [right; apply list_elem_of_here | now left].
      * right. now apply list_elem_of_further.
    + intros d' Hd'. specialize (Hn2 d' Hd'). lia.
    + intros d' Hd'. apply elem_of_cons in Hd' as [[= ->] | Hd']; [lia | now apply Hrest].
Qed.

(** [find_start_date] returns the earliest of the stored dates of the plan,
    and today when no day stores one (a day with the empty string as date
    counts as storing none); it raises ValueError as soon as a stored date
    does not parse. *)
Theorem find_start_date_earliest (st : Planner) :
  (Forall (fun stored => is_Some (strptime stored)) (stored_dates (workouts st)) ->
   exists d,
     find_start_date st = Ok d /\
     (stored_dates (workouts st) = [] -> d = today) /\
     (stored_dates (workouts st) <> [] ->
      Some d ∈ strptime <$> stored_dates (workouts st)) /\
     (forall d', Some d' ∈ strptime <$> stored_dates (workouts st) -> d <= d')) /\
  (Exists (fun stored => strptime stored = None) (stored_dates (workouts st)) ->
   find_start_date st = Raise ValueError).
Proof.
  unfold find_start_date, stored_dates. rewrite for_each_concat.
  generalize (concat (workouts st)) as days. intros days. split.
  - intros Hparse.
    destruct (start_dates_run days None Hparse) as (result & -> & Hnone & Hsome & Hmin).
    cbn [mbind Res_bind].
    destruct result as [d |]; simpl.
    + exists d. split; [reflexivity |].
      destruct (Hmin d eq_refl) as ([Hfrom | Hfrom] & _ & Hrest); [discriminate |].
      split.
      { intros Hempty. rewrite Hempty in Hfrom. now apply elem_of_nil in Hfrom. }
      split; [intros _; exact Hfrom | exact Hrest].
    + exists today. split; [reflexivity |]. split; [reflexivity |].
      destruct (omap dated days) eqn:E.
      * split; [easy |]. intros d' Hd'. now apply elem_of_nil in Hd'.
      * destruct Hsome as [x Hx]; [easy | discriminate].
  - intros Hbad.
    assert (forall start : option Z,
              for_each start_date_step days start ≫=
                (fun start_date => Ok (default today start_date)) =
              Raise ValueError) as Hraise; [| apply Hraise].
    induction days as [| day days IH]; intros start;
      [now apply Exists_nil in Hbad |].
    change (for_each start_date_step (day :: days) start)
      with (st' ← start_date_step day start; for_each start_date_step days st').
    rewrite start_date_step_cases. simpl omap in Hbad.
    destruct (dated day) as [stored |] eqn:Hstored; [| exact (IH Hbad start)].
    apply Exists_cons in Hbad as [Hbad | Hbad].
    + now rewrite Hbad.
    + destruct (strptime stored); [| reflexivity].
      cbn [mbind Res_bind]. now apply IH.
Qed.

End StartDate.

(** ** The viewed day *)

Lemma set_day_exercises_id (day : Day) : set_day_exercises (day_exercises day) day = day.
Proof. now destruct day. Qed.

Lemma with_day_id pos dpos week day weeks :
  weeks !! pos = Some week -> week !! dpos = Some day ->
  with_day pos dpos day weeks = weeks.
Proof.
  intros Hweek Hday. unfold with_day. rewrite Hweek.
  now rewrite (list_insert_id week dpos day Hday), list_insert_id.
Qed.

Lemma with_day_lookup pos dpos week day weeks :
  weeks !! pos = Some week -> (dpos < length week)%nat ->
  with_day pos dpos day weeks !! pos = Some (<[dpos := day]> week) /\
  <[dpos := day]> week !! dpos = Some day /\
  length (with_day pos dpos day weeks) = length weeks.
Proof.
  intros Hweek Hlt. unfold with_day. rewrite Hweek.
  pose proof (lookup_lt_Some _ _ _ Hweek).
  rewrite !list_lookup_insert_eq, length_insert by assumption. repeat split.
Qed.

Lemma with_day_twice pos dpos week day day' weeks :
  weeks !! pos = Some week -> (dpos < length week)%nat ->
  with_day pos dpos day' (with_day pos dpos day weeks) = with_day pos dpos day' weeks.
Proof.
  intros Hweek Hlt.
  destruct (with_day_lookup pos dpos week day weeks Hweek Hlt) as (Hnew & _ & _).
  unfold with_day at 1. rewrite Hnew. unfold with_day. rewrite Hweek.
  now rewrite list_insert_insert_eq, list_insert_insert_eq.
Qed.

Section ViewedDay.
Context `{Builtins}.

Lemma at_position_view st pos dpos week workout :
  at_position st pos dpos ->
  workouts st !! pos = Some week -> week !! dpos = Some workout ->
  py_index (workouts st) (current_week st - 1) = Ok week /\
  py_index week (current_day st) = Ok workout /\
  position_in_range st = Ok true /\
  viewed_day st = Ok workout /\
  forall day, set_viewed_day day st = Ok (set_workouts (with_day pos dpos day (workouts st)) st).
Proof.
  intros [Hcw Hcd] Hweek Hday.
  pose proof (lookup_lt_Some _ _ _ Hweek) as Hlt.
  pose proof (lookup_lt_Some _ _ _ Hday) as Hdlt.
  assert (current_week st - 1 = Z.of_nat pos) as Hpos by lia.
  assert (py_index (workouts st) (current_week st - 1) = Ok week) as Hw
    by (rewrite Hpos; now apply py_index_nat).
  assert (py_index week (current_day st) = Ok workout) as Hd
    by (rewrite Hcd; now apply py_index_nat).
  split; [exact Hw |]. split; [exact Hd |].
  unfold position_in_range, viewed_day, set_viewed_day. rewrite Hw.
  cbn [mbind Res_bind]. rewrite Hd.
  assert ((current_week st <=? len (workouts st)) = true) as ->
    by (apply Z.leb_le; unfold len; lia).
  assert ((current_day st <? len week) = true) as ->
    by (apply Z.ltb_lt; unfold len; lia).
  split; [reflexivity |]. split; [reflexivity |]. intros day.
  rewrite Hpos, Hcd, !py_pos_nat by assumption. cbn [mbind Res_bind].
  unfold with_day. now rewrite Hweek.
Qed.

Lemma plan_replays_with_day pos dpos week workout day weeks :
  weeks !! pos = Some week -> week !! dpos = Some workout ->
  day_replays day ->
  plan_replays weeks -> plan_replays (with_day pos dpos day weeks).
Proof.
  intros Hweek Hday Hnew. unfold with_day. rewrite Hweek. unfold plan_replays.
  destruct (concat_insert weeks pos week (<[dpos := day]> week) Hweek) as [-> ->].
  rewrite !Forall_app. intros (Htake & Hmid & Hdrop).
  repeat split; try assumption.
  apply Forall_insert; assumption.
Qed.

End ViewedDay.

Section ExerciseEdits.
Context `{Builtins}.

Lemma viewed_day_replays pos dpos week workout weeks :
  weeks !! pos = Some week -> week !! dpos = Some workout ->
  plan_replays weeks -> day_replays workout.
Proof.
  intros Hweek Hday Hparse.
  apply (proj1 (Forall_forall _ _) Hparse workout).
  apply list_elem_of_In, in_concat. exists week.
  split; apply list_elem_of_In; eapply list_elem_of_lookup_2; eassumption.
Qed.

Lemma plan_replays_stamped pos dpos week workout stored weeks :
  weeks !! pos = Some week -> week !! dpos = Some workout ->
  is_Some (strptime stored) ->
  plan_replays weeks ->
  plan_replays (with_day pos dpos (set_day_date (Some stored) workout) weeks).
Proof.
  intros Hweek Hday Hstored Hplan.
  apply (plan_replays_with_day pos dpos week workout); try assumption.
  split; [exact Hstored |].
  exact (proj2 (viewed_day_replays pos dpos week workout weeks Hweek Hday Hplan)).
Qed.

(** The refresh an exercise edit ends with: [update_volume_load] on the
    plan with the viewed day rewritten, its date kept, when the loads of
    the new entries return. *)
Lemma edit_viewed_day_refresh st pos dpos week workout exercises :
  workouts st !! pos = Some week -> week !! dpos = Some workout ->
  total_weeks st = len (workouts st) ->
  plan_replays (workouts st) ->
  loads_return exercises ->
  engine_ready st ->
  exists st',
    update_volume_load
      (set_workouts (with_day pos dpos (set_day_exercises exercises workout) (workouts st)) st)
    = Ok st' /\
    workouts st' = with_day pos dpos (set_day_exercises exercises workout) (workouts st) /\
    total_weeks st' = total_weeks st /\
    current_week st' = current_week st /\ current_day st' = current_day st /\
    current_date st' = current_date st /\ prs st' = prs st /\
    engine_ready st'.
Proof.
  intros Hweek Hday Htotal Hparse Hloads Hready.
  pose proof (lookup_lt_Some _ _ _ Hday) as Hdlt.
  set (edited := with_day pos dpos (set_day_exercises exercises workout) (workouts st)).
  destruct (with_day_lookup pos dpos week (set_day_exercises exercises workout)
              (workouts st) Hweek Hdlt) as (_ & _ & Hlen).
  destruct (update_volume_load_returns (set_workouts edited st))
    as (st' & -> & Hom & Hready').
  - simpl. rewrite Htotal. unfold len, edited. now rewrite Hlen.
  - simpl. apply (plan_replays_with_day pos dpos week workout); try assumption.
    split; [| exact Hloads]. simpl.
    exact (proj1 (viewed_day_replays pos dpos week workout (workouts st)
                    Hweek Hday Hparse)).
  - exact Hready.
  - exists st'. split; [reflexivity |].
    destruct (only_muscles_fields _ _ Hom) as (Hw & Ht & Hc & Hd & Hdate & Hprs).
    rewrite Hw, Ht, Hc, Hd, Hdate, Hprs.
    do 6 (split; [reflexivity |]). exact Hready'.
Qed.

(** When every day of the plan replays and the load of the entry "New
    Exercise" (sets, reps and weight "0") returns, [add_exercise] appends
    that entry to the viewed day and changes nothing else of the plan, the
    position or the PRs; [remove_exercise] on the row it added then gives
    the plan back. *)
Theorem add_exercise_then_remove (st : Planner) (pos dpos : nat) (week : list Day)
    (workout : Day) :
  at_position st pos dpos ->
  workouts st !! pos = Some week ->
  week !! dpos = Some workout ->
  total_weeks st = len (workouts st) ->
  plan_replays (workouts st) ->
  returns (calculate_load new_exercise) ->
  engine_ready st ->
  exists st1 st2,
    add_exercise st = Ok (st1, []) /\
    workouts st1 =
      with_day pos dpos
        (set_day_exercises (day_exercises workout ++ [new_exercise]) workout)
        (workouts st) /\
    at_position st1 pos dpos /\ prs st1 = prs st /\
    remove_exercise (Some (length (day_exercises workout))) st1 = Ok st2 /\
    workouts st2 = workouts st /\
    at_position st2 pos dpos /\ prs st2 = prs st.
Proof.
  intros Hat Hweek Hday Htotal Hparse Hnew Hready.
  pose proof (lookup_lt_Some _ _ _ Hday) as Hdlt.
  destruct (at_position_view st pos dpos week workout Hat Hweek Hday)
    as (_ & _ & Hrange & Hviewed & Hset).
  destruct (viewed_day_replays pos dpos week workout (workouts st) Hweek Hday Hparse)
    as [Hdate Hloads].
  assert (loads_return (day_exercises workout ++ [new_exercise])) as Hloads1
    by (apply Forall_app; split; [exact Hloads | now constructor]).
  set (added := set_day_exercises (day_exercises workout ++ [new_exercise]) workout).
  destruct (edit_viewed_day_refresh st pos dpos week workout
              (day_exercises workout ++ [new_exercise])
              Hweek Hday Htotal Hparse Hloads1 Hready)
    as (st1 & Hrun1 & Hw1 & Ht1 & Hc1 & Hd1 & Hdate1 & Hprs1 & Hready1).
  fold added in Hrun1, Hw1.
  destruct (with_day_lookup pos dpos week added (workouts st) Hweek Hdlt)
    as (Hweek1 & Hday1 & Hlen1).
  rewrite <- Hw1 in Hweek1, Hlen1.
  assert (at_position st1 pos dpos) as Hat1
    by (destruct Hat; split; congruence).
  destruct (at_position_view st1 pos dpos _ added Hat1 Hweek1 Hday1)
    as (_ & _ & Hrange1 & Hviewed1 & Hset1).
  assert (plan_replays (workouts st1)) as Hparse1.
  { rewrite Hw1. apply (plan_replays_with_day pos dpos week workout); try assumption.
    split; [exact Hdate | exact Hloads1]. }
  destruct (edit_viewed_day_refresh st1 pos dpos _ added (day_exercises workout)
              Hweek1 Hday1) as (st2 & Hrun2 & Hw2 & Ht2 & Hc2 & Hd2 & Hdate2 & Hprs2 & Hready2);
    [unfold len in *; congruence | exact Hparse1 | exact Hloads | exact Hready1 |].
  assert (set_day_exercises (day_exercises workout) added = workout) as Hback
    by (unfold added; now destruct workout).
  rewrite Hback in Hrun2, Hw2.
  assert (with_day pos dpos workout (workouts st1) = workouts st) as Hrestored.
  { rewrite Hw1, (with_day_twice pos dpos week) by assumption.
    now apply (with_day_id pos dpos week). }
  rewrite Hrestored in Hrun2, Hw2.
  exists st1, st2.
  split.
  { unfold add_exercise. rewrite Hrange. cbn [mbind Res_bind].
    rewrite Hviewed. cbn [mbind Res_bind]. rewrite Hset. cbn [mbind Res_bind].
    fold added. now rewrite Hrun1. }
  split; [exact Hw1 |]. split; [exact Hat1 |]. split; [exact Hprs1 |].
  split.
  { unfold remove_exercise. rewrite Hrange1. cbn [mbind Res_bind].
    rewrite Hviewed1. cbn [mbind Res_bind].
    assert (py_index (day_exercises added) (Z.of_nat (length (day_exercises workout)))
            = Ok new_exercise) as ->.
    { apply py_index_nat. unfold added. simpl.
      rewrite lookup_app_r by lia. now rewrite Nat.sub_diag. }
    cbn [mbind Res_bind]. rewrite Hset1. cbn [mbind Res_bind].
    assert (delete (length (day_exercises workout)) (day_exercises added)
            = day_exercises workout) as ->.
    { unfold added. simpl. rewrite delete_take_drop.
      rewrite take_app_length, drop_ge by (rewrite length_app; simpl; lia).
      apply app_nil_r. }
    rewrite Hback, Hrestored. exact Hrun2. }
  split; [exact Hw2 |].
  split; [destruct Hat1; split; congruence | congruence].
Qed.

End ExerciseEdits.

(** ** Moving an entry of a list *)

Lemma py_insert_perm {A : Type} (l : list A) (i j : nat) (x : A) :
  l !! i = Some x -> py_insert j x (delete i l) ≡ₚ l.
Proof.
  intros Hx. unfold py_insert.
  rewrite (delete_Permutation l i x Hx) at 3.
  rewrite <- Permutation_middle. now rewrite take_drop.
Qed.

Lemma py_insert_lookup {A : Type} (l : list A) (j : nat) (x : A) :
  py_insert j x l !! (j `min` length l)%nat = Some x /\
  delete (j `min` length l)%nat (py_insert j x l) = l.
Proof.
  unfold py_insert.
  assert (length (take j l) = (j `min` length l)%nat) as Hlen by apply length_take.
  split.
  - rewrite lookup_app_r by lia. now rewrite Hlen, Nat.sub_diag.
  - rewrite <- Hlen at 1. rewrite delete_middle. apply take_drop.
Qed.

Lemma py_insert_delete {A : Type} (l : list A) (i : nat) (x : A) :
  l !! i = Some x -> py_insert i x (delete i l) = l.
Proof.
  intros Hx. unfold py_insert. pose proof (lookup_lt_Some _ _ _ Hx) as Hlt.
  rewrite delete_take_drop, take_app_le, drop_app_ge by (rewrite ?length_take; lia).
  rewrite take_take, Nat.min_id, length_take, Nat.min_l by lia.
  rewrite Nat.sub_diag, drop_0. now apply take_drop_middle.
Qed.

Lemma set_workouts_id (st : Planner) : set_workouts (workouts st) st = st.
Proof. now destruct st. Qed.

Section ExerciseOrder.
Context `{Builtins}.

(** [on_release] after a drag from row [index] to row [new_index] of the
    viewed day: the dragged exercise is taken out and put back at
    [new_index] (at the end when [new_index] is past it), so the day keeps
    the same exercises in another order; nothing else of the planner
    changes, and dragging the exercise back restores the planner. *)
Theorem on_release_moves (st : Planner) (pos dpos index new_index : nat)
    (week : list Day) (workout : Day) (exercise : Exercise) :
  at_position st pos dpos ->
  workouts st !! pos = Some week ->
  week !! dpos = Some workout ->
  day_exercises workout !! index = Some exercise ->
  let moved := py_insert new_index exercise (delete index (day_exercises workout)) in
  let landed := (new_index `min` (length (day_exercises workout) - 1))%nat in
  on_release (Some (index, new_index)) st =
    Ok (set_workouts (with_day pos dpos (set_day_exercises moved workout) (workouts st)) st) /\
  moved ≡ₚ day_exercises workout /\
  moved !! landed = Some exercise /\
  (forall st1, on_release (Some (index, new_index)) st = Ok st1 ->
               on_release (Some (landed, index)) st1 = Ok st).
Proof.
  intros Hat Hweek Hday Hex moved landed.
  pose proof (lookup_lt_Some _ _ _ Hday) as Hdlt.
  pose proof (lookup_lt_Some _ _ _ Hex) as Hilt.
  destruct (at_position_view st pos dpos week workout Hat Hweek Hday)
    as (_ & _ & Hrange & Hviewed & Hset).
  assert (length (delete index (day_exercises workout)) =
          (length (day_exercises workout) - 1)%nat) as Hlen
    by (rewrite length_delete; [reflexivity | now rewrite Hex]).
  destruct (py_insert_lookup (delete index (day_exercises workout)) new_index exercise)
    as [Hlanded Hout].
  rewrite Hlen in Hlanded, Hout. fold moved landed in Hlanded, Hout.
  assert (on_release (Some (index, new_index)) st =
          Ok (set_workouts (with_day pos dpos (set_day_exercises moved workout)
                              (workouts st)) st)) as Hrun.
  { unfold on_release. rewrite Hrange. cbn [mbind Res_bind].
    rewrite Hviewed. cbn [mbind Res_bind].
    rewrite (py_index_nat _ _ _ Hex). cbn [mbind Res_bind]. apply Hset. }
  split; [exact Hrun |]. split; [now apply py_insert_perm |].
  split; [exact Hlanded |].
  intros st1. rewrite Hrun. intros [= <-].
  set (day1 := set_day_exercises moved workout).
  set (st1 := set_workouts (with_day pos dpos day1 (workouts st)) st).
  destruct (with_day_lookup pos dpos week day1 (workouts st) Hweek Hdlt)
    as (Hweek1 & Hday1 & _).
  destruct (at_position_view st1 pos dpos _ day1 Hat Hweek1 Hday1)
    as (_ & _ & Hrange1 & Hviewed1 & Hset1).
  unfold on_release. rewrite Hrange1. cbn [mbind Res_bind].
  rewrite Hviewed1. cbn [mbind Res_bind].
  change (day_exercises day1) with moved.
  rewrite (py_index_nat _ _ _ Hlanded). cbn [mbind Res_bind].
  rewrite Hset1, Hout, (py_insert_delete _ _ _ Hex).
  assert (set_day_exercises (day_exercises workout) day1 = workout) as ->
    by (unfold day1; now destruct workout).
  unfold st1. simpl workouts.
  rewrite (with_day_twice pos dpos week), (with_day_id pos dpos week) by assumption.
  unfold set_workouts. simpl. now destruct st.
Qed.

End ExerciseOrder.

(** ** Navigation *)

Lemma Forall_concat_with_day (P : Day -> Prop) pos dpos day weeks :
  P day -> Forall P (concat weeks) -> Forall P (concat (with_day pos dpos day weeks)).
Proof.
  intros Hday. unfold with_day.
  destruct (weeks !! pos) as [week |] eqn:Hweek; [| easy].
  destruct (concat_insert weeks pos week (<[dpos := day]> week) Hweek) as [-> ->].
  rewrite !Forall_app. intros (Htake & Hmid & Hdrop).
  repeat split; try assumption.
  destruct (decide (dpos < length week)%nat) as [Hlt | Hge].
  - now apply Forall_insert.
  - now rewrite list_insert_ge by lia.
Qed.

Lemma day_at_elem_of weeks pos dpos day :
  day_at weeks pos dpos = Some day -> day ∈ concat weeks.
Proof.
  unfold day_at. destruct (weeks !! pos) as [week |] eqn:Hweek; [| discriminate].
  simpl. intros Hday. apply list_elem_of_In, in_concat. exists week.
  split; apply list_elem_of_In; eapply list_elem_of_lookup_2; eassumption.
Qed.

Lemma with_day_lengths pos dpos day weeks :
  length <$> with_day pos dpos day weeks = length <$> weeks.
Proof.
  unfold with_day. destruct (weeks !! pos) as [week |] eqn:Hweek; [| reflexivity].
  rewrite list_fmap_insert, length_insert.
  apply list_insert_id. now rewrite list_lookup_fmap, Hweek.
Qed.

Lemma lengths_lookup {A : Type} (ls ls' : list (list A)) pos :
  length <$> ls' = length <$> ls ->
  length (default [] (ls' !! pos)) = length (default [] (ls !! pos)) /\
  length ls' = length ls.
Proof.
  intros Hlen. split.
  - apply (f_equal (fun l => l !! pos)) in Hlen. rewrite !list_lookup_fmap in Hlen.
    destruct (ls' !! pos), (ls !! pos); simpl in *; congruence.
  - apply (f_equal length) in Hlen. now rewrite !length_fmap in Hlen.
Qed.

Section Moves.
Context `{Builtins}.

(** [load_workout_data] at a position of the plan. *)
Lemma view_returns st pos dpos workout :
  at_position st pos dpos ->
  day_at (workouts st) pos dpos = Some workout ->
  plan_replays (workouts st) ->
  names_known (prs st) workout ->
  exists st',
    load_workout_data st = Ok (st', []) /\
    workouts st' = workouts st /\
    at_position st' pos dpos /\
    current_date st' = DateObj (viewing_date workout) /\
    (forall name, is_Some (prs st !! name) -> is_Some (prs st' !! name)).
Proof.
  intros Hat Hday Hparse Hknown. unfold day_at in Hday.
  destruct (workouts st !! pos) as [week |] eqn:Hweek; [| discriminate].
  simpl in Hday.
  destruct (at_position_view st pos dpos week workout Hat Hweek Hday)
    as (Hw & Hd & _).
  pose proof (lookup_lt_Some _ _ _ Hweek) as Hlt.
  destruct (load_workout_data_runs st week workout)
    as (st' & Hload & (Hw' & Hc' & Hd') & _ & Hdate & Hprs & _); try assumption.
  { destruct Hat as [-> _]. unfold len. lia. }
  exists st'. split; [exact Hload |]. split; [exact Hw' |].
  split; [destruct Hat; split; congruence |]. split; [exact Hdate |].
  intros name Hname. rewrite Hprs. now apply prs_known_after_rows.
Qed.

Lemma save_current_date_stamps st pos dpos workout selected :
  at_position st pos dpos ->
  day_at (workouts st) pos dpos = Some workout ->
  save_current_date selected st =
  Ok (set_workouts
        (with_day pos dpos (set_day_date (Some (strftime selected)) workout) (workouts st))
        st).
Proof.
  intros Hat Hday. unfold day_at in Hday.
  destruct (workouts st !! pos) as [week |] eqn:Hweek; [| discriminate].
  simpl in Hday.
  destruct (at_position_view st pos dpos week workout Hat Hweek Hday)
    as (_ & _ & Hrange & Hviewed & Hset).
  unfold save_current_date. rewrite Hrange. cbn [mbind Res_bind].
  rewrite Hviewed. cbn [mbind Res_bind]. apply Hset.
Qed.

End Moves.

Section NextDay.
Context `{Builtins}.

(** [next_day] from a day of the plan, in a plan without empty weeks every
    day of which replays: it writes the date shown in the date entry into
    the day it leaves, moves to the next day of the week, else to the first
    day of the next week, else stays on the last day of the plan, and views
    the day it lands on, under that day's date. *)
Theorem next_day_moves (st : Planner) (pos dpos : nat) (workout : Day) (selected : Z) :
  at_position st pos dpos ->
  day_at (workouts st) pos dpos = Some workout ->
  Forall (fun week => week <> []) (workouts st) ->
  plan_replays (workouts st) ->
  is_Some (strptime (strftime selected)) ->
  Forall (names_known (prs st)) (concat (workouts st)) ->
  let stamped :=
    with_day pos dpos (set_day_date (Some (strftime selected)) workout) (workouts st) in
  let target := next_position (workouts st) pos dpos in
  exists st' viewed,
    next_day selected st = Ok (st', []) /\
    workouts st' = stamped /\
    at_position st' target.1 target.2 /\
    day_at stamped target.1 target.2 = Some viewed /\
    current_date st' = DateObj (viewing_date viewed).
Proof.
  intros Hat Hday Hfull Hparse Hselected Hknown stamped target.
  set (day' := set_day_date (Some (strftime selected)) workout) in *.
  pose proof (save_current_date_stamps st pos dpos workout selected Hat Hday) as Hsave.
  fold day' stamped in Hsave.
  unfold day_at in Hday.
  destruct (workouts st !! pos) as [week |] eqn:Hweek; [| discriminate].
  simpl in Hday.
  pose proof (lookup_lt_Some _ _ _ Hweek) as Hlt.
  pose proof (lookup_lt_Some _ _ _ Hday) as Hdlt.
  destruct (with_day_lookup pos dpos week day' (workouts st) Hweek Hdlt)
    as (Hweek' & Hday' & Hlen').
  fold stamped in Hweek', Hlen'.
  set (st0 := set_workouts stamped st) in *.
  assert (Forall (names_known (prs st)) (concat stamped)) as Hknown'
    by (apply Forall_concat_with_day; [| exact Hknown];
        apply (proj1 (Forall_forall _ _) Hknown workout),
              (day_at_elem_of _ pos dpos); unfold day_at; now rewrite Hweek).
  assert (plan_replays stamped) as Hparse'
    by (now apply (plan_replays_stamped pos dpos week workout)).
  assert (exists st1 viewed,
            (if current_day st0 <? len (<[dpos := day']> week) - 1
             then set_current_day (current_day st0 + 1) st0
             else if current_week st0 <? len (workouts st0)
                  then set_current_day 0 (set_current_week (current_week st0 + 1) st0)
                  else st0) = st1 /\
            workouts st1 = stamped /\ prs st1 = prs st /\
            at_position st1 target.1 target.2 /\
            day_at stamped target.1 target.2 = Some viewed)
    as (st1 & viewed & Hmove & Hw1 & Hprs1 & Hat1 & Hviewed).
  { destruct Hat as [Hcw Hcd]. unfold target, next_position. rewrite Hweek. simpl default.
    change (current_day st0) with (current_day st).
    change (current_week st0) with (current_week st).
    change (workouts st0) with stamped.
    unfold len. rewrite length_insert, Hlen'.
    destruct (decide (S dpos < length week)%nat) as [Hnext | Hlast].
    - assert ((current_day st <? Z.of_nat (length week) - 1) = true) as ->
        by (apply Z.ltb_lt; lia).
      destruct (lookup_lt_is_Some_2 week (S dpos) Hnext) as [viewed Hviewed].
      eexists _, viewed. split; [reflexivity |]. repeat split; simpl; try lia.
      unfold day_at. rewrite Hweek'. simpl.
      now rewrite list_lookup_insert_ne by lia.
    - assert ((current_day st <? Z.of_nat (length week) - 1) = false) as ->
        by (apply Z.ltb_ge; lia).
      destruct (decide (S pos < length (workouts st))%nat) as [Hweeks | Hend].
      + assert ((current_week st <? Z.of_nat (length (workouts st))) = true) as ->
          by (apply Z.ltb_lt; lia).
        destruct (lookup_lt_is_Some_2 (workouts st) (S pos) Hweeks) as [week2 Hweek2].
        assert (week2 <> []) as Hsome
          by (apply (proj1 (Forall_forall _ _) Hfull week2);
              eapply list_elem_of_lookup_2; exact Hweek2).
        destruct week2 as [| viewed week2]; [contradiction |].
        eexists _, viewed. split; [reflexivity |]. repeat split; simpl; try lia.
        unfold day_at, stamped, with_day. rewrite Hweek.
        rewrite list_lookup_insert_ne by lia. now rewrite Hweek2.
      + assert ((current_week st <? Z.of_nat (length (workouts st))) = false) as ->
          by (apply Z.ltb_ge; lia).
        eexists _, day'. split; [reflexivity |]. repeat split; simpl; try lia.
        unfold day_at. rewrite Hweek'. simpl. exact Hday'. }
  destruct (view_returns st1 target.1 target.2 viewed Hat1)
    as (st' & Hload & Hw' & Hat' & Hdate' & _).
  - now rewrite Hw1.
  - now rewrite Hw1.
  - rewrite Hprs1. apply (proj1 (Forall_forall _ _) Hknown' viewed).
    now apply (day_at_elem_of _ target.1 target.2).
  - exists st', viewed. split.
    + unfold next_day. rewrite Hsave. cbn [mbind Res_bind].
      fold st0. change (workouts st0) with stamped.
      change (current_week st0) with (current_week st).
      destruct (at_position_view st pos dpos week workout Hat Hweek Hday) as (Hidx & _).
      assert (py_index stamped (current_week st - 1) = Ok (<[dpos := day']> week)) as ->.
      { destruct Hat as [Hcw _].
        replace (current_week st - 1) with (Z.of_nat pos) by lia.
        now apply py_index_nat. }
      cbn [mbind Res_bind].
      change stamped with (workouts st0) at 1.
      change (current_week st) with (current_week st0).
      rewrite Hmove. exact Hload.
    + split; [now rewrite Hw', Hw1 |]. split; [exact Hat' |].
      split; [exact Hviewed | exact Hdate'].
Qed.

End NextDay.

Section PreviousDay.
Context `{Builtins}.

(** [previous_day] from a day of the plan, in a plan without empty weeks
    every day of which replays: it writes the date shown in the date entry
    into the day it leaves, moves to the day before in the week, else to
    the last day of the week before, else stays on the first day of the
    plan, and views the day it lands on, under that day's date. *)
Theorem previous_day_moves (st : Planner) (pos dpos : nat) (workout : Day) (selected : Z) :
  at_position st pos dpos ->
  day_at (workouts st) pos dpos = Some workout ->
  Forall (fun week => week <> []) (workouts st) ->
  plan_replays (workouts st) ->
  is_Some (strptime (strftime selected)) ->
  Forall (names_known (prs st)) (concat (workouts st)) ->
  let stamped :=
    with_day pos dpos (set_day_date (Some (strftime selected)) workout) (workouts st) in
  let target := previous_position (workouts st) pos dpos in
  exists st' viewed,
    previous_day selected st = Ok (st', []) /\
    workouts st' = stamped /\
    at_position st' target.1 target.2 /\
    day_at stamped target.1 target.2 = Some viewed /\
    current_date st' = DateObj (viewing_date viewed).
Proof.
  intros Hat Hday Hfull Hparse Hselected Hknown stamped target.
  set (day' := set_day_date (Some (strftime selected)) workout) in *.
  pose proof (save_current_date_stamps st pos dpos workout selected Hat Hday) as Hsave.
  fold day' stamped in Hsave.
  unfold day_at in Hday.
  destruct (workouts st !! pos) as [week |] eqn:Hweek; [| discriminate].
  simpl in Hday.
  pose proof (lookup_lt_Some _ _ _ Hweek) as Hlt.
  pose proof (lookup_lt_Some _ _ _ Hday) as Hdlt.
  destruct (with_day_lookup pos dpos week day' (workouts st) Hweek Hdlt)
    as (Hweek' & Hday' & Hlen').
  fold stamped in Hweek', Hlen'.
  set (st0 := set_workouts stamped st) in *.
  assert (Forall (names_known (prs st)) (concat stamped)) as Hknown'
    by (apply Forall_concat_with_day; [| exact Hknown];
        apply (proj1 (Forall_forall _ _) Hknown workout),
              (day_at_elem_of _ pos dpos); unfold day_at; now rewrite Hweek).
  assert (plan_replays stamped) as Hparse'
    by (now apply (plan_replays_stamped pos dpos week workout)).
  assert (exists st1 viewed,
            (if 0 <? current_day st0 then Ok (set_current_day (current_day st0 - 1) st0)
             else if 1 <? current_week st0
                  then let st := set_current_week (current_week st0 - 1) st0 in
                       week ← py_index (workouts st) (current_week st - 1);
                       Ok (set_current_day (len week - 1) st)
                  else Ok st0) = Ok st1 /\
            workouts st1 = stamped /\ prs st1 = prs st /\
            at_position st1 target.1 target.2 /\
            day_at stamped target.1 target.2 = Some viewed)
    as (st1 & viewed & Hmove & Hw1 & Hprs1 & Hat1 & Hviewed).
  { destruct Hat as [Hcw Hcd]. unfold target, previous_position.
    change (current_day st0) with (current_day st).
    change (current_week st0) with (current_week st).
    destruct dpos as [| before].
    - assert ((0 <? current_day st) = false) as -> by (apply Z.ltb_ge; lia).
      destruct pos as [| week_before].
      + assert ((1 <? current_week st) = false) as -> by (apply Z.ltb_ge; lia).
        eexists _, day'. split; [reflexivity |]. repeat split; simpl; try lia.
        unfold day_at. rewrite Hweek'. simpl. exact Hday'.
      + assert ((1 <? current_week st) = true) as -> by (apply Z.ltb_lt; lia).
        cbv zeta.
        change (current_week (set_current_week (current_week st - 1) st0))
          with (current_week st - 1).
        change (workouts (set_current_week (current_week st - 1) st0)) with stamped.
        assert (week_before < length (workouts st))%nat as Hwb by lia.
        destruct (lookup_lt_is_Some_2 (workouts st) week_before Hwb) as [week0 Hweek0].
        assert (stamped !! week_before = Some week0) as Hstamped0.
        { unfold stamped, with_day. rewrite Hweek.
          now rewrite list_lookup_insert_ne by lia. }
        assert (week0 <> []) as Hsome
          by (apply (proj1 (Forall_forall _ _) Hfull week0);
              eapply list_elem_of_lookup_2; exact Hweek0).
        assert (length week0 - 1 < length week0)%nat as Hlast
          by (destruct week0; [contradiction | simpl; lia]).
        destruct (lookup_lt_is_Some_2 week0 _ Hlast) as [viewed Hviewed].
        replace (current_week st - 1 - 1) with (Z.of_nat week_before) by lia.
        rewrite (py_index_nat _ _ _ Hstamped0). cbn [mbind Res_bind].
        eexists _, viewed. split; [reflexivity |]. rewrite Hweek0. simpl default.
        repeat split; simpl; unfold len; try lia.
        unfold day_at. rewrite Hstamped0. exact Hviewed.
    - assert ((0 <? current_day st) = true) as -> by (apply Z.ltb_lt; lia).
      assert (before < length week)%nat as Hbefore by lia.
      destruct (lookup_lt_is_Some_2 week before Hbefore) as [viewed Hviewed].
      eexists _, viewed. split; [reflexivity |]. repeat split; simpl; try lia.
      unfold day_at. rewrite Hweek'. simpl.
      now rewrite list_lookup_insert_ne by lia. }
  destruct (view_returns st1 target.1 target.2 viewed Hat1)
    as (st' & Hload & Hw' & Hat' & Hdate' & _).
  - now rewrite Hw1.
  - now rewrite Hw1.
  - rewrite Hprs1. apply (proj1 (Forall_forall _ _) Hknown' viewed).
    now apply (day_at_elem_of _ target.1 target.2).
  - exists st', viewed. split.
    + unfold previous_day. rewrite Hsave. cbn [mbind Res_bind].
      fold st0. cbv zeta in Hmove. rewrite Hmove. cbn [mbind Res_bind]. exact Hload.
    + split; [now rewrite Hw', Hw1 |]. split; [exact Hat' |].
      split; [exact Hviewed | exact Hdate'].
Qed.

(** An empty week stops the two buttons differently.  From the last day of
    the week before it, [next_day] moves into it and warns "Invalid
    Week/Day"; from the first day of the week after it, [previous_day]
    sets the day index to -1, which passes the range test, and raises
    IndexError when the day is read. *)
Theorem empty_week_stops_navigation (st : Planner) (pos dpos : nat) (workout : Day)
    (selected : Z) :
  at_position st pos dpos ->
  day_at (workouts st) pos dpos = Some workout ->
  (workouts st !! S pos = Some [] ->
   day_at (workouts st) pos (S dpos) = None ->
   exists st',
     next_day selected st =
     Ok (st', [ShowWarning "Invalid Week/Day" "The selected week or day is out of range."]) /\
     at_position st' (S pos) 0) /\
  (dpos = 0%nat ->
   (exists week_before, pos = S week_before /\ workouts st !! week_before = Some []) ->
   previous_day selected st = Raise IndexError).
Proof.
  intros Hat Hday.
  set (day' := set_day_date (Some (strftime selected)) workout).
  pose proof (save_current_date_stamps st pos dpos workout selected Hat Hday) as Hsave.
  fold day' in Hsave.
  set (stamped := with_day pos dpos day' (workouts st)) in *.
  unfold day_at in Hday.
  destruct (workouts st !! pos) as [week |] eqn:Hweek; [| discriminate].
  simpl in Hday.
  pose proof (lookup_lt_Some _ _ _ Hweek) as Hlt.
  pose proof (lookup_lt_Some _ _ _ Hday) as Hdlt.
  destruct (with_day_lookup pos dpos week day' (workouts st) Hweek Hdlt)
    as (Hweek' & Hday' & Hlen').
  fold stamped in Hweek', Hlen'.
  set (st0 := set_workouts stamped st) in *.
  destruct Hat as [Hcw Hcd]. split.
  - intros Hempty Hlast. unfold day_at in Hlast. rewrite Hweek in Hlast. simpl in Hlast.
    apply lookup_ge_None in Hlast.
    pose proof (lookup_lt_Some _ _ _ Hempty) as Hnext.
    assert (stamped !! S pos = Some []) as Hempty'.
    { unfold stamped, with_day. rewrite Hweek.
      now rewrite list_lookup_insert_ne by lia. }
    unfold next_day. rewrite Hsave. cbn [mbind Res_bind]. fold st0.
    change (workouts st0) with stamped.
    change (current_week st0) with (current_week st).
    change (current_day st0) with (current_day st).
    replace (current_week st - 1) with (Z.of_nat pos) by lia.
    rewrite (py_index_nat _ _ _ Hweek'). cbn [mbind Res_bind].
    unfold len. rewrite length_insert, Hlen'.
    assert ((current_day st <? Z.of_nat (length week) - 1) = false) as ->
      by (apply Z.ltb_ge; lia).
    assert ((current_week st <? Z.of_nat (length (workouts st))) = true) as ->
      by (apply Z.ltb_lt; lia).
    set (st1 := set_current_day 0 (set_current_week (current_week st + 1) st0)).
    exists (set_total_weeks (len stamped) st1).
    split; [| split; simpl; lia].
    assert (workouts st1 = stamped) as Hw1 by reflexivity.
    unfold load_workout_data.
    destruct (workouts st1) as [| w ws] eqn:Hs; [now rewrite <- Hw1 in Hempty' |].
    rewrite Hw1. cbv zeta.
    change (workouts (set_total_weeks (len stamped) st1)) with stamped.
    change (current_week (set_total_weeks (len stamped) st1)) with (current_week st + 1).
    change (current_day (set_total_weeks (len stamped) st1)) with 0.
    assert ((current_week st + 1 <=? len stamped) = true) as ->
      by (apply Z.leb_le; unfold len; lia).
    replace (current_week st + 1 - 1) with (Z.of_nat (S pos)) by lia.
    rewrite (py_index_nat _ _ _ Hempty'). reflexivity.
  - intros -> (week_before & -> & Hempty).
    assert (stamped !! week_before = Some []) as Hempty'.
    { unfold stamped, with_day. rewrite Hweek.
      now rewrite list_lookup_insert_ne by lia. }
    unfold previous_day. rewrite Hsave. cbn [mbind Res_bind]. fold st0.
    change (current_week st0) with (current_week st).
    change (current_day st0) with (current_day st).
    assert ((0 <? current_day st) = false) as -> by (apply Z.ltb_ge; lia).
    assert ((1 <? current_week st) = true) as -> by (apply Z.ltb_lt; lia).
    cbv zeta.
    change (current_week (set_current_week (current_week st - 1) st0))
      with (current_week st - 1).
    change (workouts (set_current_week (current_week st - 1) st0)) with stamped.
    replace (current_week st - 1 - 1) with (Z.of_nat week_before) by lia.
    rewrite (py_index_nat _ _ _ Hempty'). cbn [mbind Res_bind].
    set (st1 := set_current_day (len [] - 1) (set_current_week (current_week st - 1) st0)).
    assert (workouts st1 = stamped) as Hw1 by reflexivity.
    unfold load_workout_data.
    destruct (workouts st1) as [| w ws] eqn:Hs; [now rewrite <- Hw1 in Hempty' |].
    rewrite Hw1. cbv zeta.
    change (workouts (set_total_weeks (len stamped) st1)) with stamped.
    change (current_week (set_total_weeks (len stamped) st1)) with (current_week st - 1).
    change (current_day (set_total_weeks (len stamped) st1)) with (-1).
    assert ((current_week st - 1 <=? len stamped) = true) as ->
      by (apply Z.leb_le; unfold len; lia).
    replace (current_week st - 1 - 1) with (Z.of_nat week_before) by lia.
    rewrite (py_index_nat _ _ _ Hempty'). reflexivity.
Qed.

End PreviousDay.

(** ** The text parser *)

Lemma append_label exercise workout :
  day_label (Parser.append exercise workout) = day_label workout.
Proof. reflexivity. Qed.

Lemma append_blank name sets reps workout :
  blank workout -> blank (Parser.append (Parser.entry name sets reps) workout).
Proof.
  intros [Hdate Hweights]. split; [exact Hdate |]. simpl.
  apply Forall_app. split; [exact Hweights |]. now constructor.
Qed.

(** One line of the text: the days held before stay, up to the entries of
    the open day, and a line that starts with "Day" opens one more. *)
Lemma parse_line_days (raw : string) (s : Parser.State) :
  day_label <$> all_days (Parser.parse_line raw s) =
    (day_label <$> all_days s) ++
    (if startswith "Day" (strip raw) then [strip raw] else []) /\
  (Forall blank (all_days s) -> Forall blank (all_days (Parser.parse_line raw s))).
Proof.
  unfold Parser.parse_line, all_days. cbv zeta.
  destruct (startswith "Day" (strip raw)) eqn:Hday.
  - simpl. destruct (Parser.current_workout s) as [workout |]; simpl.
    + rewrite !fmap_app. simpl. split; [reflexivity |].
      intros Hall. apply Forall_app. split; [exact Hall |].
      constructor; [| constructor]. split; [reflexivity | constructor].
    + rewrite !fmap_app, app_nil_r. simpl. split; [reflexivity |].
      rewrite app_nil_r. intros Hall. apply Forall_app. split; [exact Hall |].
      constructor; [| constructor]. split; [reflexivity | constructor].
  - rewrite app_nil_r.
    destruct (Parser.current_workout s) as [workout |] eqn:Hopen; [| now rewrite Hopen].
    assert (forall s',
              Parser.workouts s' = Parser.workouts s ->
              (exists workout', Parser.current_workout s' = Some workout' /\
                                day_label workout' = day_label workout /\
                                (blank workout -> blank workout')) ->
              day_label <$> Parser.workouts s' ++ option_list (Parser.current_workout s') =
                day_label <$> Parser.workouts s ++ option_list (Some workout) /\
              (Forall blank (Parser.workouts s ++ option_list (Some workout)) ->
               Forall blank (Parser.workouts s' ++ option_list (Parser.current_workout s'))))
      as Hkept.
    { intros s' -> (workout' & -> & Hlabel & Hblank). simpl.
      rewrite !fmap_app. simpl. rewrite Hlabel. split; [reflexivity |].
      rewrite !Forall_app, !Forall_singleton. intros [Hdone Hw]. auto. }
    destruct (truthy (strip raw)); [| rewrite Hopen; now split].
    destruct (str_in "x" (strip raw) && (length (split "x" (strip raw)) =? 2)%nat).
    + destruct (split "x" (strip raw)) as [| sets [| reps [| more pieces]]];
        try (rewrite Hopen; now split).
      destruct (Parser.pending s) as [name |].
      * apply Hkept; [reflexivity |]. eexists. split; [reflexivity |].
        split; [reflexivity | apply append_blank].
      * destruct (rsplit " " 2 (strip raw)) as [| exercise [| sets' [| reps' [| more pieces]]]];
          apply Hkept; try reflexivity; eexists; (split; [reflexivity |]);
          split; try reflexivity; auto using append_blank.
    + apply Hkept; [reflexivity |]. eexists. split; [reflexivity |].
      destruct (Parser.pending s) as [name |]; split; try reflexivity; auto using append_blank.
Qed.

Lemma parse_lines_days (lines : list string) (s : Parser.State) :
  day_label <$> all_days (foldl (fun s line => Parser.parse_line line s) s lines) =
    (day_label <$> all_days s) ++ List.filter (startswith "Day") (strip <$> lines) /\
  (Forall blank (all_days s) ->
   Forall blank (all_days (foldl (fun s line => Parser.parse_line line s) s lines))).
Proof.
  revert s. induction lines as [| raw lines IH]; intros s.
  - simpl. now rewrite app_nil_r.
  - change (foldl (fun s line => Parser.parse_line line s) s (raw :: lines))
      with (foldl (fun s line => Parser.parse_line line s) (Parser.parse_line raw s) lines).
    destruct (IH (Parser.parse_line raw s)) as [IHlabels IHblank].
    destruct (parse_line_days raw s) as [Hlabels Hblank].
    rewrite IHlabels, Hlabels, <- app_assoc, fmap_cons. split.
    + f_equal. change (List.filter (startswith "Day") (strip raw :: (strip <$> lines)))
        with (if startswith "Day" (strip raw)
              then strip raw :: List.filter (startswith "Day") (strip <$> lines)
              else List.filter (startswith "Day") (strip <$> lines)).
      now destruct (startswith "Day" (strip raw)).
    + auto.
Qed.

Lemma parse_workout_data_inv (data : string) :
  day_label <$> Parser.parse_workout_data data =
    List.filter (startswith "Day") (strip <$> split "010" data) /\
  Forall blank (Parser.parse_workout_data data).
Proof.
  unfold Parser.parse_workout_data. cbv zeta.
  set (start := {| Parser.workouts := []; Parser.current_workout := None;
                   Parser.current_exercise := None |}).
  destruct (parse_lines_days (split "010" data) start) as [Hlabels Hblank].
  specialize (Hblank ltac:(constructor)).
  change (day_label <$> all_days start) with (@nil string) in Hlabels.
  rewrite app_nil_l in Hlabels. rewrite <- Hlabels. clear Hlabels.
  unfold all_days in *.
  destruct (Parser.current_workout (foldl _ start _)) as [workout |]; simpl in *.
  - rewrite !fmap_app. simpl. apply Forall_app in Hblank as [Hdone Hopen].
    apply (proj1 (Forall_singleton _ _)) in Hopen.
    destruct (Parser.pending _) as [name |]; (split; [reflexivity |]);
      apply Forall_app; (split; [exact Hdone |]); constructor;
      auto using append_blank.
  - rewrite app_nil_r in *. now split.
Qed.

Lemma split_two_str_in (sep : ascii) (s a b : string) :
  split sep s = [a; b] -> str_in (String sep EmptyString) s = true.
Proof.
  revert a. induction s as [| c rest IH]; intros a Hsplit; [discriminate |].
  simpl in Hsplit. cbn [str_in startswith].
  destruct (Ascii.eqb c sep) eqn:Hc.
  - apply Ascii.eqb_eq in Hc. subst c. rewrite Ascii.eqb_refl. reflexivity.
  - destruct (split sep rest) as [| piece pieces] eqn:Hrest; [discriminate |].
    injection Hsplit as _ ->. rewrite (IH piece eq_refl). apply orb_true_r.
Qed.

Lemma set_day_exercises_nil workout :
  set_day_exercises (day_exercises workout ++ []) workout = workout.
Proof. rewrite app_nil_r. now destruct workout. Qed.

Lemma parse_line_skip raw s :
  Parser.current_workout s = None -> startswith "Day" (strip raw) = false ->
  Parser.parse_line raw s = s.
Proof. intros Hnone Hday. unfold Parser.parse_line. now rewrite Hday, Hnone. Qed.

Lemma parse_line_open raw s :
  startswith "Day" (strip raw) = true ->
  Parser.parse_line raw s =
  {| Parser.workouts := Parser.workouts s ++ option_list (Parser.current_workout s);
     Parser.current_workout :=
       Some {| day_label := strip raw; day_date := None; day_exercises := [] |};
     Parser.current_exercise := None |}.
Proof.
  intros Hday. unfold Parser.parse_line. cbv zeta. rewrite Hday.
  destruct (Parser.current_workout s); simpl; [reflexivity | now rewrite app_nil_r].
Qed.

Lemma parse_line_entries raw s workout :
  startswith "Day" (strip raw) = false ->
  Parser.current_workout s = Some workout ->
  Parser.workouts (Parser.parse_line raw s) = Parser.workouts s /\
  Parser.current_workout (Parser.parse_line raw s) =
    Some (set_day_exercises
            (day_exercises workout ++ (line_entries (Parser.pending s) raw).1) workout) /\
  Parser.pending (Parser.parse_line raw s) = (line_entries (Parser.pending s) raw).2.
Proof.
  intros Hday Hopen. unfold Parser.parse_line, line_entries. cbv zeta.
  rewrite Hday, Hopen.
  destruct (truthy (strip raw)) eqn:Hline;
    [| rewrite Hopen; simpl; now rewrite set_day_exercises_nil].
  assert (forall waiting,
             Parser.pending {| Parser.workouts := Parser.workouts s;
                               Parser.current_workout := waiting;
                               Parser.current_exercise := Some (strip raw) |} =
             Some (strip raw)) as Hname
    by (intros waiting; unfold Parser.pending; simpl; now rewrite Hline).
  assert (let s' := {| Parser.workouts := Parser.workouts s;
                          Parser.current_workout :=
                            Some match Parser.pending s with
                                 | Some name => Parser.append (Parser.entry name "" "") workout
                                 | None => workout
                                 end;
                          Parser.current_exercise := Some (strip raw) |} in
             Parser.workouts s' = Parser.workouts s /\
             Parser.current_workout s' =
               Some (set_day_exercises
                       (day_exercises workout ++ flush (Parser.pending s)) workout) /\
             Parser.pending s' = Some (strip raw)) as Hother.
  { intros s'. split; [reflexivity |]. split; [| apply Hname].
    unfold s'. simpl. destruct (Parser.pending s); simpl;
      [reflexivity | now rewrite set_day_exercises_nil]. }
  destruct (split "x" (strip raw)) as [| sets [| reps [| more pieces]]] eqn:Hsplit.
  - rewrite andb_false_r. exact Hother.
  - rewrite andb_false_r. exact Hother.
  - rewrite (split_two_str_in _ _ _ _ Hsplit). simpl.
    destruct (Parser.pending s) as [name |] eqn:Hpending; [now repeat split |].
    destruct (rsplit " " 2 (strip raw)) as [| exercise [| sets' [| reps' [| more pieces]]]];
      simpl; repeat split; try apply Hname; try exact Hpending;
      try (now rewrite set_day_exercises_nil).
  - rewrite andb_false_r. exact Hother.
Qed.

Lemma set_day_exercises_twice exercises exercises' workout :
  set_day_exercises exercises (set_day_exercises exercises' workout) =
  set_day_exercises exercises workout.
Proof. reflexivity. Qed.

(** The loop of [parse_workout_data] and the blocks of the text. *)
Lemma parse_lines_blocks (lines : list string) (s : Parser.State) :
  finish (foldl (fun s line => Parser.parse_line line s) s lines) =
  match Parser.current_workout s with
  | None => Parser.workouts s ++ block_days (day_blocks lines).2
  | Some workout =>
      let '(added, waiting) := block_entries (Parser.pending s) (day_blocks lines).1 in
      match (day_blocks lines).2 with
      | [] =>
          Parser.workouts s ++
          [set_day_exercises (day_exercises workout ++ added ++ flush waiting) workout]
      | blocks =>
          Parser.workouts s ++
          set_day_exercises (day_exercises workout ++ added) workout :: block_days blocks
      end
  end.
Proof.
  revert s. induction lines as [| raw lines IH]; intros s.
  - simpl. unfold finish. destruct (Parser.current_workout s); [reflexivity |].
    now rewrite app_nil_r.
  - change (foldl (fun s line => Parser.parse_line line s) s (raw :: lines))
      with (foldl (fun s line => Parser.parse_line line s) (Parser.parse_line raw s) lines).
    rewrite IH. clear IH. cbn [day_blocks].
    destruct (day_blocks lines) as [body blocks]. cbn [fst snd].
    destruct (startswith "Day" (strip raw)) eqn:Hday; cbn [fst snd].
    + rewrite (parse_line_open raw s Hday).
      cbn [Parser.current_workout Parser.workouts]. unfold Parser.pending at 1.
      cbn [Parser.current_exercise block_entries day_exercises].
      assert (forall last,
                block_day last (strip raw, body) =
                set_day_exercises
                  (if last
                   then (block_entries None body).1 ++ flush (block_entries None body).2
                   else (block_entries None body).1)
                  {| day_label := strip raw; day_date := None; day_exercises := [] |})
        as Hblock
        by (intros last; unfold block_day; now destruct (block_entries None body)).
      destruct (block_entries None body) as [added waiting]. cbn [fst snd] in Hblock.
      destruct (Parser.current_workout s) as [workout |];
        destruct blocks as [| block blocks]; cbn [block_days option_list];
        rewrite ?Hblock, ?set_day_exercises_nil, ?app_nil_r, <- ?app_assoc; reflexivity.
    + destruct (Parser.current_workout s) as [workout |] eqn:Hopen.
      * destruct (parse_line_entries raw s workout Hday Hopen) as (-> & -> & ->).
        cbn [block_entries].
        destruct (line_entries (Parser.pending s) raw) as [added waiting]. cbn [fst snd].
        destruct (block_entries waiting body) as [more waiting'].
        rewrite set_day_exercises_twice.
        cbn [day_exercises set_day_exercises]. rewrite <- !app_assoc.
        now destruct blocks.
      * rewrite (parse_line_skip raw s Hopen Hday), Hopen. reflexivity.
Qed.

Lemma parse_workout_data_finish (data : string) :
  Parser.parse_workout_data data =
  finish (foldl (fun s line => Parser.parse_line line s)
                {| Parser.workouts := []; Parser.current_workout := None;
                   Parser.current_exercise := None |}
                (split "010" data)).
Proof.
  unfold Parser.parse_workout_data, finish. cbv zeta.
  destruct (Parser.current_workout _) as [workout |]; [| reflexivity].
  destruct (Parser.pending _); simpl; [reflexivity |].
  now rewrite set_day_exercises_nil.
Qed.

Lemma parse_workout_data_blocks (data : string) :
  Parser.parse_workout_data data = block_days (day_blocks (split "010" data)).2.
Proof. rewrite parse_workout_data_finish, parse_lines_blocks. reflexivity. Qed.

(** [parse_workout_data] returns one day for each line of the text that,
    stripped, starts with "Day", in order and labelled with the stripped
    line.  The entries of a day are those of its block, the lines up to the
    next such line, read line by line as [line_entries] says; a name still
    waiting for its sets and reps at the end of a block is entered without
    them in the last block and dropped in the others; the lines before the
    first "Day" line give nothing; no day has a date. *)
Theorem parse_workout_data_days (data : string) :
  Parser.parse_workout_data data = block_days (day_blocks (split "010" data)).2 /\
  day_label <$> Parser.parse_workout_data data =
    List.filter (startswith "Day") (strip <$> split "010" data) /\
  length (Parser.parse_workout_data data) =
    length (List.filter (startswith "Day") (strip <$> split "010" data)) /\
  Forall (fun day => startswith "Day" (day_label day) = true /\ day_date day = None)
         (Parser.parse_workout_data data).
Proof.
  split; [rewrite parse_workout_data_finish, parse_lines_blocks; reflexivity |].
  destruct (parse_workout_data_inv data) as [Hlabels Hblank].
  split; [exact Hlabels |]. split.
  - rewrite <- Hlabels. now rewrite length_fmap.
  - apply Forall_forall. intros day Hday. split.
    + assert (day_label day ∈ List.filter (startswith "Day") (strip <$> split "010" data))
        as Hin by (rewrite <- Hlabels; now apply list_elem_of_fmap_2).
      apply list_elem_of_In, filter_In in Hin. apply Hin.
    + now apply (proj1 (Forall_forall _ _) Hblank day).
Qed.

Section ParsedPlans.
Context `{Builtins}.

Lemma recalculate_day_blank (day : Day) (st : Planner) :
  py_float "" = None -> blank day -> recalculate_day day st = st.
Proof.
  intros Hfloat [Hdate Hweights]. unfold recalculate_day. rewrite Hdate. cbv zeta.
  assert (set_current_date (current_date st) st = st) as -> by (now destruct st).
  induction Hweights as [| exercise exercises Hweight _ IH]; [reflexivity |].
  simpl. rewrite update_prs_no_weight; [exact IH |]. now rewrite Hweight.
Qed.

(** A plan read from text sets no PR: [float('')] raises ValueError, so
    every entry has load 0 and [update_prs] skips it, and [recalculate_prs]
    on the plan, cut into weeks by [restructure_workouts], only resets the
    PRs to the zero-valued records of [initialize_prs]. *)
Theorem parsed_plan_sets_no_pr (data : string) (st : Planner) :
  py_float "" = None ->
  workouts st = restructure_workouts (Flat (Parser.parse_workout_data data)) ->
  Forall (fun day =>
            Forall (fun exercise =>
                      ex_weight exercise = ""%string /\
                      calculate_load exercise = Ok (Finite 0) /\
                      forall st', update_prs exercise st' = st')
                   (day_exercises day))
         (concat (workouts st)) /\
  recalculate_prs st = set_prs (initialize_prs st) st /\
  (forall name pr, prs (recalculate_prs st) !! name = Some pr -> pr = new_pr).
Proof.
  intros Hfloat Hplan.
  assert (Forall blank (concat (workouts st))) as Hblank.
  { rewrite Hplan. unfold restructure_workouts.
    pose proof (restructure_step_inv (Parser.parse_workout_data data) [] []) as Hinv.
    destruct (foldl restructure_step ([], []) (Parser.parse_workout_data data))
      as [restructured week].
    destruct Hinv as (_ & _ & Hconcat); [constructor | simpl; lia |].
    simpl in Hconcat.
    pose proof (proj2 (parse_workout_data_inv data)) as Hall.
    rewrite <- Hconcat in Hall.
    destruct week as [| day week]; [now rewrite app_nil_r in Hall |].
    now rewrite concat_app, concat_cons, concat_nil, app_nil_r. }
  assert (recalculate_prs st = set_prs (initialize_prs st) st) as Hrecalc.
  { unfold recalculate_prs. cbv zeta.
    set (st0 := set_prs (initialize_prs st) st).
    change (workouts st0) with (workouts st).
    revert Hblank. generalize (workouts st) as weeks. generalize st0 as s.
    intros s weeks. induction weeks as [| week weeks IH]; intros Hblank; [reflexivity |].
    rewrite concat_cons in Hblank. apply Forall_app in Hblank as [Hweek Hrest].
    simpl.
    assert (foldl (fun st day => recalculate_day day st) s week = s) as ->;
      [| exact (IH Hrest)].
    clear IH Hrest. induction Hweek as [| day days Hday _ IHdays]; [reflexivity |].
    simpl. now rewrite recalculate_day_blank. }
  split; [| split; [exact Hrecalc |]].
  - eapply Forall_impl; [exact Hblank |]. intros day [_ Hweights].
    eapply Forall_impl; [exact Hweights |]. intros exercise Hweight. simpl in Hweight.
    split; [exact Hweight |]. split.
    + apply calculate_load_no_weight. now rewrite Hweight.
    + intros st'. apply update_prs_no_weight. now rewrite Hweight.
  - intros name pr. rewrite Hrecalc. simpl. rewrite initialize_prs_lookup.
    destruct (decide _); [now intros [= <-] | discriminate].
Qed.

End ParsedPlans.

Section CellEdits.
Context `{Builtins}.

(** [on_focus_out] after an edit of a cell of the viewed day: the entry is
    rewritten in the plan first, and its load is computed next.  When that
    load raises, for a [sets * reps] too large for a float, the handler
    raises with the plan already rewritten.  When every day of the
    rewritten plan replays, so that the load returns, the edit goes through
    [update_prs] under the current date, and the planner is refreshed,
    provided the entry has a PR record afterwards.  The entry has no
    record, and reading it raises KeyError with the plan already rewritten,
    when the name of the edited entry is new to the PRs and its weight or
    reps do not parse: renaming an exercise that has no weight yet is
    enough. *)
Theorem on_focus_out_records (st : Planner) (pos dpos index : nat) (week : list Day)
    (workout : Day) (exercise : Exercise) (column : Column) (new_value : string) :
  at_position st pos dpos ->
  workouts st !! pos = Some week ->
  week !! dpos = Some workout ->
  day_exercises workout !! index = Some exercise ->
  total_weeks st = len (workouts st) ->
  engine_ready st ->
  let edited := set_cell column new_value exercise in
  let st1 :=
    set_workouts
      (with_day pos dpos
         (set_day_exercises (<[index := edited]> (day_exercises workout)) workout)
         (workouts st)) st in
  write_cell index column new_value st = Ok st1 /\
  (forall e, calculate_load edited = Raise e ->
             on_focus_out index column new_value st = Raise e) /\
  (plan_replays (workouts st1) ->
   is_Some (prs (update_prs edited st1) !! ex_name edited) ->
   exists st',
     on_focus_out index column new_value st = Ok st' /\
     workouts st' = workouts st1 /\
     prs st' = prs (update_prs edited st1) /\
     at_position st' pos dpos /\ current_date st' = current_date st) /\
  (prs st !! ex_name edited = None ->
   py_float (ex_weight edited) = None \/ py_int (ex_reps edited) = None ->
   on_focus_out index column new_value st = Raise KeyError).
Proof.
  intros Hat Hweek Hday Hex Htotal Hready edited st1.
  pose proof (lookup_lt_Some _ _ _ Hday) as Hdlt.
  pose proof (lookup_lt_Some _ _ _ Hex) as Hilt.
  destruct (at_position_view st pos dpos week workout Hat Hweek Hday)
    as (_ & _ & Hrange & Hviewed & Hset).
  set (day1 := set_day_exercises (<[index := edited]> (day_exercises workout)) workout) in *.
  assert (write_cell index column new_value st = Ok st1) as Hwrite.
  { unfold write_cell. rewrite Hviewed. cbn [mbind Res_bind].
    rewrite (py_index_nat _ _ _ Hex). cbn [mbind Res_bind]. apply Hset. }
  destruct (with_day_lookup pos dpos week day1 (workouts st) Hweek Hdlt)
    as (Hweek1 & Hday1 & Hlen1).
  destruct (at_position_view st1 pos dpos _ day1 Hat Hweek1 Hday1)
    as (_ & _ & _ & Hviewed1 & _).
  assert (py_index (day_exercises day1) (Z.of_nat index) = Ok edited) as Hedited
    by (apply py_index_nat; simpl; now apply list_lookup_insert_eq).
  assert (on_focus_out index column new_value st =
          (_ ← calculate_load edited;
           match prs (update_prs edited st1) !! ex_name edited with
           | Some _ => update_volume_load (update_prs edited st1)
           | None => Raise KeyError
           end)) as Hrun.
  { unfold on_focus_out. rewrite Hrange. cbn [mbind Res_bind].
    rewrite Hwrite. cbn [mbind Res_bind]. rewrite Hviewed1. cbn [mbind Res_bind].
    now rewrite Hedited. }
  split; [exact Hwrite |]. split; [| split].
  - intros e Hraise. rewrite Hrun, Hraise. reflexivity.
  - intros Hparse [pr Hpr].
    destruct (viewed_day_replays pos dpos _ day1 (workouts st1) Hweek1 Hday1 Hparse)
      as [_ Hloads].
    destruct (proj1 (Forall_forall _ _) Hloads edited) as [load Hload];
      [simpl; eapply list_elem_of_lookup_2, list_lookup_insert_eq; exact Hilt |].
    rewrite Hrun, Hload. cbn [mbind Res_bind]. rewrite Hpr.
    assert (update_prs edited st1 = set_prs (prs (update_prs edited st1)) st1) as Hframe
      by (now rewrite update_prs_frame).
    destruct (update_volume_load_returns (update_prs edited st1))
      as (st' & -> & Hom & _).
    + rewrite Hframe. simpl. rewrite Htotal. unfold len. now rewrite Hlen1.
    + rewrite Hframe. exact Hparse.
    + rewrite Hframe. exact Hready.
    + exists st'. split; [reflexivity |].
      destruct (only_muscles_fields _ _ Hom) as (Hw & _ & Hc & Hd & Hdate' & Hprs).
      rewrite Hw, Hprs, Hdate'. rewrite Hframe at 1 3. simpl.
      repeat split; try reflexivity.
      * rewrite Hc, Hframe. apply Hat.
      * rewrite Hd, Hframe. apply Hat.
      * now rewrite Hframe.
  - intros Hnew Hunparsed. rewrite Hrun.
    assert (calculate_load edited = Ok (Finite 0)) as ->.
    { destruct Hunparsed as [Hweight | Hreps].
      - now apply calculate_load_no_weight.
      - unfold calculate_load. rewrite Hreps.
        now destruct (py_int (ex_sets edited)). }
    cbn [mbind Res_bind].
    assert (update_prs edited st1 = st1) as ->
      by (destruct Hunparsed; [now apply update_prs_no_weight | now apply update_prs_no_reps]).
    change (prs st1) with (prs st). now rewrite Hnew.
Qed.

End CellEdits.

(** ** Renumbering depends on the dates and exercises only *)

Lemma content_renumber_week day_number week :
  content <$> (renumber_week day_number week).1 = content <$> week.
Proof.
  rewrite renumber_week_imap. apply list_eq. intros j.
  rewrite !list_lookup_fmap, list_lookup_imap. now destruct (week !! j).
Qed.

Lemma shape_renumber day_number weeks :
  shape (renumber_weeks day_number weeks) = shape weeks.
Proof.
  revert day_number. induction weeks as [| week weeks IH]; intros day_number; [reflexivity |].
  simpl renumber_weeks. pose proof (content_renumber_week day_number week) as Hweek.
  destruct (renumber_week day_number week) as [week' next]. cbn [fst] in Hweek.
  unfold shape in *. rewrite !fmap_cons, Hweek. f_equal. apply IH.
Qed.

Lemma renumber_week_ext day_number week week' :
  content <$> week = content <$> week' ->
  renumber_week day_number week = renumber_week day_number week'.
Proof.
  revert day_number week'. induction week as [| day week IH]; intros day_number week' Heq.
  - symmetry in Heq. apply fmap_nil_inv in Heq. now subst.
  - destruct week' as [| day' week']; [discriminate |].
    rewrite !fmap_cons in Heq. injection Heq as Hdate Hex Hrest.
    simpl. rewrite (IH (day_number + 1) week' Hrest).
    destruct (renumber_week (day_number + 1) week') as [rest next].
    unfold set_day_label. now rewrite Hdate, Hex.
Qed.

Lemma renumber_weeks_ext day_number weeks weeks' :
  shape weeks = shape weeks' ->
  renumber_weeks day_number weeks = renumber_weeks day_number weeks'.
Proof.
  revert day_number weeks'. induction weeks as [| week weeks IH]; intros day_number weeks' Heq.
  - symmetry in Heq. apply fmap_nil_inv in Heq. now subst.
  - destruct weeks' as [| week' weeks']; [discriminate |].
    unfold shape in Heq. rewrite !fmap_cons in Heq. injection Heq as Hweek Hrest.
    simpl. rewrite (renumber_week_ext day_number week week' Hweek).
    destruct (renumber_week day_number week') as [renumbered next].
    f_equal. now apply IH.
Qed.

Lemma shape_insert pos week weeks :
  shape (<[pos := week]> weeks) = <[pos := content <$> week]> (shape weeks).
Proof. unfold shape. apply list_fmap_insert. Qed.

Lemma shape_lookup pos week weeks :
  weeks !! pos = Some week -> shape weeks !! pos = Some (content <$> week).
Proof. intros Hweek. unfold shape. now rewrite list_lookup_fmap, Hweek. Qed.

(** The plan after a week is edited and the days are renumbered, then the
    week is edited back and the days are renumbered again. *)
Lemma renumber_edit_back weeks pos week edited week1 back :
  weeks !! pos = Some week ->
  renumber_weeks 1 (<[pos := edited]> weeks) !! pos = Some week1 ->
  content <$> back = content <$> week ->
  renumber_weeks 1 (<[pos := back]> (renumber_weeks 1 (<[pos := edited]> weeks))) =
  renumber_weeks 1 weeks.
Proof.
  intros Hweek Hweek1 Hback. apply renumber_weeks_ext.
  rewrite shape_insert, shape_renumber, shape_insert, list_insert_insert_eq, Hback.
  apply list_insert_id. now apply shape_lookup.
Qed.

Lemma names_known_renumbered `{Builtins} p day_number week :
  Forall (names_known p) week ->
  Forall (names_known p) (renumber_week day_number week).1.
Proof.
  intros Hknown. rewrite renumber_week_imap. apply Forall_forall. intros day Hday.
  apply list_elem_of_lookup_1 in Hday as [j Hj]. rewrite list_lookup_imap in Hj.
  destruct (week !! j) as [d |] eqn:Hd; [| discriminate]. injection Hj as <-.
  apply (proj1 (Forall_forall _ _) Hknown d). eapply list_elem_of_lookup_2. exact Hd.
Qed.

Lemma renumbered_labels day_number week :
  day_label <$> (renumber_week day_number week).1 = day_name <$> seqZ day_number (len week) /\
  NoDup (day_name <$> seqZ day_number (len week)).
Proof.
  destruct (renumber_week_spec day_number week) as (_ & _ & Hlabels & _).
  split; [exact Hlabels |]. apply NoDup_fmap_2; [apply _ | apply NoDup_seqZ].
Qed.

Section DayRoundTrips.
Context `{Builtins}.

(** [add_day] on a week with room, in a plan every day of which replays
    (its date parses and the load of each of its entries returns).  With
    [n] the number of days up to and including the current week, plus one:
    it appends to the current week a day with no exercise, dated [n - 1]
    days after today, renumbers all days (which leaves the new day
    "Day n"), views the new day, keeps the PRs, and reports
    "Added Day n". *)
Theorem add_day_appends (st : Planner) (pos : nat) (week : list Day) :
  py_pos (workouts st) (current_week st - 1) = Ok pos ->
  workouts st !! pos = Some week ->
  len week < 7 ->
  current_week st <= len (workouts st) ->
  plan_replays (workouts st) ->
  is_Some (strptime
             (strftime (today + (len (concat (take pos (workouts st))) + len week)))) ->
  exists st',
    add_day st =
    Ok (st', [ShowInfo "Day Added"
                ("Added " +:+ day_name (len (concat (take pos (workouts st))) + len week + 1) +:+
                 " to the current week and renumbered subsequent days.")]) /\
    workouts st' =
      renumber_weeks 1
        (<[pos := week ++
                  [{| day_label := day_name (len (concat (take pos (workouts st))) + len week + 1);
                      day_date := Some (strftime (today + (len (concat (take pos (workouts st)))
                                                          + len week)));
                      day_exercises := [] |}]]> (workouts st)) /\
    current_week st' = current_week st /\
    current_day st' = len week /\
    prs st' = prs st.
Proof.
  intros Hpos Hweek Hroom Hcw Hparse Hnew.
  destruct (add_day_runs st pos week Hpos Hweek Hroom Hcw Hparse Hnew)
    as (st' & Hrun & Hw & Hc & Hd & Hprs & _).
  exists st'. repeat split; assumption.
Qed.

(** [remove_day] once a label of the current week is picked in the dialog,
    in a week of more than one day of a plan every day of which replays: it
    drops the first day of the week that carries the label, renumbers all
    days, keeps the viewed index unless it now lies past the week's end
    (then the last day is viewed), keeps the week, and reports the label
    picked. *)
Theorem remove_day_removes (st : Planner) (pos index : nat) (week : list Day)
    (selected : string) :
  py_pos (workouts st) (current_week st - 1) = Ok pos ->
  workouts st !! pos = Some week ->
  1 < len week ->
  current_week st <= len (workouts st) ->
  0 <= current_day st ->
  index_of selected (map day_label week) = Ok index ->
  plan_replays (workouts st) ->
  Forall (names_known (prs st)) week ->
  exists st' removed,
    remove_day (Some selected) st =
    Ok (st', [ShowInfo "Day Removed"
                ("Removed " +:+ selected +:+
                 " from the current week and renumbered subsequent days.")]) /\
    week !! index = Some removed /\
    day_label removed = selected /\
    (forall j day, (j < index)%nat -> week !! j = Some day -> day_label day <> selected) /\
    workouts st' = renumber_weeks 1 (<[pos := delete index week]> (workouts st)) /\
    current_week st' = current_week st /\
    current_day st' = Z.min (current_day st) (len week - 2).
Proof.
  intros Hpos Hweek Hmany Hcw Hcd Hindex Hparse Hknown.
  destruct (remove_day_runs st pos index week selected Hpos Hweek Hmany Hcw Hcd Hindex
              Hparse Hknown)
    as (st' & removed & Hrun & Hremoved & Hlabel & Hfirst & Hw & Hc & Hd & _).
  exists st', removed. repeat split; assumption.
Qed.

(** [swap_days] once two labels of the current week at different positions
    are picked, in a plan every day of which replays: the two days change
    places (each is the first day carrying its label), all days are
    renumbered, so the labels stay in order while the dates and exercises
    move, and the viewed week and index stay. *)
Theorem swap_days_exchanges (st : Planner) (pos i1 i2 : nat) (week : list Day)
    (day1 day2 : string) :
  py_pos (workouts st) (current_week st - 1) = Ok pos ->
  workouts st !! pos = Some week ->
  current_week st <= len (workouts st) ->
  0 <= current_day st < len week ->
  index_of day1 (day_label <$> week) = Ok i1 ->
  index_of day2 (day_label <$> week) = Ok i2 ->
  i1 <> i2 ->
  plan_replays (workouts st) ->
  Forall (names_known (prs st)) week ->
  exists st' first second,
    swap_days (Some (day1, day2)) st =
    Ok (st', [ShowInfo "Swap Successful"
                "The selected days have been swapped and day numbers updated."]) /\
    week !! i1 = Some first /\ day_label first = day1 /\
    week !! i2 = Some second /\ day_label second = day2 /\
    workouts st' =
      renumber_weeks 1
        (<[pos := <[i2 := first]> (<[i1 := second]> week)]> (workouts st)) /\
    current_week st' = current_week st /\
    current_day st' = current_day st.
Proof.
  intros Hpos Hweek Hcw Hcd Hi1 Hi2 Hne Hparse Hknown.
  destruct (swap_days_runs st pos i1 i2 week day1 day2 Hpos Hweek Hcw Hcd Hi1 Hi2 Hne
              Hparse Hknown)
    as (st' & first & second & Hrun & H1 & Hl1 & H2 & Hl2 & Hw & Hc & Hd & _).
  exists st', first, second. repeat split; assumption.
Qed.

(** [add_day] is undone by [remove_day] on the label it reports, up to the
    numbering: on a week that has a day and room for one more, in a plan
    every day of which replays, adding a day and then removing "Day n"
    leaves the plan as [renumber_all_days] would leave the plan given, at
    the same week, viewing its last day. *)
Theorem add_day_then_remove_day (st : Planner) (pos : nat) (week : list Day) :
  py_pos (workouts st) (current_week st - 1) = Ok pos ->
  workouts st !! pos = Some week ->
  0 < len week < 7 ->
  current_week st <= len (workouts st) ->
  plan_replays (workouts st) ->
  is_Some (strptime
             (strftime (today + (len (concat (take pos (workouts st))) + len week)))) ->
  Forall (names_known (prs st)) week ->
  let added := day_name (len (concat (take pos (workouts st))) + len week + 1) in
  exists st1 st2,
    add_day st =
    Ok (st1, [ShowInfo "Day Added"
                ("Added " +:+ added +:+
                 " to the current week and renumbered subsequent days.")]) /\
    remove_day (Some added) st1 =
    Ok (st2, [ShowInfo "Day Removed"
                ("Removed " +:+ added +:+
                 " from the current week and renumbered subsequent days.")]) /\
    workouts st2 = workouts (renumber_all_days st) /\
    current_week st2 = current_week st /\
    current_day st2 = len week - 1.
Proof.
  intros Hpos Hweek [Hsome Hroom] Hcw Hparse Hnew Hknown added.
  pose proof (lookup_lt_Some _ _ _ Hweek) as Hlt.
  destruct (add_day_runs st pos week Hpos Hweek Hroom Hcw Hparse Hnew)
    as (st1 & Hadd & Hw1 & Hc1 & Hd1 & Hp1 & _).
  set (before := len (concat (take pos (workouts st)))) in *.
  set (new_day := {| day_label := day_name (before + len week + 1);
                     day_date := Some (strftime (today + (before + len week)));
                     day_exercises := [] |}) in *.
  set (edited := <[pos := week ++ [new_day]]> (workouts st)) in *.
  assert (edited !! pos = Some (week ++ [new_day])) as Hedited
    by (apply list_lookup_insert_eq; exact Hlt).
  set (week1 := (renumber_week (1 + before) (week ++ [new_day])).1).
  assert (workouts st1 !! pos = Some week1) as Hweek1.
  { rewrite Hw1, (renumber_weeks_lookup _ _ _ _ Hedited).
    unfold edited. now rewrite take_insert_ge by lia. }
  assert (length week1 = S (length week)) as Hlen1.
  { unfold week1. rewrite renumber_week_imap, length_imap, length_app. simpl. lia. }
  assert (length (workouts st1) = length (workouts st)) as Hlen
    by (rewrite Hw1, renumber_weeks_length; unfold edited; now rewrite length_insert).
  destruct (renumbered_labels (1 + before) (week ++ [new_day])) as [Hlabels Hnodup].
  fold week1 in Hlabels.
  assert (index_of added (map day_label week1) = Ok (length week)) as Hindex.
  { rewrite map_fmap, Hlabels. apply index_of_NoDup; [exact Hnodup |].
    rewrite list_lookup_fmap, lookup_seqZ_lt
      by (unfold len; rewrite length_app; simpl; lia).
    simpl. unfold added, len. do 2 f_equal. lia. }
  assert (plan_replays (workouts st1)) as Hparse1.
  { rewrite Hw1. apply plan_replays_renumber. unfold plan_replays, edited.
    destruct (concat_insert (workouts st) pos week (week ++ [new_day]) Hweek) as [Hold ->].
    unfold plan_replays in Hparse. rewrite Hold in Hparse.
    apply Forall_app in Hparse as [Htake Hrest].
    apply Forall_app in Hrest as [Hmid Hdrop].
    repeat (apply Forall_app; split); try assumption.
    constructor; [split; [exact Hnew | constructor] | constructor]. }
  assert (Forall (names_known (prs st1)) week1) as Hknown1.
  { rewrite Hp1. apply names_known_renumbered, Forall_app. split; [exact Hknown |].
    constructor; [constructor | constructor]. }
  destruct (remove_day_runs st1 pos (length week) week1 added)
    as (st2 & removed & Hremove & _ & _ & _ & Hw2 & Hc2 & Hd2 & _); try assumption.
  { rewrite Hc1, <- Hpos. now apply py_pos_same_length. }
  { unfold len in *. rewrite Hlen1. lia. }
  { rewrite Hc1. unfold len in *. rewrite Hlen. lia. }
  { rewrite Hd1. unfold len. lia. }
  exists st1, st2. split; [exact Hadd |]. split; [exact Hremove |].
  split; [| split; [congruence |]].
  - rewrite Hw2, Hw1. fold edited. simpl.
    assert (renumber_weeks 1 edited !! pos = Some week1) as Hr by (now rewrite <- Hw1).
    apply (renumber_edit_back _ _ week _ week1); try assumption.
    unfold week1. rewrite list_fmap_delete, content_renumber_week, fmap_app.
    rewrite delete_take_drop, <- (length_fmap content week).
    rewrite take_app_length, drop_ge by (rewrite length_app; simpl; lia).
    apply app_nil_r.
  - rewrite Hd2, Hd1. unfold len in *. rewrite Hlen1. lia.
Qed.

End DayRoundTrips.

Section SwapTwice.
Context `{Builtins}.

(** [swap_days] is its own inverse on a numbered plan every day of which
    replays: when the labels are the ones [renumber_all_days] gives,
    picking the same two labels a second time puts the two days back, and
    the plan is the one given. *)
Theorem swap_days_twice (st : Planner) (pos i1 i2 : nat) (week : list Day)
    (day1 day2 : string) :
  workouts (renumber_all_days st) = workouts st ->
  py_pos (workouts st) (current_week st - 1) = Ok pos ->
  workouts st !! pos = Some week ->
  current_week st <= len (workouts st) ->
  0 <= current_day st < len week ->
  index_of day1 (day_label <$> week) = Ok i1 ->
  index_of day2 (day_label <$> week) = Ok i2 ->
  i1 <> i2 ->
  plan_replays (workouts st) ->
  Forall (names_known (prs st)) week ->
  exists st1 st2 shown,
    swap_days (Some (day1, day2)) st = Ok (st1, shown) /\
    swap_days (Some (day1, day2)) st1 = Ok (st2, shown) /\
    workouts st2 = workouts st /\
    current_week st2 = current_week st /\
    current_day st2 = current_day st.
Proof.
  intros Hnumbered Hpos Hweek Hcw Hcd Hi1 Hi2 Hne Hparse Hknown.
  change (workouts (renumber_all_days st)) with (renumber_weeks 1 (workouts st)) in Hnumbered.
  pose proof (lookup_lt_Some _ _ _ Hweek) as Hlt.
  destruct (swap_days_runs st pos i1 i2 week day1 day2 Hpos Hweek Hcw Hcd Hi1 Hi2 Hne
              Hparse Hknown)
    as (st1 & first & second & Hrun1 & Hfirst & _ & Hsecond & _ & Hw1 & Hc1 & Hd1 & Hgrows).
  set (swapped := <[i2 := first]> (<[i1 := second]> week)) in *.
  set (edited := <[pos := swapped]> (workouts st)) in *.
  set (before := len (concat (take pos (workouts st)))).
  assert (edited !! pos = Some swapped) as Hedited
    by (apply list_lookup_insert_eq; exact Hlt).
  set (week1 := (renumber_week (1 + before) swapped).1).
  assert (workouts st1 !! pos = Some week1) as Hweek1.
  { rewrite Hw1, (renumber_weeks_lookup _ _ _ _ Hedited).
    unfold edited. now rewrite take_insert_ge by lia. }
  assert (length swapped = length week) as Hlens
    by (unfold swapped; now rewrite !length_insert).
  assert (length week1 = length week) as Hlen1
    by (unfold week1; now rewrite renumber_week_imap, length_imap).
  assert (length (workouts st1) = length (workouts st)) as Hlen
    by (rewrite Hw1, renumber_weeks_length; unfold edited; now rewrite length_insert).
  assert (day_label <$> week1 = day_label <$> week) as Hlabels.
  { assert (week = (renumber_week (1 + before) week).1) as Hself.
    { pose proof (renumber_weeks_lookup 1 _ _ _ Hweek) as Hr.
      rewrite Hnumbered, Hweek in Hr. now injection Hr. }
    transitivity (day_label <$> (renumber_week (1 + before) week).1);
      [| now rewrite <- Hself].
    unfold week1.
    rewrite (proj1 (renumbered_labels _ swapped)), (proj1 (renumbered_labels _ week)).
    unfold len. now rewrite Hlens. }
  assert (content <$> week1 = content <$> swapped) as Hcontent
    by apply content_renumber_week.
  assert (plan_replays (workouts st1)) as Hparse1.
  { rewrite Hw1. apply plan_replays_renumber.
    apply (plan_replays_sub _ _ week); try assumption. now apply swap_subseteq. }
  assert (Forall (names_known (prs st1)) week1) as Hknown1.
  { apply names_known_renumbered. apply Forall_forall. intros day Hday.
    apply (names_known_grows (prs st)); [exact Hgrows |].
    apply (proj1 (Forall_forall _ _) Hknown day).
    now apply (swap_subseteq week i1 i2 first second). }
  destruct (swap_days_runs st1 pos i1 i2 week1 day1 day2)
    as (st2 & first1 & second1 & Hrun2 & Hfirst1 & _ & Hsecond1 & _ & Hw2 & Hc2 & Hd2 & _);
    try assumption.
  { rewrite Hc1, <- Hpos. now apply py_pos_same_length. }
  { rewrite Hc1. unfold len in *. rewrite Hlen. lia. }
  { rewrite Hd1. unfold len in *. rewrite Hlen1. lia. }
  { now rewrite Hlabels. }
  { now rewrite Hlabels. }
  eexists st1, st2, _. split; [exact Hrun1 |]. split; [exact Hrun2 |].
  split; [| split; congruence].
  rewrite Hw2, Hw1. fold edited.
  transitivity (renumber_weeks 1 (workouts st)); [| exact Hnumbered].
  assert (renumber_weeks 1 edited !! pos = Some week1) as Hr by (now rewrite <- Hw1).
  apply (renumber_edit_back _ _ week _ week1); try assumption.
  assert (forall j, (content <$> swapped) !! j =
                    if decide (j = i2) then Some (content first)
                    else if decide (j = i1) then Some (content second)
                    else (content <$> week) !! j) as Hswapped.
  { intros j. rewrite list_lookup_fmap. unfold swapped.
    rewrite (swap_lookup week i1 i2 j first second Hfirst Hsecond).
    destruct (decide (j = i2)); [reflexivity |].
    destruct (decide (j = i1)); [reflexivity |]. now rewrite list_lookup_fmap. }
  assert (content first1 = content second /\ content second1 = content first) as [Hc_first Hc_second].
  { split.
    - pose proof (f_equal (fmap content) Hfirst1) as Hf.
      rewrite <- list_lookup_fmap in Hf. rewrite Hcontent, Hswapped in Hf.
      destruct (decide (i1 = i2)); [contradiction |].
      destruct (decide (i1 = i1)); [| contradiction].
      unfold content in *. simpl in Hf. congruence.
    - pose proof (f_equal (fmap content) Hsecond1) as Hf.
      rewrite <- list_lookup_fmap in Hf. rewrite Hcontent, Hswapped in Hf.
      destruct (decide (i2 = i2)); [| contradiction].
      unfold content in *. simpl in Hf. congruence. }
  apply list_eq. intros j. rewrite list_lookup_fmap.
  rewrite (swap_lookup week1 i1 i2 j first1 second1 Hfirst1 Hsecond1).
  destruct (decide (j = i2)) as [-> | Hj2].
  - simpl. rewrite Hc_first, list_lookup_fmap, Hsecond. reflexivity.
  - destruct (decide (j = i1)) as [-> | Hj1].
    + simpl. rewrite Hc_second, list_lookup_fmap, Hfirst. reflexivity.
    + rewrite <- list_lookup_fmap, Hcontent, Hswapped.
      destruct (decide (j = i2)); [contradiction |].
      destruct (decide (j = i1)); [contradiction | reflexivity].
Qed.

End SwapTwice.

(** * The properties at sample inputs *)

(** From here on the builtins are [dec_builtins]. *)
#[global] Existing Instance dec_builtins.

(** The sample entry has load 1500; an entry with a word for its sets has
    load 0. *)
Lemma calculate_load_spec_witness :
  calculate_load bench_press = Ok (Finite 1500) /\
  calculate_load (entry "Bench Press" "three" "5" "100") = Ok (Finite 0).
Proof.
  split.
  - apply (proj1 (calculate_load_spec bench_press) 3 5 (Finite 100));
      vm_compute; reflexivity.
  - apply (proj2 (calculate_load_spec (entry "Bench Press" "three" "5" "100"))).
    left. reflexivity.
Defined.

(** C9, as stated, fails: three sets of one rep at 0.1 have the load
    0.30000000000000004, the double nearest to three times the double
    nearest to 0.1, which is neither three times 0.1 nor three times that
    double. *)
Lemma calculate_load_not_exact :
  py_int "3" = Some 3 /\ py_int "1" = Some 1 /\
  py_float "0.1" = Some (Finite (3602879701896397 # 36028797018963968)) /\
  calculate_load (entry "Bench Press" "3" "1" "0.1") =
    Ok (Finite (1351079888211149 # 4503599627370496)) /\
  ~ (1351079888211149 # 4503599627370496 == 3 * 1 * (1 # 10))%Q /\
  ~ (1351079888211149 # 4503599627370496 ==
     3 * 1 * (3602879701896397 # 36028797018963968))%Q.
Proof.
  do 4 (split; [vm_compute; reflexivity |]).
  split; intros Heq; vm_compute in Heq; discriminate Heq.
Defined.

(** What the [except] clause misses, on an entry: with a 1 followed by 400
    zeros for its sets, the int [sets * reps] is too large for a float and
    [calculate_load] raises OverflowError; so does every engage call on
    the entry, the sum of [update_volume_load] and the refresh
    [load_workout_data] of a plan that holds it. *)
Lemma calculate_load_overflows :
  py_int huge_sets = Some (10 ^ 400) /\
  calculate_load huge_entry = Raise OverflowError /\
  engage_muscles huge_entry 738886 (planner_of []) = Raise OverflowError /\
  update_volume_load (planner_of [huge_day_week]) = Raise OverflowError /\
  load_workout_data (planner_of [huge_day_week]) = Raise OverflowError.
Proof. repeat split; vm_compute; reflexivity. Qed.

(** Weights that are not finite.  An infinite weight gives an infinite
    load, or nan with no sets, and an engage call with an infinite load
    takes the muscles to the threshold; a nan weight gives a nan load,
    which is not above 0, so that the engage call changes nothing, and
    [update_prs] enters it in the history without moving the PR. *)
Lemma loads_not_finite :
  calculate_load (entry "Bench Press" "3" "5" "inf") = Ok PosInf /\
  calculate_load (entry "Bench Press" "0" "5" "inf") = Ok NaN /\
  calculate_load (entry "Bench Press" "3" "5" "nan") = Ok NaN /\
  (exists st',
      engage_muscles (entry "Bench Press" "3" "5" "inf") 738886 (planner_of []) = Ok st' /\
      (fatigue_of "chest" st' == fatigue_threshold)%Q) /\
  engage_muscles (entry "Bench Press" "3" "5" "nan") 738886 (planner_of []) =
    Ok (planner_of []) /\
  pr_of "Bench Press" (update_prs (entry "Bench Press" "3" "5" "nan") (planner_of [])) =
    {| pr_weight := {| value := Finite 0; mark_date := None |};
       pr_reps := {| value := 0; mark_date := None |};
       pr_history := [{| h_date := DateObj 738886; h_weight := NaN; h_reps := 5 |}] |}.
Proof.
  do 3 (split; [vm_compute; reflexivity |]).
  split; [eexists; split; vm_compute; reflexivity |].
  split; vm_compute; reflexivity.
Qed.

(** The engage call of the sample bench press returns [engaged_bench]. *)
Lemma engaged_bench_engaged (weeks : list (list Day)) :
  engage_muscles bench_press 738886 (planner_of weeks) = Ok (engaged_bench weeks).
Proof. apply engage_muscles_loaded. vm_compute. reflexivity. Qed.

(** The weight PR after a set of 100 and then a set of 90 is no less than
    before them. *)
Lemma pr_updates_monotone_witness :
  value (pr_weight
           (pr_of "Bench Press"
              (replay [(bench_press, DateStr "2024-01-01");
                       (entry "Bench Press" "3" "8" "90", DateStr "2024-01-03")]
                      (planner_of [])))) =
    value (pr_weight (pr_of "Bench Press" (planner_of []))) \/
  float_lt (value (pr_weight (pr_of "Bench Press" (planner_of []))))
           (value (pr_weight
                     (pr_of "Bench Press"
                        (replay [(bench_press, DateStr "2024-01-01");
                                 (entry "Bench Press" "3" "8" "90", DateStr "2024-01-03")]
                                (planner_of []))))).
Proof.
  exact (proj1 (pr_updates_monotone "Bench Press" (planner_of []))
           [(bench_press, DateStr "2024-01-01");
            (entry "Bench Press" "3" "8" "90", DateStr "2024-01-03")]).
Defined.

(** An entry with a worded weight leaves the planner, with its PR of 100,
    as it was. *)
Lemma update_prs_unparsed_witness :
  update_prs worded_weight (update_prs bench_press (planner_of [])) =
  update_prs bench_press (planner_of []).
Proof.
  apply (update_prs_unparsed worded_weight (update_prs bench_press (planner_of []))).
  left. reflexivity.
Defined.

(** After 5 reps at 100, 3 reps at 110 move the weight PR to 110 and leave
    the reps PR at 5. *)
Lemma update_prs_new_best_witness :
  pr_weight (pr_of "Bench Press"
               (update_prs heavy_triple (update_prs bench_press (planner_of [])))) =
    {| value := Finite 110; mark_date := Some (DateObj 738886) |} /\
  pr_reps (pr_of "Bench Press"
             (update_prs heavy_triple (update_prs bench_press (planner_of [])))) =
    {| value := 5; mark_date := Some (DateObj 738886) |}.
Proof.
  destruct (update_prs_new_best heavy_triple (update_prs bench_press (planner_of []))
              (Finite 110) 3) as (Hweight & _ & Hreps).
  - vm_compute. reflexivity.
  - vm_compute. reflexivity.
  - vm_compute. reflexivity.
  - split; [exact Hweight |].
    refine (eq_trans (Hreps _) _); [vm_compute; discriminate | reflexivity].
Defined.

(** A plan whose days all carry a date is recomputed to the same state
    twice. *)
Lemma recalculate_prs_idempotent_witness :
  recalculate_prs (recalculate_prs (planner_of [seven_day_week])) =
  recalculate_prs (planner_of [seven_day_week]).
Proof.
  apply (recalculate_prs_idempotent (planner_of [seven_day_week])).
  left. simpl. eauto.
Defined.

(** C3, where the code departs from it.  [recalculate_prs] leaves the
    stored date string of the last dated day in [self.current_date]; with
    an undated first day before a dated one, the first run records the
    bench press under the planner's current date, 2024-01-01 as a date
    object, and the second under the string "2024-01-02" that the first
    run left behind, so the PR state of two runs differs from that of
    one. *)
Theorem recalculate_prs_not_idempotent :
  prs (recalculate_prs (recalculate_prs (planner_of undated_then_dated))) <>
  prs (recalculate_prs (planner_of undated_then_dated)) /\
  current_date (recalculate_prs (planner_of undated_then_dated)) =
    DateStr "2024-01-02" /\
  (pr_weight <$> prs (recalculate_prs (planner_of undated_then_dated))
                 !! "Bench Press"%string) =
    Some {| value := Finite 100; mark_date := Some (DateObj 738886) |} /\
  (pr_weight <$> prs (recalculate_prs (recalculate_prs (planner_of undated_then_dated)))
                 !! "Bench Press"%string) =
    Some {| value := Finite 100; mark_date := Some (DateStr "2024-01-02") |}.
Proof.
  split; [| repeat split; vm_compute; reflexivity].
  intros Heq. apply (f_equal (fun p => pr_weight <$> p !! "Bench Press"%string)) in Heq.
  vm_compute in Heq. discriminate Heq.
Qed.

(** C4, as stated, fails: the undated day is replayed under the planner's
    current date, not under "2000-01-01". *)
Lemma recalculate_prs_not_epoch :
  prs (recalculate_prs (planner_of undated_then_dated)) <>
  recompute_with_epoch (planner_of undated_then_dated).
Proof.
  intros Heq. apply (f_equal (fun p => pr_weight <$> p !! "Bench Press"%string)) in Heq.
  vm_compute in Heq. discriminate Heq.
Defined.


(** Twelve days make weeks of five, five and two. *)
Lemma restructure_workouts_twelve_witness :
  restructure_workouts (Flat twelve_days) =
    [take 5 twelve_days; take 5 (drop 5 twelve_days); drop 10 twelve_days] /\
  map length (restructure_workouts (Flat twelve_days)) = [5; 5; 2]%nat.
Proof. apply (restructure_workouts_twelve twelve_days). reflexivity. Defined.

(** C6, as stated, fails: twelve days do not make three weeks of five and
    one of two. *)
Lemma restructure_workouts_not_four_weeks :
  map length (restructure_workouts (Flat twelve_days)) <> [5; 5; 5; 2]%nat.
Proof. vm_compute. discriminate. Defined.

(** A seven-day week refuses a day more, a one-day week a day less. *)
Lemma full_and_single_week_refused_witness :
  add_day (planner_of [seven_day_week]) =
    Ok (planner_of [seven_day_week],
        [ShowWarning "Maximum Days Reached" "A week can have a maximum of 7 days."]) /\
  remove_day (Some "Day 1"%string) (planner_of [single_day_week]) =
    Ok (planner_of [single_day_week],
        [ShowWarning "Cannot Remove Day" "A week must have at least one day."]).
Proof.
  split.
  - apply (proj1 (full_and_single_week_refused (planner_of [seven_day_week])
                    seven_day_week eq_refl)).
    reflexivity.
  - apply (proj2 (full_and_single_week_refused (planner_of [single_day_week])
                    single_day_week eq_refl)).
    reflexivity.
Defined.

(** C1, where the code departs from it. After a bench press on 2024-01-01,
    [update_muscle_recovery] with the current date a week earlier returns a
    chest fatigue of 106.2, above the threshold of 100;
    [calculate_current_fatigue], which clamps the elapsed days at 0, leaves
    it at 1.2 on the same input. *)
Theorem update_muscle_recovery_overshoots :
  exists engaged st' st'',
    engage_muscles bench_press 738886 (planner_of []) = Ok engaged /\
    update_muscle_recovery
      (set_current_date (DateObj (738886 - 7)) engaged) = Ok st' /\
    (fatigue_of "chest" st' == 1062 # 10)%Q /\
    (fatigue_threshold < fatigue_of "chest" st')%Q /\
    calculate_current_fatigue
      (set_current_date (DateObj (738886 - 7)) engaged) = Ok st'' /\
    (fatigue_of "chest" st'' == 12 # 10)%Q.
Proof.
  eexists. eexists. eexists.
  split; [vm_compute; reflexivity |].
  split; [vm_compute; reflexivity |].
  split; [vm_compute; reflexivity |].
  split; [vm_compute; reflexivity |].
  split; vm_compute; reflexivity.
Qed.

(** A bench press, a decay a day later and a second bench press, from the
    reset state, return with every fatigue within bounds. *)
Lemma fatigue_stays_in_bounds_witness :
  exists st',
    for_each run_op
      [Engage bench_press 738886; Decay 738887; Engage heavy_triple 738888]
      (planner_of []) = Ok st' /\
    Forall (fun '(_, data) => in_bounds data) (muscle_recovery st').
Proof.
  apply (fatigue_stays_in_bounds
           [Engage bench_press 738886; Decay 738887; Engage heavy_triple 738888]
           (planner_of [])).
  - reflexivity.
  - repeat constructor; eexists; vm_compute; reflexivity.
Defined.

(** A chest at fatigue 1.2 decayed to the day of its last engagement stays
    at 1.2. *)
Lemma decay_same_day_unchanged_witness :
  (exists data',
      current_fatigue_item (DateObj 738886)
        ("chest"%string, {| fatigue := 12 # 10; last_workout := Some 738886 |}) =
        Ok ("chest"%string, data') /\
      (fatigue data' == 12 # 10)%Q /\ last_workout data' = Some 738886) /\
  (exists data',
      muscle_recovery_item (DateObj 738886)
        ("chest"%string, {| fatigue := 12 # 10; last_workout := Some 738886 |}) =
        Ok ("chest"%string, data') /\
      (fatigue data' == 12 # 10)%Q /\ last_workout data' = Some 738886).
Proof.
  apply (decay_same_day_unchanged "chest"
           {| fatigue := 12 # 10; last_workout := Some 738886 |} 738886 15).
  - reflexivity.
  - reflexivity.
  - discriminate.
Defined.

(** ** The further properties at sample inputs *)

(** Decides a closed decidable proposition by evaluation. *)
Ltac decided := apply (bool_decide_unpack _); vm_compute; exact I.

(** Every day of a sample plan replays. *)
Ltac replays := unfold plan_replays, day_replays, loads_return; decided.

(** After a recomputation over one bench day, the bench press marks are
    carried by its history. *)
Lemma recalculate_prs_marks_backed_witness :
  backed (pr_of "Bench Press" (recalculate_prs (planner_of [single_day_week]))).
Proof.
  apply (recalculate_prs_marks_backed (planner_of [single_day_week]) "Bench Press").
  vm_compute. reflexivity.
Defined.

(** With a dated day in the plan and the chest engaged, both decays raise
    TypeError after a recomputation. *)
Lemma decay_after_recalculate_raises_witness :
  calculate_current_fatigue (recalculate_prs (engaged_bench [single_day_week]))
  = Raise TypeError /\
  update_muscle_recovery (recalculate_prs (engaged_bench [single_day_week]))
  = Raise TypeError.
Proof.
  apply (decay_after_recalculate_raises (engaged_bench [single_day_week])).
  - apply Exists_cons_hd. eexists. reflexivity.
  - apply Exists_cons_hd. eexists. vm_compute. reflexivity.
Defined.

(** A chest at fatigue 50, one day after its last workout: two decays take
    15 off twice. *)
Lemma decay_twice_recovers_twice_witness :
  exists once twice,
    current_fatigue_item (DateObj 738887)
      ("chest"%string, {| fatigue := 50; last_workout := Some 738886 |}) =
      Ok ("chest"%string, once) /\
    current_fatigue_item (DateObj 738887) ("chest"%string, once) =
      Ok ("chest"%string, twice) /\
    last_workout twice = Some 738886 /\
    (fatigue twice == 20)%Q.
Proof.
  destruct (decay_twice_recovers_twice "chest"
              {| fatigue := 50; last_workout := Some 738886 |} 738886 15 738887
              eq_refl eq_refl)
    as (once & twice & Hone & Htwo & Hlast & Hfatigue).
  exists once, twice. repeat split; assumption.
Defined.

(** After a bench press on 2024-01-01, the two decays to 2024-01-03 agree. *)
Lemma decays_agree_from_the_last_workout_on_witness :
  exists st1 st2,
    calculate_current_fatigue
      (set_current_date (DateObj 738888) (engaged_bench [])) = Ok st1 /\
    update_muscle_recovery
      (set_current_date (DateObj 738888) (engaged_bench [])) = Ok st2 /\
    Forall2 (fun one other =>
               one.1 = other.1 /\ last_workout one.2 = last_workout other.2 /\
               (fatigue one.2 == fatigue other.2)%Q)
            (muscle_recovery st1) (muscle_recovery st2).
Proof.
  apply (decays_agree_from_the_last_workout_on 738888
           (set_current_date (DateObj 738888) (engaged_bench []))).
  - reflexivity.
  - set (tracked := muscle_recovery _). vm_compute in tracked. subst tracked.
    repeat (apply Forall_cons_2;
            [split; [eexists; reflexivity
                    | intros last Hlast;
                      first [discriminate Hlast | injection Hlast as <-; lia]] |]).
    apply Forall_nil_2.
Defined.

(** Viewing the bench day of a one-day plan returns without a dialog, under
    the day's date, and records the bench press. *)
Lemma load_workout_data_returns_witness :
  exists st',
    load_workout_data (planner_of [single_day_week]) = Ok (st', []) /\
    current_date st' = DateObj 738886 /\
    prs st' = prs (replay [(bench_press, DateObj 738886)] (planner_of [single_day_week])).
Proof.
  destruct (load_workout_data_returns (planner_of [single_day_week]) single_day_week
              {| day_label := "Day 1"; day_date := Some "2024-01-01"%string;
                 day_exercises := [bench_press] |})
    as (st' & Hrun & _ & _ & Hdate & Hprs & _).
  - decided.
  - reflexivity.
  - reflexivity.
  - replays.
  - unfold names_known. decided.
  - exists st'. split; [exact Hrun |]. split; [exact Hdate | exact Hprs].
Defined.

(** On a one-day plan [add_day] adds "Day 2" and views it. *)
Lemma add_day_appends_witness :
  exists st',
    add_day (planner_of [single_day_week]) =
    Ok (st', [ShowInfo "Day Added"
                "Added Day 2 to the current week and renumbered subsequent days."]) /\
    current_day st' = 1 /\ prs st' = ∅.
Proof.
  destruct (add_day_appends (planner_of [single_day_week]) 0 single_day_week)
    as (st' & Hrun & _ & _ & Hday & Hprs).
  - reflexivity.
  - reflexivity.
  - decided.
  - decided.
  - replays.
  - decided.
  - exists st'. split; [exact Hrun |]. split; [exact Hday | exact Hprs].
Defined.

(** Removing "Day 3" from a week of seven days, viewing its first day. *)
Lemma remove_day_removes_witness :
  exists st',
    remove_day (Some "Day 3"%string) (planner_of [seven_day_week]) =
    Ok (st', [ShowInfo "Day Removed"
                "Removed Day 3 from the current week and renumbered subsequent days."]) /\
    length <$> workouts st' = [6%nat] /\ current_day st' = 0.
Proof.
  destruct (remove_day_removes (planner_of [seven_day_week]) 0 2 seven_day_week "Day 3")
    as (st' & removed & Hrun & _ & _ & _ & Hplan & _ & Hday).
  - reflexivity.
  - reflexivity.
  - decided.
  - decided.
  - decided.
  - reflexivity.
  - replays.
  - unfold names_known. decided.
  - exists st'. split; [exact Hrun |]. split; [| exact Hday].
    rewrite Hplan. vm_compute. reflexivity.
Defined.

(** Swapping "Day 1" and "Day 2" of a week of seven days. *)
Lemma swap_days_exchanges_witness :
  exists st',
    swap_days (Some ("Day 1", "Day 2")%string) (planner_of [seven_day_week]) =
    Ok (st', [ShowInfo "Swap Successful"
                "The selected days have been swapped and day numbers updated."]) /\
    (day_exercises <$> concat (workouts st')) !! 1%nat = Some [bench_press].
Proof.
  destruct (swap_days_exchanges (planner_of [seven_day_week]) 0 0 1 seven_day_week
              "Day 1" "Day 2")
    as (st' & first & second & Hrun & Hfirst & _ & Hsecond & _ & Hplan & _).
  - reflexivity.
  - reflexivity.
  - decided.
  - decided.
  - reflexivity.
  - reflexivity.
  - discriminate.
  - replays.
  - unfold names_known. decided.
  - exists st'. split; [exact Hrun |].
    injection Hfirst as <-. injection Hsecond as <-.
    rewrite Hplan. vm_compute. reflexivity.
Defined.

(** [swap_days] on a one-day week. *)
Lemma swap_days_short_week_raises_witness :
  swap_days None (planner_of [single_day_week]) = Raise IndexError.
Proof.
  apply (swap_days_short_week_raises (planner_of [single_day_week]) single_day_week None).
  - reflexivity.
  - decided.
Defined.

(** Adding a day to a two-day week and removing "Day 3" again. *)
Lemma add_day_then_remove_day_witness :
  exists st1 st2,
    add_day (planner_of [two_day_week]) =
    Ok (st1, [ShowInfo "Day Added"
                "Added Day 3 to the current week and renumbered subsequent days."]) /\
    remove_day (Some "Day 3"%string) st1 =
    Ok (st2, [ShowInfo "Day Removed"
                "Removed Day 3 from the current week and renumbered subsequent days."]) /\
    workouts st2 = [two_day_week].
Proof.
  destruct (add_day_then_remove_day
              (planner_of [two_day_week]) 0
              two_day_week)
    as (st1 & st2 & Hadd & Hremove & Hplan & _).
  - reflexivity.
  - reflexivity.
  - split; decided.
  - decided.
  - replays.
  - decided.
  - unfold names_known. decided.
  - exists st1, st2. split; [exact Hadd |]. split; [exact Hremove |].
    rewrite Hplan. vm_compute. reflexivity.
Defined.

(** Swapping "Day 1" and "Day 2" twice in a numbered week. *)
Lemma swap_days_twice_witness :
  exists st1 st2 shown,
    swap_days (Some ("Day 1", "Day 2")%string) (planner_of [seven_day_week]) =
      Ok (st1, shown) /\
    swap_days (Some ("Day 1", "Day 2")%string) st1 = Ok (st2, shown) /\
    workouts st2 = [seven_day_week].
Proof.
  destruct (swap_days_twice (planner_of [seven_day_week]) 0 0 1 seven_day_week
              "Day 1" "Day 2")
    as (st1 & st2 & shown & Hone & Htwo & Hplan & _).
  - vm_compute. reflexivity.
  - reflexivity.
  - reflexivity.
  - decided.
  - decided.
  - reflexivity.
  - reflexivity.
  - discriminate.
  - replays.
  - unfold names_known. decided.
  - exists st1, st2, shown. split; [exact Hone |]. split; [exact Htwo | exact Hplan].
Defined.

(** Adding an exercise to the bench day and removing the new row. *)
Lemma add_exercise_then_remove_witness :
  exists st1 st2,
    add_exercise (planner_of [single_day_week]) = Ok (st1, []) /\
    day_exercises <$> concat (workouts st1) = [[bench_press; new_exercise]] /\
    remove_exercise (Some 1%nat) st1 = Ok st2 /\
    workouts st2 = [single_day_week].
Proof.
  destruct (add_exercise_then_remove (planner_of [single_day_week]) 0 0 single_day_week
              {| day_label := "Day 1"; day_date := Some "2024-01-01"%string;
                 day_exercises := [bench_press] |})
    as (st1 & st2 & Hadd & Hplan1 & _ & _ & Hremove & Hplan2 & _).
  - split; reflexivity.
  - reflexivity.
  - reflexivity.
  - reflexivity.
  - replays.
  - decided.
  - split; [eexists; reflexivity | unfold rated; decided].
  - exists st1, st2. split; [exact Hadd |]. split; [now rewrite Hplan1 |].
    split; [exact Hremove | exact Hplan2].
Defined.

(** Dragging the first of two exercises below the second, and back. *)
Lemma on_release_moves_witness :
  exists st1,
    on_release (Some (0, 1)%nat) (planner_of [[bench_day]]) = Ok st1 /\
    day_exercises <$> concat (workouts st1) = [[heavy_triple; bench_press]] /\
    on_release (Some (1, 0)%nat) st1 = Ok (planner_of [[bench_day]]).
Proof.
  pose proof (on_release_moves (planner_of [[bench_day]]) 0 0 0 1 [bench_day] bench_day
                bench_press) as Hmoves.
  destruct Hmoves as (Hrun & _ & _ & Hback).
  - split; reflexivity.
  - reflexivity.
  - reflexivity.
  - reflexivity.
  - eexists. split; [exact Hrun |]. split; [reflexivity |].
    apply (Hback _ Hrun).
Defined.

(** Next from the bench day of [two_weeks] leads to the rest day of the
    week, stamping the bench day with the date shown. *)
Lemma next_day_moves_witness :
  exists st',
    next_day 738890 (planner_of two_weeks) = Ok (st', []) /\
    at_position st' 0 1 /\
    day_date <$> concat (workouts st') =
      [Some "2024-01-05"; Some "2024-01-02"; Some "2024-01-03"]%string /\
    current_date st' = DateObj 738887.
Proof.
  destruct (next_day_moves (planner_of two_weeks) 0 0
              {| day_label := "Day 1"; day_date := Some "2024-01-01"%string;
                 day_exercises := [bench_press] |} 738890)
    as (st' & viewed & Hrun & Hplan & Hat & Hviewed & Hdate).
  - split; reflexivity.
  - reflexivity.
  - repeat constructor; discriminate.
  - replays.
  - decided.
  - unfold names_known. decided.
  - exists st'. split; [exact Hrun |]. split; [exact Hat |].
    split; [rewrite Hplan; vm_compute; reflexivity |].
    rewrite Hdate. injection Hviewed as <-. vm_compute. reflexivity.
Defined.

(** Previous from the first day of week 2 of [two_weeks] leads to the last
    day of week 1. *)
Lemma previous_day_moves_witness :
  exists st',
    previous_day 738888 (planner_at two_weeks 1 0) = Ok (st', []) /\
    at_position st' 0 1 /\
    current_date st' = DateObj 738887.
Proof.
  destruct (previous_day_moves (planner_at two_weeks 1 0) 1 0
              (rest_day "Day 3" "2024-01-03") 738888)
    as (st' & viewed & Hrun & Hplan & Hat & Hviewed & Hdate).
  - split; reflexivity.
  - reflexivity.
  - repeat constructor; discriminate.
  - replays.
  - decided.
  - unfold names_known. decided.
  - exists st'. split; [exact Hrun |]. split; [exact Hat |].
    rewrite Hdate. injection Hviewed as <-. vm_compute. reflexivity.
Defined.

(** Around the empty week of [gapped_weeks]: Next from week 1 warns, and
    Previous from week 3 raises IndexError. *)
Lemma empty_week_stops_navigation_witness :
  (exists st',
     next_day 738886 (planner_of gapped_weeks) =
     Ok (st', [ShowWarning "Invalid Week/Day" "The selected week or day is out of range."]) /\
     at_position st' 1 0) /\
  previous_day 738888 (planner_at gapped_weeks 2 0) = Raise IndexError.
Proof.
  split.
  - apply (proj1 (empty_week_stops_navigation (planner_of gapped_weeks) 0 0
                    {| day_label := "Day 1"; day_date := Some "2024-01-01"%string;
                       day_exercises := [bench_press] |} 738886
                    (conj eq_refl eq_refl) eq_refl)); reflexivity.
  - apply (proj2 (empty_week_stops_navigation (planner_at gapped_weeks 2 0) 2 0
                    (rest_day "Day 2" "2024-01-03") 738888
                    (conj eq_refl eq_refl) eq_refl)); [reflexivity |].
    exists 1%nat. split; reflexivity.
Defined.

(** The plan of [pasted_plan] has two days and sets no PR. *)
Lemma parsed_plan_sets_no_pr_witness :
  day_label <$> concat (restructure_workouts (Flat (Parser.parse_workout_data pasted_plan)))
    = ["Day 1"; "Day 2"]%string /\
  prs (recalculate_prs
         (planner_of (restructure_workouts (Flat (Parser.parse_workout_data pasted_plan)))))
  !! "Squat"%string = Some new_pr.
Proof.
  split; [vm_compute; reflexivity |].
  assert (py_float "" = None) as Hfloat by (vm_compute; reflexivity).
  destruct (parsed_plan_sets_no_pr pasted_plan
              (planner_of (restructure_workouts (Flat (Parser.parse_workout_data pasted_plan))))
              Hfloat eq_refl) as (_ & Hrecalc & Hzero).
  destruct (prs _ !! "Squat"%string) as [pr |] eqn:Hpr.
  - now rewrite (Hzero "Squat"%string pr Hpr).
  - rewrite Hrecalc in Hpr. vm_compute in Hpr. discriminate.
Defined.

(** Renaming the only entry of [worded_day], whose weight is a word, to a
    name without a record raises KeyError; editing the sets of the bench
    press to a 1 followed by 400 zeros raises OverflowError; editing its
    weight to 120 records it. *)
Lemma on_focus_out_records_witness :
  on_focus_out 0 ColExercise "Squat" (planner_of [[worded_day]]) = Raise KeyError /\
  on_focus_out 0 ColSets huge_sets (planner_of [single_day_week]) = Raise OverflowError /\
  exists st',
    on_focus_out 0 ColWeight "120" (planner_of [single_day_week]) = Ok st' /\
    value (pr_weight (pr_of "Bench Press" st')) = Finite 120.
Proof.
  split; [| split].
  - destruct (on_focus_out_records (planner_of [[worded_day]]) 0 0 0 [worded_day]
                worded_day worded_weight ColExercise "Squat")
      as (_ & _ & _ & Hkey).
    + split; reflexivity.
    + reflexivity.
    + reflexivity.
    + reflexivity.
    + reflexivity.
    + split; [eexists; reflexivity | unfold rated; decided].
    + apply Hkey; [reflexivity | left; reflexivity].
  - destruct (on_focus_out_records (planner_of [single_day_week]) 0 0 0 single_day_week
                {| day_label := "Day 1"; day_date := Some "2024-01-01"%string;
                   day_exercises := [bench_press] |} bench_press ColSets huge_sets)
      as (_ & Hraise & _).
    + split; reflexivity.
    + reflexivity.
    + reflexivity.
    + reflexivity.
    + reflexivity.
    + split; [eexists; reflexivity | unfold rated; decided].
    + apply Hraise. vm_compute. reflexivity.
  - destruct (on_focus_out_records (planner_of [single_day_week]) 0 0 0 single_day_week
                {| day_label := "Day 1"; day_date := Some "2024-01-01"%string;
                   day_exercises := [bench_press] |} bench_press ColWeight "120")
      as (_ & _ & Hrecorded & _).
    + split; reflexivity.
    + reflexivity.
    + reflexivity.
    + reflexivity.
    + reflexivity.
    + split; [eexists; reflexivity | unfold rated; decided].
    + destruct Hrecorded as (st' & Hrun & _ & Hprs & _); [replays | decided |].
      exists st'. split; [exact Hrun |].
      unfold pr_of. rewrite Hprs. vm_compute. reflexivity.
Defined.
